(** * aimon / activity-parser: classification and session aggregation

    A shallow embedding of the TypeScript sources of the activity parser
    (QualityAnalyzer, RuleEngine, ActivityCategorizer, SessionManager and
    the ActivityParser orchestrator) together with the properties that the
    design document states about them.

    Conventions of the embedding.
    - JavaScript numbers are exact: timestamps and durations are integers
      ([Z], epoch milliseconds), scores are rationals ([Q]).
    - JavaScript strings are sequences of 8-bit code units ([string]); the
      case mappings are those of ASCII.
    - An exception is the [Throw] outcome of [result]; stateful classes
      thread their fields explicitly, and a thrown exception keeps the
      mutations made before it.
    - Objects used as dictionaries are looked up by own key only.
    - [Map]s whose iteration order is not observed are [gmap]s; records
      built key by key and later enumerated are association lists in
      insertion order.
    - The built-ins of the runtime that take text apart (the [URL] and
      [RegExp] constructors, the conversions between numbers and strings)
      are the fields of a [Host]; the properties hold for every host, the
      examples run on the reference host [Node.host].
    - Calls of [parseActivity] are awaited one after the other. *)

From Stdlib Require Import ZArith QArith Qminmax String Ascii List Bool Lia Lqa.
From Stdlib Require Import Sorted Permutation.
From stdpp Require Import gmap strings.
Import ListNotations.

Local Open Scope string_scope.
Local Open Scope Z_scope.

(** ** Outcomes of a call *)

Inductive result (A : Type) : Type :=
| Ok (a : A)
| Throw (msg : string).
Arguments Ok {A} a.
Arguments Throw {A} msg.

Definition rbind {A B} (r : result A) (f : A -> result B) : result B :=
  match r with
  | Ok a => f a
  | Throw e => Throw e
  end.

Declare Scope result_scope.
Delimit Scope result_scope with result.
Notation "'let?' x ':=' c 'in' k" := (rbind c (fun x => k))
  (at level 10, x pattern, c at level 100, k at level 200) : result_scope.
Local Open Scope result_scope.

Definition is_ok {A} (r : result A) : bool :=
  match r with Ok _ => true | Throw _ => false end.

(** ** JavaScript strings *)

Module JsString.

Definition chars (s : string) : list ascii := list_ascii_of_string s.
Definition of_chars (l : list ascii) : string := string_of_list_ascii l.

Definition code (c : ascii) : nat := nat_of_ascii c.

Definition in_range (lo hi : ascii) (c : ascii) : bool :=
  (Nat.leb (code lo) (code c)) && (Nat.leb (code c) (code hi)).

Definition is_upper := in_range "A" "Z".
Definition is_lower := in_range "a" "z".
Definition is_digit := in_range "0" "9".

Definition lower_char (c : ascii) : ascii :=
  if is_upper c then ascii_of_nat (code c + 32) else c.

(** [s.toLowerCase()] *)
Definition toLowerCase (s : string) : string :=
  of_chars (map lower_char (chars s)).

Fixpoint is_prefix (p s : list ascii) : bool :=
  match p, s with
  | [], _ => true
  | a :: p', b :: s' => Ascii.eqb a b && is_prefix p' s'
  | _ :: _, [] => false
  end.

Fixpoint includes_chars (s sub : list ascii) : bool :=
  is_prefix sub s ||
  match s with
  | [] => false
  | _ :: s' => includes_chars s' sub
  end.

(** [s.includes(sub)] *)
Definition includes (s sub : string) : bool :=
  includes_chars (chars s) (chars sub).

(** [s.split(sep)] for a one-character separator. *)
Fixpoint split_chars (sep : ascii) (cur : list ascii) (s : list ascii)
  : list string :=
  match s with
  | [] => [of_chars (rev cur)]
  | c :: s' =>
      if Ascii.eqb c sep
      then of_chars (rev cur) :: split_chars sep [] s'
      else split_chars sep (c :: cur) s'
  end.

Definition split (sep : ascii) (s : string) : list string :=
  split_chars sep [] (chars s).

(** Truthiness of a string: the empty string is falsy. *)
Definition truthy (s : string) : bool := negb (String.eqb s "").

(** An optional string property used as a condition. *)
Definition truthy_opt (s : option string) : bool :=
  match s with Some x => truthy x | None => false end.

(** [a || b] on an optional string property. *)
Definition or_else (s : option string) (d : string) : string :=
  match s with
  | Some x => if truthy x then x else d
  | None => d
  end.

End JsString.

(** ** Regular expressions

    The regular-expression literals of the sources are written as syntax
    trees and run by a backtracking matcher with the priorities of
    ECMAScript: alternatives left to right, greedy quantifiers. *)

Module Regex.
Import JsString.

Inductive re : Type :=
| Eps
| Chr (p : ascii -> bool)
| Seq (a b : re)
| Alt (a b : re)
| Rep (lo : nat) (hi : option nat) (a : re)
| Grp (n : nat) (a : re)
| Ref (n : nat)
| Bol (multiline : bool)
| Eol (multiline : bool)
| WordB.

Record mstate : Type := {
  prev : option ascii;
  rest : list ascii;
  caps : list (nat * list ascii)
}.

Definition is_word (c : ascii) : bool :=
  is_upper c || is_lower c || is_digit c || Ascii.eqb c "_".

Definition is_space (c : ascii) : bool :=
  existsb (Nat.eqb (code c)) [9; 10; 11; 12; 13; 32; 160]%nat.

Definition is_newline (c : ascii) : bool :=
  existsb (Nat.eqb (code c)) [10; 13]%nat.

Definition is_word_opt (c : option ascii) : bool :=
  match c with Some x => is_word x | None => false end.

Fixpoint last_of (d : option ascii) (l : list ascii) : option ascii :=
  match l with
  | [] => d
  | c :: l' => last_of (Some c) l'
  end.

Fixpoint lookup_cap (n : nat) (cs : list (nat * list ascii))
  : option (list ascii) :=
  match cs with
  | [] => None
  | (i, v) :: cs' => if Nat.eqb i n then Some v else lookup_cap n cs'
  end.

Fixpoint m (fuel : nat) (r : re) (st : mstate)
           (k : mstate -> option mstate) {struct fuel} : option mstate :=
  match fuel with
  | O => None
  | S f =>
    match r with
    | Eps => k st
    | Chr p =>
        match rest st with
        | c :: t =>
            if p c
            then k {| prev := Some c; rest := t; caps := caps st |}
            else None
        | [] => None
        end
    | Seq a b => m f a st (fun st1 => m f b st1 k)
    | Alt a b =>
        match m f a st k with
        | Some x => Some x
        | None => m f b st k
        end
    | Rep lo hi a =>
        let again :=
          match hi with
          | Some O => None
          | _ =>
              (* an optional iteration has to consume something *)
              m f a st (fun st1 =>
                if Nat.ltb (length (rest st1)) (length (rest st)) ||
                   Nat.ltb 0 lo
                then m f (Rep (Nat.pred lo) (option_map Nat.pred hi) a) st1 k
                else None)
          end in
        match again with
        | Some x => Some x
        | None => if Nat.eqb lo 0 then k st else None
        end
    | Grp n a =>
        m f a st (fun st1 =>
          let taken :=
            firstn (length (rest st) - length (rest st1)) (rest st) in
          k {| prev := prev st1; rest := rest st1;
               caps := (n, taken) :: caps st1 |})
    | Ref n =>
        match lookup_cap n (caps st) with
        | None => k st
        | Some v =>
            if is_prefix v (rest st)
            then k {| prev := last_of (prev st) v;
                      rest := skipn (length v) (rest st);
                      caps := caps st |}
            else None
        end
    | Bol ml =>
        match prev st with
        | None => k st
        | Some c => if ml && is_newline c then k st else None
        end
    | Eol ml =>
        match rest st with
        | [] => k st
        | c :: _ => if ml && is_newline c then k st else None
        end
    | WordB =>
        if xorb (is_word_opt (prev st)) (is_word_opt (hd_error (rest st)))
        then k st else None
    end
  end.

Fixpoint size (r : re) : nat :=
  match r with
  | Seq a b | Alt a b => S (size a + size b)
  | Rep lo _ a => S (lo + size a)
  | Grp _ a => S (size a)
  | _ => 1%nat
  end.

(** Every call of [m] takes one unit of fuel; a continuation runs on the
    fuel of the call that built it, so that the fuel bounds the nesting of
    the pattern times the number of iterations, not the number of steps. *)
Definition fuel_for (r : re) (s : list ascii) : nat :=
  (S (size r) * (length s + 2) + 8)%nat.

(** One attempt anchored at the current position. *)
Definition match_here (r : re) (p : option ascii) (s : list ascii)
  : option mstate :=
  m (fuel_for r s) r {| prev := p; rest := s; caps := [] |} Some.

(** The leftmost match: the text before it, the match, the state after. *)
Fixpoint search (r : re) (p : option ascii) (before s : list ascii)
  : option (list ascii * list ascii * mstate) :=
  match match_here r p s with
  | Some st =>
      Some (rev before, firstn (length s - length (rest st)) s, st)
  | None =>
      match s with
      | [] => None
      | c :: s' => search r (Some c) (c :: before) s'
      end
  end.

(** [r.test(s)] *)
Definition test (r : re) (s : string) : bool :=
  match search r None [] (chars s) with Some _ => true | None => false end.

(** [s.match(r)] without the global flag: the whole match and group 1,
    which is [undefined] when the group did not take part. *)
Definition exec (r : re) (s : string) : option (string * option string) :=
  match search r None [] (chars s) with
  | Some (_, whole, st) =>
      Some (of_chars whole, option_map of_chars (lookup_cap 1 (caps st)))
  | None => None
  end.

(** [(s.match(r) || []).length] with the global flag: the number of
    successive matches, an empty match advancing by one character. *)
Fixpoint count_from (n : nat) (r : re) (p : option ascii) (s : list ascii)
  : nat :=
  match n with
  | O => 0
  | S n' =>
      match search r p [] s with
      | None => 0
      | Some (_, whole, st) =>
          match whole, rest st with
          | [], [] => 1
          | [], c :: s' => S (count_from n' r (Some c) s')
          | _ :: _, s' => S (count_from n' r (prev st) s')
          end
      end
  end.

Definition count_matches (r : re) (s : string) : nat :=
  count_from (S (String.length s)) r None (chars s).

(** [s.split(r)] for a pattern without groups: a match that is empty
    at the start of the current piece does not split. *)
Fixpoint split_from (n : nat) (r : re) (p : option ascii)
                    (cur : list ascii) (s : list ascii) : list string :=
  match n with
  | O => []
  | S n' =>
      match s with
      | [] => [of_chars (rev cur)]
      | c :: s' =>
          match match_here r p s with
          | Some st =>
              if Nat.eqb (length (rest st)) (length s) &&
                 Nat.eqb (length cur) 0
              then split_from n' r (Some c) (c :: cur) s'
              else of_chars (rev cur) ::
                   split_from n' r (prev st) [] (rest st)
          | None => split_from n' r (Some c) (c :: cur) s'
          end
      end
  end.

Definition split (r : re) (s : string) : list string :=
  match chars s with
  | [] => match match_here r None [] with Some _ => [] | None => [s] end
  | l => split_from (2 * length l + 2) r None [] l
  end.

(** Builders for the literals. *)
Definition chr (c : ascii) : re := Chr (Ascii.eqb c).
Definition chr_ci (c : ascii) : re :=
  Chr (fun x => Ascii.eqb (lower_char x) (lower_char c)).
Definition one_of (s : string) : ascii -> bool :=
  fun c => existsb (Ascii.eqb c) (chars s).
Definition dot : re := Chr (fun c => negb (is_newline c)).
Definition any : re := Chr (fun _ => true).
Definition digit : re := Chr is_digit.
Definition word : re := Chr is_word.
Definition space : re := Chr is_space.
Definition star (a : re) : re := Rep 0 None a.
Definition plus (a : re) : re := Rep 1 None a.
Definition opt (a : re) : re := Rep 0 (Some 1%nat) a.
Definition times (n : nat) (a : re) : re := Rep n (Some n) a.

Fixpoint seq (l : list re) : re :=
  match l with
  | [] => Eps
  | [a] => a
  | a :: l' => Seq a (seq l')
  end.

Fixpoint alt (l : list re) : re :=
  match l with
  | [] => Chr (fun _ => false)
  | [a] => a
  | a :: l' => Alt a (alt l')
  end.

Definition lit (s : string) : re := seq (map chr (chars s)).
Definition lit_ci (s : string) : re := seq (map chr_ci (chars s)).

End Regex.

(** ** JavaScript values and the host's built-ins *)

#[warnings="-register-all"]
Inductive JsValue : Type :=
| JUndefined
| JNull
| JBool (b : bool)
| JNum (q : Q)
| JStr (s : string)
| JObj (fields : list (string * JsValue)).

Module Js.

Definition Qltb (a b : Q) : bool := negb (Qle_bool b a).

Definition truthy (v : JsValue) : bool :=
  match v with
  | JUndefined | JNull => false
  | JBool b => b
  | JNum q => negb (Qeq_bool q 0)
  | JStr s => JsString.truthy s
  | JObj _ => true
  end.

Fixpoint assoc {A} (k : string) (l : list (string * A)) : option A :=
  match l with
  | [] => None
  | (k', v) :: l' => if String.eqb k' k then Some v else assoc k l'
  end.

(** [Object.keys(v).length > 0] for a truthy [v]. *)
Definition has_keys (v : JsValue) : bool :=
  match v with
  | JObj l => negb (Nat.eqb (length l) 0)
  | JStr s => negb (Nat.eqb (String.length s) 0)
  | _ => false
  end.

Definition digit_value (c : ascii) : option nat :=
  if JsString.is_digit c then Some (JsString.code c - 48)%nat else None.

Fixpoint index_digits (acc : nat) (l : list ascii) : option nat :=
  match l with
  | [] => Some acc
  | c :: l' =>
      match digit_value c with
      | Some d => index_digits (10 * acc + d) l'
      | None => None
      end
  end.

(** A canonical array index: decimal digits without a leading zero. *)
Definition array_index (k : string) : option nat :=
  match JsString.chars k with
  | [] => None
  | [c] => digit_value c
  | c :: l => if Ascii.eqb c "0" then None else index_digits 0 (c :: l)
  end.

(** [v?.[k]]: the own property [k], [undefined] when [v] is nullish or
    has no such property. *)
Definition get (v : JsValue) (k : string) : JsValue :=
  match v with
  | JObj l => match assoc k l with Some x => x | None => JUndefined end
  | JStr s =>
      if String.eqb k "length"
      then JNum (inject_Z (Z.of_nat (String.length s)))
      else match array_index k with
           | Some i =>
               match nth_error (JsString.chars s) i with
               | Some c => JStr (String c EmptyString)
               | None => JUndefined
               end
           | None => JUndefined
           end
  | _ => JUndefined
  end.

(** [a === b]; two objects are never the same reference here, one of
    them coming from the record and the other from the configuration. *)
Definition strict_eq (a b : JsValue) : bool :=
  match a, b with
  | JUndefined, JUndefined => true
  | JNull, JNull => true
  | JBool x, JBool y => Bool.eqb x y
  | JNum x, JNum y => Qeq_bool x y
  | JStr x, JStr y => String.eqb x y
  | _, _ => false
  end.

End Js.

(** The built-ins of the runtime that the sources call and that are not
    part of the repository. *)
Record Host : Type := {
  (** [new URL(u).hostname]; [None] when the constructor throws. *)
  URL_hostname : string -> option string;
  (** [new RegExp(p)]; [None] when the pattern is a syntax error. *)
  RegExp_new : string -> option Regex.re;
  (** [Number(s)] on a string; [None] for NaN. *)
  Number_of_string : string -> option Q;
  (** [String(n)] on a number. *)
  Number_toString : Q -> string
}.

Module JsConv.

(** [ToNumber(v)]; [None] for NaN. *)
Definition to_number (h : Host) (v : JsValue) : option Q :=
  match v with
  | JUndefined => None
  | JNull => Some 0%Q
  | JBool b => Some (if b then 1%Q else 0%Q)
  | JNum q => Some q
  | JStr s => Number_of_string h s
  | JObj _ => None
  end.

(** [ToString(v)] *)
Definition to_string (h : Host) (v : JsValue) : string :=
  match v with
  | JUndefined => "undefined"
  | JNull => "null"
  | JBool b => if b then "true" else "false"
  | JNum q => Number_toString h q
  | JStr s => s
  | JObj _ => "[object Object]"
  end.

(** [a > b] for a number [a]. *)
Definition num_gt (h : Host) (a : Q) (b : JsValue) : bool :=
  match to_number h b with
  | Some y => Js.Qltb y a
  | None => false
  end.

(** [a < b] for a number [a]. *)
Definition num_lt (h : Host) (a : Q) (b : JsValue) : bool :=
  match to_number h b with
  | Some y => Js.Qltb a y
  | None => false
  end.

(** [v > n] for a numeric literal [n]. *)
Definition gt_num (h : Host) (v : JsValue) (n : Q) : bool :=
  match to_number h v with
  | Some x => Js.Qltb n x
  | None => false
  end.

End JsConv.

(** ** The raw record *)

Record ActivityContext : Type := {
  application : option string;
  window_title : option string;
  process_name : option string;
  url : option string
}.

Module Raw.
Record t : Type := {
  id : string;
  timestamp : Z;
  device_id : string;
  session_id : string;
  type : string;
  data : JsValue;
  processed_text : option string;
  context : option ActivityContext
}.

Definition opt_str (o : option string) : JsValue :=
  match o with Some s => JStr s | None => JUndefined end.

Definition context_value (c : ActivityContext) : JsValue :=
  JObj [("application", opt_str (application c));
        ("window_title", opt_str (window_title c));
        ("process_name", opt_str (process_name c));
        ("url", opt_str (url c))].

(** The record as the object that dynamic field lookup walks. *)
Definition to_value (r : t) : JsValue :=
  JObj [("id", JStr (id r));
        ("timestamp", JNum (inject_Z (timestamp r)));
        ("device_id", JStr (device_id r));
        ("session_id", JStr (session_id r));
        ("type", JStr (type r));
        ("data", data r);
        ("processed_text", opt_str (processed_text r));
        ("context", match context r with
                    | Some c => context_value c
                    | None => JUndefined
                    end)].

(** [raw.context?.application] and its siblings. *)
Definition ctx (f : ActivityContext -> option string) (r : t)
  : option string :=
  match context r with Some c => f c | None => None end.
End Raw.

(** ** QualityAnalyzer (analyzers/QualityAnalyzer.ts) *)

Record QualityThresholds : Type := {
  min_confidence : Q;
  min_text_length : Z;
  max_idle_duration : Z
}.

Module QualityAnalyzer.
Import Regex.
Local Open Scope Q_scope.

Record t : Type := {
  thresholds : QualityThresholds;
  qualityScores : list Q
}.

(** [initializeAnomalyPatterns] *)
Definition anomalyPatterns : list re :=
  [ (* /password|passwd|pwd/i *)
    alt [lit_ci "password"; lit_ci "passwd"; lit_ci "pwd"];
    (* /\b\d{3}-?\d{2}-?\d{4}\b/ *)
    seq [WordB; times 3 digit; opt (chr "-"); times 2 digit;
         opt (chr "-"); times 4 digit; WordB];
    (* /\b[A-Z0-9._%+-]+@[A-Z0-9.-]+\.[A-Z]{2,}\b/i *)
    seq [WordB;
         plus (Chr (fun c => JsString.is_upper c || JsString.is_lower c ||
                             JsString.is_digit c || one_of "._%+-" c));
         chr "@";
         plus (Chr (fun c => JsString.is_upper c || JsString.is_lower c ||
                             JsString.is_digit c || one_of ".-" c));
         chr ".";
         Rep 2 None (Chr (fun c => JsString.is_upper c ||
                                   JsString.is_lower c));
         WordB];
    (* /\b(?:\d{4}[-\s]?){3}\d{4}\b/ *)
    seq [WordB;
         times 3 (seq [times 4 digit;
                       opt (Chr (fun c => Ascii.eqb c "-" || is_space c))]);
         times 4 digit; WordB];
    (* /-----BEGIN.*KEY-----/ *)
    seq [lit "-----BEGIN"; star dot; lit "KEY-----"] ].

Definition constructor (th : QualityThresholds) : t :=
  {| thresholds := th; qualityScores := [] |}.

Definition bump (c : bool) (w : Q) (acc : Q * Q) : Q * Q :=
  if c then (fst acc + w, snd acc + w) else acc.

(** [calculateCompletenessScore] *)
Definition calculateCompletenessScore (activity : Raw.t) : Q :=
  let acc := (0, 0) in
  (* Required fields *)
  let acc := bump (JsString.truthy (Raw.id activity)) 1 acc in
  let acc := bump (negb (Z.eqb (Raw.timestamp activity) 0)) 1 acc in
  let acc := bump (JsString.truthy (Raw.device_id activity)) 1 acc in
  let acc := bump (JsString.truthy (Raw.session_id activity)) 1 acc in
  let acc := bump (JsString.truthy (Raw.type activity)) 1 acc in
  (* Optional but important fields *)
  let acc := bump (Js.truthy (Raw.data activity) &&
                   Js.has_keys (Raw.data activity)) 0.5 acc in
  let acc := bump (JsString.truthy_opt (Raw.processed_text activity))
                  0.5 acc in
  let acc := bump (match Raw.context activity with
                   | Some _ => true | None => false end) 0.5 acc in
  let '(score, fields) := acc in
  if Js.Qltb 0 fields then score / fields else 0.

(** [hasRepetitivePattern] *)
Definition hasRepetitivePattern (text : string) : bool :=
  (* /(.)\1{4,}/ *)
  if test (Seq (Grp 1 dot) (Rep 4 None (Ref 1))) text then true
  else
    let words := split (plus space) text in
    let wordSet := nodup string_dec words in
    Nat.ltb 5 (length words) &&
    Js.Qltb (inject_Z (Z.of_nat (length wordSet)))
            (inject_Z (Z.of_nat (length words)) * 0.5).

(** [looksLikeGibberish] *)
Definition looksLikeGibberish (text : string) : bool :=
  (* /[bcdfghjklmnpqrstvwxyz]{5,}/i *)
  let consonantClusters :=
    Rep 5 None (Chr (fun c => one_of "bcdfghjklmnpqrstvwxyz"
                                     (JsString.lower_char c))) in
  if test consonantClusters text then true
  else
    (* /[aeiou]/gi *)
    let vowels :=
      count_matches (Chr (fun c => one_of "aeiou" (JsString.lower_char c)))
                    text in
    (* 0 / 0 is NaN, which compares false *)
    if Nat.eqb (String.length text) 0 then false
    else Js.Qltb (inject_Z (Z.of_nat vowels) /
                  inject_Z (Z.of_nat (String.length text))) 0.1.

(** [hasProperStructure] *)
Definition hasProperStructure (text : string) : bool :=
  let hasPunctuation := test (Chr (one_of ".!?")) text in
  let hasCapitalization :=
    test (Seq (Bol false) (Chr JsString.is_upper)) text in
  let hasSpaces := test space text in
  hasPunctuation || (hasCapitalization && hasSpaces).

Definition scale (c : bool) (f : Q) (score : Q) : Q :=
  if c then score * f else score.

(** [calculateTextQualityScore] *)
Definition calculateTextQualityScore (th : QualityThresholds)
                                     (text : string) : Q :=
  if negb (JsString.truthy text) then 0
  else
    let score := 1.0 in
    (* Length check *)
    let score :=
      scale (Z.ltb (Z.of_nat (String.length text)) (min_text_length th))
            0.5 score in
    (* Check for meaningful content *)
    let wordCount :=
      length (List.filter (fun w => Nat.ltb 0 (String.length w))
                     (split (plus space) text)) in
    let score := scale (Nat.ltb wordCount 3) 0.7 score in
    let score := scale (hasRepetitivePattern text) 0.6 score in
    let score := scale (looksLikeGibberish text) 0.3 score in
    let score := scale (hasProperStructure text) 1.2 score in
    Qmin 1.0 score.

(** [isValidUrl] *)
Definition isValidUrl (h : Host) (u : string) : bool :=
  match URL_hostname h u with Some _ => true | None => false end.

(** [calculateContextScore] *)
Definition calculateContextScore (h : Host) (context : ActivityContext)
  : Q :=
  let acc := (0, 0) in
  let acc := bump (JsString.truthy_opt (application context)) 1 acc in
  let acc := bump (JsString.truthy_opt (window_title context)) 1 acc in
  let acc := bump (JsString.truthy_opt (process_name context)) 0.5 acc in
  let acc := bump (JsString.truthy_opt (url context)) 0.5 acc in
  let '(score, fields) := acc in
  (* Validate URL if present *)
  let score :=
    match url context with
    | Some u =>
        if JsString.truthy u && negb (isValidUrl h u)
        then score - 0.5 else score
    | None => score
    end in
  if Js.Qltb 0 fields then Qmax 0 (score / fields) else 0.

(** [calculateTemporalScore]; [now] is the value of [Date.now()]. *)
Definition calculateTemporalScore (now : Z) (activity : Raw.t) : Q :=
  if Z.eqb (Raw.timestamp activity) 0 then 0
  else
    let activityTime := Raw.timestamp activity in
    if Z.ltb now activityTime then 0.3
    else
      let age := (now - activityTime)%Z in
      if Z.ltb (24 * 60 * 60 * 1000) age then 0.7 else 1.0.

(** [detectAnomalies] *)
Definition countAnomalies (h : Host) (activity : Raw.t) : nat :=
  let c1 :=
    match Raw.processed_text activity with
    | Some text =>
        if JsString.truthy text
        then length (List.filter (fun pattern => test pattern text)
                            anomalyPatterns)
        else 0%nat
    | None => 0%nat
    end in
  let c2 :=
    if String.eqb (Raw.type activity) "keyboard" &&
       Js.truthy (Raw.data activity) &&
       JsConv.gt_num h (Js.get (Raw.data activity) "keys_per_second") 20
    then 1%nat else 0%nat in
  let c3 :=
    if String.eqb (Raw.type activity) "mouse" &&
       JsString.truthy_opt (Raw.processed_text activity)
    then 1%nat else 0%nat in
  (c1 + c2 + c3)%nat.

Definition detectAnomalies (h : Host) (activity : Raw.t) : Q :=
  let anomalyCount := countAnomalies h activity in
  if Nat.eqb anomalyCount 0 then 1.0
  else Qmax 0.3 (1.0 - inject_Z (Z.of_nat anomalyCount) * 0.2).

(** The sub-scores in the order in which [analyze] pushes them. *)
Definition scores (h : Host) (th : QualityThresholds) (now : Z)
                  (activity : Raw.t) : list Q :=
  [calculateCompletenessScore activity]
  ++ match Raw.processed_text activity with
     | Some text =>
         if JsString.truthy text
         then [calculateTextQualityScore th text] else []
     | None => []
     end
  ++ match Raw.context activity with
     | Some c => [calculateContextScore h c]
     | None => []
     end
  ++ [calculateTemporalScore now activity]
  ++ [detectAnomalies h activity].

Definition weights : list Q := [0.2; 0.3; 0.2; 0.2; 0.1].

(** [weights[i] || 0.2] *)
Definition weight_at (i : nat) : Q :=
  match nth_error weights i with
  | Some w => if Qeq_bool w 0 then 0.2 else w
  | None => 0.2
  end.

(** The loop of [analyze]: [acc] is [(totalScore, totalWeight)]. *)
Fixpoint accumulate (i : nat) (l : list Q) (acc : Q * Q) : Q * Q :=
  match l with
  | [] => acc
  | s :: l' =>
      accumulate (S i) l' (fst acc + s * weight_at i, snd acc + weight_at i)
  end.

Definition finalScore (l : list Q) : Q :=
  let '(totalScore, totalWeight) := accumulate 0 l (0, 0) in
  if Js.Qltb 0 totalWeight then totalScore / totalWeight else 0.

(** The value that [analyze] returns. *)
Definition score (h : Host) (th : QualityThresholds) (now : Z)
                 (activity : Raw.t) : Q :=
  finalScore (scores h th now activity).

(** The history after pushing a score: at most 1000 entries are kept. *)
Definition record_score (s : Q) (hist : list Q) : list Q :=
  let hist := (hist ++ [s])%list in
  if Nat.ltb 1000 (length hist) then tl hist else hist.

(** [analyze] *)
Definition analyze (h : Host) (now : Z) (qa : t) (activity : Raw.t)
  : Q * t :=
  let s := score h (thresholds qa) now activity in
  (s, {| thresholds := thresholds qa;
         qualityScores := record_score s (qualityScores qa) |}).

End QualityAnalyzer.

(** ** RuleEngine (engines/RuleEngine.ts) *)

Module RuleCondition.
Record t : Type := {
  field : string;
  operator : string;
  value : JsValue
}.
End RuleCondition.

Module RuleAction.
(** The parameters that the engine reads; an absent one is [undefined]. *)
Record params_t : Type := {
  value : option string;
  field : option string;
  pattern : option string;
  target : option string
}.
Record t : Type := {
  type : string;
  params : params_t
}.
End RuleAction.

Module ParsingRule.
Record t : Type := {
  id : string;
  name : string;
  priority : Z;
  enabled : bool;
  conditions : list RuleCondition.t;
  actions : list RuleAction.t
}.
End ParsingRule.

Module RuleResult.
Record t : Type := {
  type : option string;
  category : option string;
  tags : list (option string);
  content : list (string * string);
  applied_rules : list string
}.

Definition empty : t :=
  {| type := None; category := None; tags := []; content := [];
     applied_rules := [] |}.
End RuleResult.

Module RuleEngine.

Record t : Type := {
  rules : list ParsingRule.t;
  ruleHits : gmap string nat
}.

(** [sortRulesByPriority]: a stable sort, highest priority first. *)
Fixpoint insert_by_priority (r : ParsingRule.t) (l : list ParsingRule.t)
  : list ParsingRule.t :=
  match l with
  | [] => [r]
  | x :: l' =>
      if Z.ltb (ParsingRule.priority x) (ParsingRule.priority r)
      then r :: x :: l'
      else x :: insert_by_priority r l'
  end.

Definition sortRulesByPriority (l : list ParsingRule.t)
  : list ParsingRule.t :=
  fold_left (fun acc r => insert_by_priority r acc) l [].

Definition constructor (l : list ParsingRule.t) : t :=
  {| rules := sortRulesByPriority l; ruleHits := ∅ |}.

(** [updateRules] *)
Definition updateRules (l : list ParsingRule.t) (e : t) : t :=
  {| rules := sortRulesByPriority l; ruleHits := ruleHits e |}.

(** [getFieldValue]: a nullish value stays [undefined] along the path. *)
Definition getFieldValue (activity : Raw.t) (field : string) : JsValue :=
  fold_left Js.get (JsString.split "." field) (Raw.to_value activity).

(** The source text that [new RegExp(v)] compiles. *)
Definition pattern_source (h : Host) (v : JsValue) : string :=
  match v with
  | JUndefined => "(?:)"
  | _ => JsConv.to_string h v
  end.

(** [evaluateCondition] *)
Definition evaluateCondition (h : Host) (condition : RuleCondition.t)
                             (activity : Raw.t) : result bool :=
  let value := getFieldValue activity (RuleCondition.field condition) in
  let operator := RuleCondition.operator condition in
  if String.eqb operator "equals" then
    Ok (Js.strict_eq value (RuleCondition.value condition))
  else if String.eqb operator "contains" then
    match value with
    | JStr v =>
        match RuleCondition.value condition with
        | JStr c =>
            Ok (JsString.includes (JsString.toLowerCase v)
                                  (JsString.toLowerCase c))
        | _ => Throw "TypeError"
        end
    | _ => Ok false
    end
  else if String.eqb operator "matches" then
    match value with
    | JStr v =>
        match RegExp_new h
                (pattern_source h (RuleCondition.value condition)) with
        | Some r => Ok (Regex.test r v)
        | None => Throw "SyntaxError"
        end
    | _ => Ok false
    end
  else if String.eqb operator "greater_than" then
    match value with
    | JNum v => Ok (JsConv.num_gt h v (RuleCondition.value condition))
    | _ => Ok false
    end
  else if String.eqb operator "less_than" then
    match value with
    | JNum v => Ok (JsConv.num_lt h v (RuleCondition.value condition))
    | _ => Ok false
    end
  else Ok false.

(** [evaluateConditions]: [every] stops at the first false condition. *)
Fixpoint evaluateConditions (h : Host) (conditions : list RuleCondition.t)
                            (activity : Raw.t) : result bool :=
  match conditions with
  | [] => Ok true
  | c :: cs =>
      let? b := evaluateCondition h c activity in
      if b then evaluateConditions h cs activity else Ok false
  end.

(** [obj[k] = v] on a dictionary that is enumerated in insertion order *)
Fixpoint set_key {A} (k : string) (v : A) (l : list (string * A))
  : list (string * A) :=
  match l with
  | [] => [(k, v)]
  | (k', v') :: l' =>
      if String.eqb k' k then (k, v) :: l' else (k', v') :: set_key k v l'
  end.

Definition key_of (o : option string) : string :=
  match o with Some s => s | None => "undefined" end.

(** [extractContent] *)
Definition extractContent (h : Host) (params : RuleAction.params_t)
                          (activity : Raw.t) (res : RuleResult.t)
  : result RuleResult.t :=
  match RuleAction.field params with
  | None => Throw "TypeError"
  | Some field =>
      match getFieldValue activity field, RuleAction.pattern params with
      | JStr v, Some pattern =>
          if JsString.truthy pattern then
            match RegExp_new h pattern with
            | None => Throw "SyntaxError"
            | Some regex =>
                match Regex.exec regex v with
                | Some (whole, group1) =>
                    Ok {| RuleResult.type := RuleResult.type res;
                          RuleResult.category := RuleResult.category res;
                          RuleResult.tags := RuleResult.tags res;
                          RuleResult.content :=
                            set_key (key_of (RuleAction.target params))
                                    (JsString.or_else group1 whole)
                                    (RuleResult.content res);
                          RuleResult.applied_rules :=
                            RuleResult.applied_rules res |}
                | None => Ok res
                end
            end
          else Ok res
      | _, _ => Ok res
      end
  end.

(** [applyAction] *)
Definition applyAction (h : Host) (action : RuleAction.t)
                       (activity : Raw.t) (res : RuleResult.t)
  : result RuleResult.t :=
  let ty := RuleAction.type action in
  let params := RuleAction.params action in
  if String.eqb ty "set_type" then
    Ok {| RuleResult.type := RuleAction.value params;
          RuleResult.category := RuleResult.category res;
          RuleResult.tags := RuleResult.tags res;
          RuleResult.content := RuleResult.content res;
          RuleResult.applied_rules := RuleResult.applied_rules res |}
  else if String.eqb ty "set_category" then
    Ok {| RuleResult.type := RuleResult.type res;
          RuleResult.category := RuleAction.value params;
          RuleResult.tags := RuleResult.tags res;
          RuleResult.content := RuleResult.content res;
          RuleResult.applied_rules := RuleResult.applied_rules res |}
  else if String.eqb ty "add_tag" then
    Ok {| RuleResult.type := RuleResult.type res;
          RuleResult.category := RuleResult.category res;
          RuleResult.tags :=
            (RuleResult.tags res ++ [RuleAction.value params])%list;
          RuleResult.content := RuleResult.content res;
          RuleResult.applied_rules := RuleResult.applied_rules res |}
  else if String.eqb ty "extract_content" then
    extractContent h params activity res
  else Ok res.

(** The inner loop of [apply] over the actions of a matching rule. *)
Fixpoint applyActions (h : Host) (actions : list RuleAction.t)
                      (activity : Raw.t) (res : RuleResult.t)
  : result RuleResult.t :=
  match actions with
  | [] => Ok res
  | a :: rest =>
      let? res' := applyAction h a activity res in
      applyActions h rest activity res'
  end.

(** [isExclusiveRule] *)
Definition isExclusiveRule (rule : ParsingRule.t) : bool :=
  existsb (fun action =>
             String.eqb (RuleAction.type action) "set_type" ||
             String.eqb (RuleAction.type action) "set_category")
          (ParsingRule.actions rule).

(** [recordHit] *)
Definition recordHit (ruleId : string) (hits : gmap string nat)
  : gmap string nat :=
  <[ruleId := S (default 0%nat (hits !! ruleId))]> hits.

Definition push_applied (ruleId : string) (res : RuleResult.t)
  : RuleResult.t :=
  {| RuleResult.type := RuleResult.type res;
     RuleResult.category := RuleResult.category res;
     RuleResult.tags := RuleResult.tags res;
     RuleResult.content := RuleResult.content res;
     RuleResult.applied_rules :=
       (RuleResult.applied_rules res ++ [ruleId])%list |}.

(** One iteration of the loop of [apply]. *)
Inductive outcome : Type :=
| Continue (res : RuleResult.t) (hits : gmap string nat)
| Break (res : RuleResult.t) (hits : gmap string nat)
| Raise (msg : string) (hits : gmap string nat).

Definition step (h : Host) (rule : ParsingRule.t) (activity : Raw.t)
                (res : RuleResult.t) (hits : gmap string nat) : outcome :=
  if negb (ParsingRule.enabled rule) then Continue res hits
  else
    match evaluateConditions h (ParsingRule.conditions rule) activity with
    | Throw e => Raise e hits
    | Ok false => Continue res hits
    | Ok true =>
        match applyActions h (ParsingRule.actions rule) activity res with
        | Throw e => Raise e hits
        | Ok res' =>
            let res'' := push_applied (ParsingRule.id rule) res' in
            let hits' := recordHit (ParsingRule.id rule) hits in
            if isExclusiveRule rule
            then Break res'' hits' else Continue res'' hits'
        end
    end.

Fixpoint apply_loop (h : Host) (rules : list ParsingRule.t)
                    (activity : Raw.t) (res : RuleResult.t)
                    (hits : gmap string nat)
  : result RuleResult.t * gmap string nat :=
  match rules with
  | [] => (Ok res, hits)
  | rule :: rest =>
      match step h rule activity res hits with
      | Continue res' hits' => apply_loop h rest activity res' hits'
      | Break res' hits' => (Ok res', hits')
      | Raise e hits' => (Throw e, hits')
      end
  end.

(** [apply]: the result, or the exception, and the engine afterwards. *)
Definition apply (h : Host) (e : t) (activity : Raw.t)
  : result RuleResult.t * t :=
  let '(r, hits) :=
    apply_loop h (rules e) activity RuleResult.empty (ruleHits e) in
  (r, {| rules := rules e; ruleHits := hits |}).

(** The loop runs through [rules] without leaving it: no rule of the
    prefix is exclusive and matching, none throws. *)
Fixpoint reaches (h : Host) (rules : list ParsingRule.t)
                 (activity : Raw.t) (res : RuleResult.t)
                 (hits : gmap string nat)
  : option (RuleResult.t * gmap string nat) :=
  match rules with
  | [] => Some (res, hits)
  | rule :: rest =>
      match step h rule activity res hits with
      | Continue res' hits' => reaches h rest activity res' hits'
      | _ => None
      end
  end.

Definition rule (id : string) (priority : Z)
                (conditions : list RuleCondition.t)
                (actions : list RuleAction.t) : ParsingRule.t :=
  {| ParsingRule.id := id; ParsingRule.name := id;
     ParsingRule.priority := priority; ParsingRule.enabled := true;
     ParsingRule.conditions := conditions;
     ParsingRule.actions := actions |}.

Definition cond (field operator : string) (value : JsValue)
  : RuleCondition.t :=
  {| RuleCondition.field := field; RuleCondition.operator := operator;
     RuleCondition.value := value |}.

Definition act (type : string) (value : string) : RuleAction.t :=
  {| RuleAction.type := type;
     RuleAction.params :=
       {| RuleAction.value := Some value; RuleAction.field := None;
          RuleAction.pattern := None; RuleAction.target := None |} |}.

(** [getDefaultRules] *)
Definition getDefaultRules : list ParsingRule.t :=
  [ rule "code-detection" 100
      [cond "context.application" "matches"
            (JStr "vscode|intellij|sublime|atom|vim|emacs")]
      [act "set_type" "coding"; act "set_category" "productive";
       act "add_tag" "development"];
    rule "browser-youtube" 90
      [cond "context.url" "contains" (JStr "youtube.com")]
      [act "set_type" "browsing"; act "set_category" "entertainment";
       act "add_tag" "video"];
    rule "documentation-writing" 80
      [cond "processed_text" "matches"
            (JStr "^#{1,6}\s+|^\*\s+|^\d+\.\s+")]
      [act "set_type" "documenting"; act "set_category" "productive"];
    rule "idle-detection" 50
      [cond "data.idle_time" "greater_than" (JNum (inject_Z 300000))]
      [act "set_type" "idle"; act "set_category" "break"] ].

End RuleEngine.

(** ** The enumerations of types.ts (string enums) *)

Module ActivityType.
Definition TYPING := "typing".
Definition CLICKING := "clicking".
Definition SCROLLING := "scrolling".
Definition READING := "reading".
Definition CODING := "coding".
Definition BROWSING := "browsing".
Definition COMMUNICATING := "communicating".
Definition DOCUMENTING := "documenting".
Definition IDLE := "idle".
End ActivityType.

Module ActivityCategory.
Definition PRODUCTIVE := "productive".
Definition NEUTRAL := "neutral".
Definition DISTRACTING := "distracting".
Definition BREAK := "break".
Definition COMMUNICATION := "communication".
Definition LEARNING := "learning".
Definition ENTERTAINMENT := "entertainment".
End ActivityCategory.

(** ** ActivityCategorizer (categorizers/ActivityCategorizer.ts) *)

Record CategorizationConfig : Type := {
  productive_apps : list string;
  distracting_apps : list string;
  communication_apps : list string;
  learning_apps : list string
}.

Module ActivityCategorizer.
Import ActivityCategory.

Record t : Type := {
  config : CategorizationConfig;
  categoryCache : gmap string string
}.

Definition knownApps : list (string * string) :=
  [ ("vscode", PRODUCTIVE); ("visual studio", PRODUCTIVE);
    ("intellij", PRODUCTIVE); ("sublime", PRODUCTIVE);
    ("atom", PRODUCTIVE); ("vim", PRODUCTIVE); ("emacs", PRODUCTIVE);
    ("excel", PRODUCTIVE); ("word", PRODUCTIVE);
    ("powerpoint", PRODUCTIVE); ("notion", PRODUCTIVE);
    ("obsidian", PRODUCTIVE);
    ("slack", COMMUNICATION); ("teams", COMMUNICATION);
    ("discord", COMMUNICATION); ("telegram", COMMUNICATION);
    ("whatsapp", COMMUNICATION); ("skype", COMMUNICATION);
    ("zoom", COMMUNICATION); ("outlook", COMMUNICATION);
    ("gmail", COMMUNICATION);
    ("steam", ENTERTAINMENT); ("epic games", ENTERTAINMENT);
    ("vlc", ENTERTAINMENT); ("spotify", ENTERTAINMENT);
    ("chrome", NEUTRAL); ("firefox", NEUTRAL); ("safari", NEUTRAL);
    ("edge", NEUTRAL) ].

(** [initializeCache] *)
Definition initializeCache (cache : gmap string string)
  : gmap string string :=
  fold_left (fun c kv => <[fst kv := snd kv]> c) knownApps cache.

Definition constructor (cfg : CategorizationConfig) : t :=
  {| config := cfg; categoryCache := initializeCache ∅ |}.

(** [updateConfig] with a full replacement of the four lists *)
Definition updateConfig (cfg : CategorizationConfig) (c : t) : t :=
  {| config := cfg; categoryCache := initializeCache ∅ |}.

(** [categorizeByType] *)
Definition categorizeByType (type : string) : string :=
  if String.eqb type ActivityType.CODING ||
     String.eqb type ActivityType.DOCUMENTING then PRODUCTIVE
  else if String.eqb type ActivityType.COMMUNICATING then COMMUNICATION
  else if String.eqb type ActivityType.BROWSING then NEUTRAL
  else if String.eqb type ActivityType.IDLE then BREAK
  else NEUTRAL.

Definition some_includes (app : string) (l : list string) : bool :=
  existsb (fun x => JsString.includes app (JsString.toLowerCase x)) l.

(** [categorizeByApplication] *)
Definition categorizeByApplication (cfg : CategorizationConfig)
                                   (app : string) : option string :=
  if negb (JsString.truthy app) then None
  else if some_includes app (productive_apps cfg) then Some PRODUCTIVE
  else if some_includes app (distracting_apps cfg) then Some DISTRACTING
  else if some_includes app (communication_apps cfg)
       then Some COMMUNICATION
  else if some_includes app (learning_apps cfg) then Some LEARNING
  else None.

Definition socialMedia : list string :=
  ["facebook.com"; "twitter.com"; "instagram.com";
   "reddit.com"; "tiktok.com"; "linkedin.com"].
Definition entertainment : list string :=
  ["youtube.com"; "netflix.com"; "twitch.tv";
   "spotify.com"; "soundcloud.com"].
Definition learning : list string :=
  ["coursera.org"; "udemy.com"; "edx.org";
   "khanacademy.org"; "skillshare.com";
   "docs."; "developer."; "learn."].
Definition development : list string :=
  ["github.com"; "gitlab.com"; "bitbucket.org";
   "stackoverflow.com"; "npmjs.com"; "pypi.org"].

Definition domain_in (domain : string) (sites : list string) : bool :=
  existsb (fun site => JsString.includes domain site) sites.

(** The category that a host name implies. *)
Definition categorizeByDomain (domain : string) : option string :=
  if domain_in domain socialMedia then Some DISTRACTING
  else if domain_in domain entertainment then Some ENTERTAINMENT
  else if domain_in domain learning then Some LEARNING
  else if domain_in domain development then Some PRODUCTIVE
  else None.

(** [categorizeByUrl]: a URL that does not parse is caught and gives
    [null]. *)
Definition categorizeByUrl (h : Host) (u : string) : option string :=
  match URL_hostname h u with
  | Some hostname => categorizeByDomain (JsString.toLowerCase hostname)
  | None => None
  end.

(** [activity.context?.application?.toLowerCase() || ''] *)
Definition app_key (activity : Raw.t) : string :=
  match Raw.ctx application activity with
  | Some a => JsString.toLowerCase a
  | None => ""
  end.

(** [categorize] *)
Definition categorize (h : Host) (c : t) (activity : Raw.t)
                      (type : string) : string * t :=
  let app := app_key activity in
  (* Check cache first *)
  match categoryCache c !! app with
  | Some cached => (cached, c)
  | None =>
      (* Categorize based on activity type *)
      let category := categorizeByType type in
      (* Override based on application lists *)
      let category :=
        match categorizeByApplication (config c) app with
        | Some appCategory => appCategory
        | None => category
        end in
      (* Special cases based on content *)
      let category :=
        match Raw.ctx url activity with
        | Some u =>
            if JsString.truthy u then
              match categorizeByUrl h u with
              | Some urlCategory => urlCategory
              | None => category
              end
            else category
        | None => category
        end in
      (* Cache the result *)
      (category,
       {| config := config c;
          categoryCache := <[app := category]> (categoryCache c) |})
  end.

End ActivityCategorizer.


(** ** The classified activity *)

Inductive ContentValue : Type :=
| CText (s : string)
| CList (l : list string).

Definition ActivityContent : Type := list (string * ContentValue).

Record ActivityMetadata : Type := {
  confidence : Q;
  parser_version : string;
  rules_applied : list string;
  tags : list (option string)
}.

Module Parsed.
Record t : Type := {
  id : string;
  timestamp : Z;
  device_id : string;
  session_id : string;
  type : string;
  category : string;
  duration : option Z;
  application : string;
  window_title : string;
  content : ActivityContent;
  metadata : ActivityMetadata;
  quality_score : Q
}.

(** [parsed.duration = d] *)
Definition set_duration (d : Z) (a : t) : t :=
  {| id := id a; timestamp := timestamp a; device_id := device_id a;
     session_id := session_id a; type := type a; category := category a;
     duration := Some d; application := application a;
     window_title := window_title a; content := content a;
     metadata := metadata a; quality_score := quality_score a |}.

(** [activity.duration || 0] *)
Definition duration_or_0 (a : t) : Z :=
  match duration a with Some d => d | None => 0 end.
End Parsed.

Record SessionData : Type := {
  sd_session_id : string;
  sd_device_id : string;
  start_time : Z;
  end_time : option Z;
  activities : list Parsed.t
}.

Record ApplicationUsage : Type := {
  au_name : string;
  au_duration : Z;
  activity_count : nat;
  au_category : string
}.

Record SessionSummary : Type := {
  total_duration : Z;
  active_duration : Z;
  idle_duration : Z;
  activity_breakdown : list (string * Z);
  category_breakdown : list (string * Z);
  top_applications : list ApplicationUsage;
  productivity_score : Q
}.

(** ** SessionManager (managers/SessionManager.ts) *)

Module SessionManager.

Record t : Type := {
  sessions : gmap string SessionData;
  activityBuffer : gmap string (list Parsed.t)
}.

Definition constructor : t := {| sessions := ∅; activityBuffer := ∅ |}.

Definition MAX_IDLE_TIME : Z := 5 * 60 * 1000.

(** [createSession] *)
Definition createSession (activity : Parsed.t) : SessionData :=
  {| sd_session_id := Parsed.session_id activity;
     sd_device_id := Parsed.device_id activity;
     start_time := Parsed.timestamp activity;
     end_time := None;
     activities := [] |}.

(** [bufferActivity]: the buffer keeps the last 100 activities. *)
Definition bufferActivity (sessionId : string) (activity : Parsed.t)
                          (buffers : gmap string (list Parsed.t))
  : gmap string (list Parsed.t) :=
  let buffer := default [] (buffers !! sessionId) in
  let buffer := (buffer ++ [activity])%list in
  let buffer := if Nat.ltb 100 (length buffer) then tl buffer else buffer in
  <[sessionId := buffer]> buffers.

(** [addActivity] *)
Definition addActivity (activity : Parsed.t) (sm : t) : t :=
  let sessionId := Parsed.session_id activity in
  (* Get or create session *)
  let session :=
    match sessions sm !! sessionId with
    | Some s => s
    | None => createSession activity
    end in
  (* Add activity to session, update session end time *)
  let session :=
    {| sd_session_id := sd_session_id session;
       sd_device_id := sd_device_id session;
       start_time := start_time session;
       end_time :=
         match end_time session with
         | None => Some (Parsed.timestamp activity)
         | Some e =>
             if Z.ltb e (Parsed.timestamp activity)
             then Some (Parsed.timestamp activity) else Some e
         end;
       activities := (activities session ++ [activity])%list |} in
  {| sessions := <[sessionId := session]> (sessions sm);
     activityBuffer := bufferActivity sessionId activity (activityBuffer sm) |}.

(** [buffer.findIndex(a => a.id === id)] *)
Fixpoint findIndex (id : string) (buffer : list Parsed.t) (i : nat)
  : option nat :=
  match buffer with
  | [] => None
  | a :: rest =>
      if String.eqb (Parsed.id a) id then Some i
      else findIndex id rest (S i)
  end.

(** [calculateDuration] *)
Definition calculateDuration (activity : Parsed.t) (sm : t) : option Z :=
  let buffer := default [] (activityBuffer sm !! Parsed.session_id activity) in
  if Nat.ltb (length buffer) 2 then None
  else
    (* Find the previous activity *)
    match findIndex (Parsed.id activity) buffer 0 with
    | None => None
    | Some O => None
    | Some (S i) =>
        match nth_error buffer i with
        | None => None
        | Some previousActivity =>
            let duration :=
              Parsed.timestamp activity - Parsed.timestamp previousActivity in
            (* Check if duration is reasonable *)
            if Z.ltb 0 duration && Z.ltb duration MAX_IDLE_TIME
            then Some duration else None
        end
    end.

(** [obj[k] = (obj[k] || 0) + d], also [map.set(k, (map.get(k) || 0) + d)] *)
Fixpoint add_to (k : string) (d : Z) (l : list (string * Z))
  : list (string * Z) :=
  match l with
  | [] => [(k, 0 + d)]
  | (k', v) :: l' =>
      if String.eqb k' k then (k', v + d) :: l' else (k', v) :: add_to k d l'
  end.

(** The most frequent category of an application, the first one to reach
    the maximum in order of first occurrence. *)
Fixpoint count_categories (l : list Parsed.t) (acc : list (string * Z))
  : list (string * Z) :=
  match l with
  | [] => acc
  | a :: l' => count_categories l' (add_to (Parsed.category a) 1 acc)
  end.

Fixpoint dominant (counts : list (string * Z)) (maxCount : Z)
                  (dominantCategory : string) : string :=
  match counts with
  | [] => dominantCategory
  | (category, count) :: rest =>
      if Z.ltb maxCount count then dominant rest count category
      else dominant rest maxCount dominantCategory
  end.

(** [getApplicationCategory] *)
Definition getApplicationCategory (acts : list Parsed.t) (appName : string)
  : string :=
  let appActivities :=
    List.filter (fun a => String.eqb (Parsed.application a) appName) acts in
  match appActivities with
  | [] => ActivityCategory.NEUTRAL
  | _ => dominant (count_categories appActivities []) 0
                  ActivityCategory.NEUTRAL
  end.

Definition weights : list (string * Q) :=
  [ (ActivityCategory.PRODUCTIVE, 1.0%Q);
    (ActivityCategory.LEARNING, 0.9%Q);
    (ActivityCategory.COMMUNICATION, 0.7%Q);
    (ActivityCategory.NEUTRAL, 0.5%Q);
    (ActivityCategory.BREAK, 0.4%Q);
    (ActivityCategory.ENTERTAINMENT, 0.2%Q);
    (ActivityCategory.DISTRACTING, 0.0%Q) ].

(** [weights[category] || 0.5]: a weight of zero is falsy. *)
Definition weight_of (category : string) : Q :=
  match Js.assoc category weights with
  | Some w => if Qeq_bool w 0 then 0.5%Q else w
  | None => 0.5%Q
  end.

(** The loop of [calculateProductivityScore] over the entries. *)
Fixpoint weigh (entries : list (string * Z)) (acc : Q * Q) : Q * Q :=
  match entries with
  | [] => acc
  | (category, duration) :: rest =>
      weigh rest ((fst acc + weight_of category * inject_Z duration)%Q,
                  (snd acc + inject_Z duration)%Q)
  end.

(** The score before the bonus for the active time ratio. *)
Definition baseScore (categoryBreakdown : list (string * Z)) : Q :=
  let '(weightedSum, totalWeight) := weigh categoryBreakdown (0%Q, 0%Q) in
  ((weightedSum / totalWeight) * 100)%Q.

(** [calculateProductivityScore] *)
Definition calculateProductivityScore
    (categoryBreakdown : list (string * Z))
    (activeDuration totalDuration : Z) : Q :=
  if Z.eqb totalDuration 0 then 0%Q
  else
    let '(weightedSum, totalWeight) := weigh categoryBreakdown (0%Q, 0%Q) in
    if Qeq_bool totalWeight 0 then 0%Q
    else
      (* Base score from weighted categories *)
      let score := ((weightedSum / totalWeight) * 100)%Q in
      (* Bonus for high active time ratio *)
      let activeRatio := (inject_Z activeDuration / inject_Z totalDuration)%Q in
      let score :=
        if Js.Qltb 0.8%Q activeRatio then (score * 1.1)%Q
        else if Js.Qltb activeRatio 0.5%Q then (score * 0.9)%Q
        else score in
      Qmin 100%Q (Qmax 0%Q score).

(** What the loop of [getSessionSummary] accumulates. *)
Record totals : Type := {
  activeDuration : Z;
  idleDuration : Z;
  activityBreakdown : list (string * Z);
  categoryBreakdown : list (string * Z);
  applicationDurations : list (string * Z)
}.

Definition no_totals : totals :=
  {| activeDuration := 0; idleDuration := 0; activityBreakdown := [];
     categoryBreakdown := []; applicationDurations := [] |}.

Definition account (acc : totals) (activity : Parsed.t) : totals :=
  let duration := Parsed.duration_or_0 activity in
  let idle := String.eqb (Parsed.type activity) ActivityType.IDLE in
  {| activityBreakdown :=
       add_to (Parsed.type activity) duration (activityBreakdown acc);
     categoryBreakdown :=
       add_to (Parsed.category activity) duration (categoryBreakdown acc);
     applicationDurations :=
       add_to (Parsed.application activity) duration
              (applicationDurations acc);
     idleDuration :=
       if idle then idleDuration acc + duration else idleDuration acc;
     activeDuration :=
       if idle then activeDuration acc else activeDuration acc + duration |}.

(** [entries.sort((a, b) => b[1] - a[1])]: stable, longest first. *)
Fixpoint insert_desc (e : string * Z) (l : list (string * Z))
  : list (string * Z) :=
  match l with
  | [] => [e]
  | x :: l' =>
      if Z.ltb (snd x) (snd e) then e :: x :: l'
      else x :: insert_desc e l'
  end.

Definition sort_desc (l : list (string * Z)) : list (string * Z) :=
  fold_left (fun acc e => insert_desc e acc) l [].

(** [getSessionSummary] *)
Definition getSessionSummary (sessionId : string) (sm : t)
  : option SessionSummary :=
  match sessions sm !! sessionId with
  | None => None
  | Some session =>
      let acts := activities session in
      match acts with
      | [] => None
      | _ =>
          let totalDuration :=
            match end_time session with
            | Some e => e - start_time session
            | None => 0
            end in
          let acc := fold_left account acts no_totals in
          let topApplications :=
            map (fun e =>
                   {| au_name := fst e;
                      au_duration := snd e;
                      activity_count :=
                        length (List.filter (fun a =>
                                  String.eqb (Parsed.application a) (fst e))
                                  acts);
                      au_category := getApplicationCategory acts (fst e) |})
                (firstn 5 (sort_desc (applicationDurations acc))) in
          let productivityScore :=
            calculateProductivityScore (categoryBreakdown acc)
                                       (activeDuration acc) totalDuration in
          Some {| total_duration := totalDuration;
                  active_duration := activeDuration acc;
                  idle_duration := idleDuration acc;
                  activity_breakdown := activityBreakdown acc;
                  category_breakdown := categoryBreakdown acc;
                  top_applications := topApplications;
                  productivity_score := productivityScore |}
      end
  end.

End SessionManager.

(** ** ActivityParser (ActivityParser.ts) *)

Record ParserConfig : Type := {
  rules : list ParsingRule.t;
  quality_thresholds : QualityThresholds;
  categorization : CategorizationConfig
}.

Module ActivityParser.
Import Regex.

(** The fields of the class. The content extractor is kept as the
    function from a record to the content block that it returns, or to
    the exception that it throws; no property below looks inside the
    content block. *)
Record t : Type := {
  ruleEngine : RuleEngine.t;
  contentExtractor : Raw.t -> result ActivityContent;
  categorizer : ActivityCategorizer.t;
  qualityAnalyzer : QualityAnalyzer.t;
  sessionManager : SessionManager.t;
  config : ParserConfig
}.

Definition constructor (extract : Raw.t -> result ActivityContent)
                       (cfg : ParserConfig) : t :=
  {| ruleEngine := RuleEngine.constructor (rules cfg);
     contentExtractor := extract;
     categorizer := ActivityCategorizer.constructor (categorization cfg);
     qualityAnalyzer := QualityAnalyzer.constructor (quality_thresholds cfg);
     sessionManager := SessionManager.constructor;
     config := cfg |}.

Definition codeIndicators : list re :=
  [ (* /function\s+\w+\s*\(/ *)
    seq [lit "function"; plus space; plus word; star space; chr "("];
    (* /class\s+\w+/ *)
    seq [lit "class"; plus space; plus word];
    (* /import\s+.+from/ *)
    seq [lit "import"; plus space; plus dot; lit "from"];
    (* /const\s+\w+\s*=/ *)
    seq [lit "const"; plus space; plus word; star space; chr "="];
    (* /let\s+\w+\s*=/ *)
    seq [lit "let"; plus space; plus word; star space; chr "="];
    (* /if\s*\(.+\)\s*{/ *)
    seq [lit "if"; star space; chr "("; plus dot; chr ")"; star space;
         chr "{"];
    (* /for\s*\(.+\)\s*{/ *)
    seq [lit "for"; star space; chr "("; plus dot; chr ")"; star space;
         chr "{"];
    (* /\w+\s*:\s*\w+\s*[,;]/ *)
    seq [plus word; star space; chr ":"; star space; plus word; star space;
         Chr (one_of ",;")];
    (* /\w+\(\s*\)\s*{/ *)
    seq [plus word; chr "("; star space; chr ")"; star space; chr "{"];
    (* /[{}[\];]/ *)
    Chr (one_of "{}[];") ].

(** [looksLikeCode] *)
Definition looksLikeCode (text : string) : bool :=
  existsb (fun pattern => test pattern text) codeIndicators.

Definition docIndicators : list re :=
  [ (* /^#{1,6}\s+/m *)
    seq [Bol true; Rep 1 (Some 6%nat) (chr "#"); plus space];
    (* /^\*\s+/m *)
    seq [Bol true; chr "*"; plus space];
    (* /^\d+\.\s+/m *)
    seq [Bol true; plus digit; chr "."; plus space];
    (* /\[.+\]\(.+\)/ *)
    seq [chr "["; plus dot; chr "]"; chr "("; plus dot; chr ")"];
    (* /```[\s\S]*```/ *)
    seq [lit "```"; star any; lit "```"];
    (* /@\w+/ *)
    seq [chr "@"; plus word] ].

(** [looksLikeDocumentation] *)
Definition looksLikeDocumentation (text : string) : bool :=
  existsb (fun pattern => test pattern text) docIndicators.

Definition app_includes (names : list string) (app : option string) : bool :=
  match app with
  | None => false
  | Some a =>
      if negb (JsString.truthy a) then false
      else existsb (fun n => JsString.includes (JsString.toLowerCase a) n)
                   names
  end.

(** [isBrowser] *)
Definition isBrowser : option string -> bool :=
  app_includes ["chrome"; "firefox"; "safari"; "edge"; "opera"; "brave"].

(** [isCommunicationApp] *)
Definition isCommunicationApp : option string -> bool :=
  app_includes ["slack"; "teams"; "discord"; "telegram"; "whatsapp";
                "skype"; "zoom"].

(** [determineActivityType]: reading a property of a nullish payload
    throws. *)
Definition determineActivityType (raw : Raw.t) : result string :=
  if String.eqb (Raw.type raw) "keyboard" then
    match Raw.processed_text raw with
    | Some text =>
        if JsString.truthy text && Nat.ltb 10 (String.length text) then
          if looksLikeCode text then Ok ActivityType.CODING
          else if looksLikeDocumentation text then Ok ActivityType.DOCUMENTING
          else Ok ActivityType.TYPING
        else Ok ActivityType.TYPING
    | None => Ok ActivityType.TYPING
    end
  else if String.eqb (Raw.type raw) "mouse" then
    match Raw.data raw with
    | JUndefined | JNull => Throw "TypeError"
    | mouseData =>
        if Js.strict_eq (Js.get mouseData "action") (JStr "click")
        then Ok ActivityType.CLICKING
        else if Js.strict_eq (Js.get mouseData "action") (JStr "scroll")
        then Ok ActivityType.SCROLLING
        else Ok ActivityType.READING
    end
  else if String.eqb (Raw.type raw) "window" ||
          String.eqb (Raw.type raw) "application" then
    if isBrowser (Raw.ctx application raw) then Ok ActivityType.BROWSING
    else if isCommunicationApp (Raw.ctx application raw)
    then Ok ActivityType.COMMUNICATING
    else Ok ActivityType.READING
  else Ok ActivityType.IDLE.

(** [{...content, ...ruleResults.content}] *)
Definition merge_content (content : ActivityContent)
                         (extra : list (string * string)) : ActivityContent :=
  fold_left (fun c kv => RuleEngine.set_key (fst kv) (CText (snd kv)) c)
            extra content.

Definition with_quality (qa : QualityAnalyzer.t) (p : t) : t :=
  {| ruleEngine := ruleEngine p; contentExtractor := contentExtractor p;
     categorizer := categorizer p; qualityAnalyzer := qa;
     sessionManager := sessionManager p; config := config p |}.

Definition with_categorizer (c : ActivityCategorizer.t) (p : t) : t :=
  {| ruleEngine := ruleEngine p; contentExtractor := contentExtractor p;
     categorizer := c; qualityAnalyzer := qualityAnalyzer p;
     sessionManager := sessionManager p; config := config p |}.

Definition with_rules (e : RuleEngine.t) (p : t) : t :=
  {| ruleEngine := e; contentExtractor := contentExtractor p;
     categorizer := categorizer p; qualityAnalyzer := qualityAnalyzer p;
     sessionManager := sessionManager p; config := config p |}.

Definition with_sessions (sm : SessionManager.t) (p : t) : t :=
  {| ruleEngine := ruleEngine p; contentExtractor := contentExtractor p;
     categorizer := categorizer p; qualityAnalyzer := qualityAnalyzer p;
     sessionManager := sm; config := config p |}.

(** Step 6 of [parseActivity]: the object literal. *)
Definition build (raw : Raw.t) (activityType category : string)
                 (content : ActivityContent) (ruleResults : RuleResult.t)
                 (qualityScore : Q) : Parsed.t :=
  {| Parsed.id := Raw.id raw;
     Parsed.timestamp := Raw.timestamp raw;
     Parsed.device_id := Raw.device_id raw;
     Parsed.session_id := Raw.session_id raw;
     Parsed.type := JsString.or_else (RuleResult.type ruleResults) activityType;
     Parsed.category :=
       JsString.or_else (RuleResult.category ruleResults) category;
     Parsed.duration := None;
     Parsed.application :=
       JsString.or_else (Raw.ctx application raw) "Unknown";
     Parsed.window_title := JsString.or_else (Raw.ctx window_title raw) "";
     Parsed.content := merge_content content (RuleResult.content ruleResults);
     Parsed.metadata :=
       {| confidence := qualityScore;
          parser_version := "0.1.0";
          rules_applied := RuleResult.applied_rules ruleResults;
          tags := RuleResult.tags ruleResults |};
     Parsed.quality_score := qualityScore |}.

(** Steps 7 and 8: the duration is computed before the activity is
    buffered. *)
Definition attach_duration (sm : SessionManager.t) (parsed : Parsed.t)
  : Parsed.t :=
  match SessionManager.calculateDuration parsed sm with
  | Some duration =>
      if Z.eqb duration 0 then parsed else Parsed.set_duration duration parsed
  | None => parsed
  end.

(** [parseActivity]: [now] is the reading of the clock during the call;
    an exception of any step is caught and gives [null], the fields
    written before it stay written. *)
Definition parseActivity (h : Host) (now : Z) (p : t) (raw : Raw.t)
  : option Parsed.t * t :=
  (* Step 1: Quality check *)
  let '(qualityScore, qa) :=
    QualityAnalyzer.analyze h now (qualityAnalyzer p) raw in
  let p := with_quality qa p in
  if Js.Qltb qualityScore (min_confidence (quality_thresholds (config p)))
  then (None, p)
  else
    (* Step 2: Determine activity type *)
    match determineActivityType raw with
    | Throw _ => (None, p)
    | Ok activityType =>
        (* Step 3: Extract content *)
        match contentExtractor p raw with
        | Throw _ => (None, p)
        | Ok content =>
            (* Step 4: Categorize activity *)
            let '(category, c) :=
              ActivityCategorizer.categorize h (categorizer p) raw
                                             activityType in
            let p := with_categorizer c p in
            (* Step 5: Apply parsing rules *)
            let '(applied, e) := RuleEngine.apply h (ruleEngine p) raw in
            let p := with_rules e p in
            match applied with
            | Throw _ => (None, p)
            | Ok ruleResults =>
                (* Step 6: Build parsed activity *)
                let parsed :=
                  build raw activityType category content ruleResults
                        qualityScore in
                (* Step 7: Calculate duration if possible *)
                let parsed := attach_duration (sessionManager p) parsed in
                (* Step 8: Update session *)
                let sm := SessionManager.addActivity parsed
                                                     (sessionManager p) in
                (Some parsed, with_sessions sm p)
            end
        end
    end.

(** A sequence of awaited calls of [parseActivity], each with the
    reading of the clock at its time. *)
Fixpoint parseAll (h : Host) (p : t) (calls : list (Z * Raw.t))
  : list (option Parsed.t) * t :=
  match calls with
  | [] => ([], p)
  | (now, raw) :: rest =>
      let '(r, p') := parseActivity h now p raw in
      let '(rs, p'') := parseAll h p' rest in
      (r :: rs, p'')
  end.

(** [getSessionSummary] *)
Definition getSessionSummary (sessionId : string) (p : t)
  : option SessionSummary :=
  SessionManager.getSessionSummary sessionId (sessionManager p).

End ActivityParser.

(** ** A reference host

    The built-ins of [Host] for the examples: a parser for the patterns
    that the rules of the repository and of its tests use (alternation,
    groups, greedy quantifiers, classes, the usual escapes, anchors), the
    host name of URLs with an authority, and the decimal syntax of
    numbers.  A pattern that ECMAScript rejects is rejected; so is one
    that uses a construct outside this list.  The properties below are
    stated for every host. *)

Module Node.
Import JsString Regex.

Fixpoint take_digits (s : list ascii) : list ascii * list ascii :=
  match s with
  | c :: s' =>
      if is_digit c
      then let '(d, r) := take_digits s' in (c :: d, r)
      else ([], s)
  | [] => ([], [])
  end.

Definition number (ds : list ascii) : nat :=
  fold_left (fun a c => (10 * a + (code c - 48))%nat) ds 0%nat.

(** [{n}], [{n,}] or [{n,m}] at the head of [s] *)
Definition braces (s : list ascii)
  : option (nat * option nat * list ascii) :=
  match s with
  | "{"%char :: s1 =>
      let '(d1, s2) := take_digits s1 in
      match d1, s2 with
      | _ :: _, "}"%char :: s3 => Some (number d1, Some (number d1), s3)
      | _ :: _, ","%char :: "}"%char :: s3 => Some (number d1, None, s3)
      | _ :: _, ","%char :: s3 =>
          let '(d2, s4) := take_digits s3 in
          match d2, s4 with
          | _ :: _, "}"%char :: s5 =>
              Some (number d1, Some (number d2), s5)
          | _, _ => None
          end
      | _, _ => None
      end
  | _ => None
  end.

Inductive quant : Type :=
| QNone (rest : list ascii)
| QSome (lo : nat) (hi : option nat) (rest : list ascii)
| QError.

(** A lazy quantifier is outside the supported patterns. *)
Definition greedy (lo : nat) (hi : option nat) (r : list ascii) : quant :=
  match r with
  | "?"%char :: _ => QError
  | _ => QSome lo hi r
  end.

Definition quantifier (s : list ascii) : quant :=
  match s with
  | "*"%char :: r => greedy 0 None r
  | "+"%char :: r => greedy 1 None r
  | "?"%char :: r => greedy 0 (Some 1%nat) r
  | "{"%char :: _ =>
      match braces s with
      | Some (lo, Some hi, r) =>
          if Nat.ltb hi lo then QError else greedy lo (Some hi) r
      | Some (lo, None, r) => greedy lo None r
      | None => QNone s
      end
  | _ => QNone s
  end.

Definition quantified (a : re) (r : list ascii) (n : nat)
  : option (re * list ascii * nat) :=
  match quantifier r with
  | QNone r' => Some (a, r', n)
  | QSome lo hi r' => Some (Rep lo hi a, r', n)
  | QError => None
  end.

Definition assertion (a : re) (r : list ascii) (n : nat)
  : option (re * list ascii * nat) :=
  match quantifier r with
  | QNone r' => Some (a, r', n)
  | _ => None
  end.

Definition class_escape (c : ascii) : option (ascii -> bool) :=
  if Ascii.eqb c "d" then Some is_digit
  else if Ascii.eqb c "D" then Some (fun x => negb (is_digit x))
  else if Ascii.eqb c "w" then Some is_word
  else if Ascii.eqb c "W" then Some (fun x => negb (is_word x))
  else if Ascii.eqb c "s" then Some is_space
  else if Ascii.eqb c "S" then Some (fun x => negb (is_space x))
  else None.

Definition char_escape (c : ascii) : option ascii :=
  if Ascii.eqb c "t" then Some (ascii_of_nat 9)
  else if Ascii.eqb c "n" then Some (ascii_of_nat 10)
  else if Ascii.eqb c "v" then Some (ascii_of_nat 11)
  else if Ascii.eqb c "f" then Some (ascii_of_nat 12)
  else if Ascii.eqb c "r" then Some (ascii_of_nat 13)
  else if Ascii.eqb c "0" then Some (ascii_of_nat 0)
  else if is_upper c || is_lower c || is_digit c then None
  else Some c.

(** One member of a class: a set of characters, or a single character
    that may start a range. *)
Definition class_atom (s : list ascii)
  : option ((ascii -> bool) * option ascii * list ascii) :=
  match s with
  | [] => None
  | "\"%char :: [] => None
  | "\"%char :: c :: r =>
      match class_escape c with
      | Some p => Some (p, None, r)
      | None =>
          if Ascii.eqb c "b"
          then Some (Ascii.eqb (ascii_of_nat 8), Some (ascii_of_nat 8), r)
          else match char_escape c with
               | Some x => Some (Ascii.eqb x, Some x, r)
               | None => None
               end
      end
  | c :: r => Some (Ascii.eqb c, Some c, r)
  end.

Definition union (p q : ascii -> bool) : ascii -> bool :=
  fun c => p c || q c.

Fixpoint class_items (fuel : nat) (s : list ascii) (acc : ascii -> bool)
  : option ((ascii -> bool) * list ascii) :=
  match fuel with
  | O => None
  | S f =>
      match s with
      | [] => None
      | "]"%char :: r => Some (acc, r)
      | _ =>
          match class_atom s with
          | None => None
          | Some (p, Some lo, "-"%char :: c :: r) =>
              if Ascii.eqb c "]"
              then Some (union acc (union p (Ascii.eqb "-")), r)
              else
                match class_atom (c :: r) with
                | None => None
                | Some (_, Some hi, r') =>
                    if Nat.leb (code lo) (code hi)
                    then class_items f r' (union acc (in_range lo hi))
                    else None
                | Some (q, None, r') =>
                    class_items f r'
                      (union acc (union p (union (Ascii.eqb "-") q)))
                end
          | Some (p, _, r) => class_items f r (union acc p)
          end
      end
  end.

(** Disjunction, alternative and term; [n] counts the groups opened so
    far. *)
Fixpoint disj (fuel : nat) (s : list ascii) (n : nat) {struct fuel}
  : option (re * list ascii * nat) :=
  match fuel with
  | O => None
  | S f =>
      match alternative f s n with
      | None => None
      | Some (a, "|"%char :: r, n1) =>
          match disj f r n1 with
          | Some (b, r2, n2) => Some (Alt a b, r2, n2)
          | None => None
          end
      | Some x => Some x
      end
  end
with alternative (fuel : nat) (s : list ascii) (n : nat) {struct fuel}
  : option (re * list ascii * nat) :=
  match fuel with
  | O => None
  | S f =>
      match s with
      | [] => Some (Eps, s, n)
      | c :: _ =>
          if Ascii.eqb c "|" || Ascii.eqb c ")" then Some (Eps, s, n)
          else
            match term f s n with
            | None => None
            | Some (t, r, n1) =>
                match alternative f r n1 with
                | Some (ts, r2, n2) => Some (Seq t ts, r2, n2)
                | None => None
                end
            end
      end
  end
with term (fuel : nat) (s : list ascii) (n : nat) {struct fuel}
  : option (re * list ascii * nat) :=
  match fuel with
  | O => None
  | S f =>
      match s with
      | [] => None
      | "^"%char :: r => assertion (Bol false) r n
      | "$"%char :: r => assertion (Eol false) r n
      | "\"%char :: [] => None
      | "\"%char :: c :: r =>
          if Ascii.eqb c "b" then assertion WordB r n
          else
            match class_escape c with
            | Some p => quantified (Chr p) r n
            | None =>
                match char_escape c with
                | Some x => quantified (chr x) r n
                | None => None
                end
            end
      | "("%char :: "?"%char :: ":"%char :: r =>
          match disj f r n with
          | Some (a, ")"%char :: r2, n2) => quantified a r2 n2
          | _ => None
          end
      | "("%char :: "?"%char :: _ => None
      | "("%char :: r =>
          match disj f r (S n) with
          | Some (a, ")"%char :: r2, n2) => quantified (Grp (S n) a) r2 n2
          | _ => None
          end
      | "["%char :: "^"%char :: r =>
          match class_items f r (fun _ => false) with
          | Some (p, r2) => quantified (Chr (fun c => negb (p c))) r2 n
          | None => None
          end
      | "["%char :: r =>
          match class_items f r (fun _ => false) with
          | Some (p, r2) => quantified (Chr p) r2 n
          | None => None
          end
      | "."%char :: r => quantified dot r n
      | c :: r =>
          match quantifier s with
          | QNone _ =>
              if Ascii.eqb c ")" then None else quantified (chr c) r n
          | _ => None
          end
      end
  end.

(** [new RegExp(p)] *)
Definition RegExp_new (p : string) : option re :=
  match disj (2 * String.length p + 4) (chars p) 0 with
  | Some (r, [], _) => Some r
  | _ => None
  end.

(** *** URLs *)

Fixpoint drop_while (p : ascii -> bool) (s : list ascii) : list ascii :=
  match s with
  | c :: s' => if p c then drop_while p s' else s
  | [] => []
  end.

Fixpoint take_until (p : ascii -> bool) (s : list ascii)
  : list ascii * list ascii :=
  match s with
  | c :: s' =>
      if p c then ([], s)
      else let '(a, b) := take_until p s' in (c :: a, b)
  | [] => ([], [])
  end.

Definition is_blank (c : ascii) : bool := Nat.leb (code c) 32.

Definition trim (s : list ascii) : list ascii :=
  rev (drop_while is_blank (rev (drop_while is_blank s))).

(** The part of [s] after the last character that satisfies [p], and
    the part before it when there is one. *)
Definition after_last (p : ascii -> bool) (s : list ascii)
  : option (list ascii) * list ascii :=
  let '(b, a) := take_until p (rev s) in
  match a with
  | [] => (None, rev b)
  | _ :: a' => (Some (rev a'), rev b)
  end.

Definition special_schemes : list string :=
  ["http"; "https"; "ws"; "wss"; "ftp"].

Definition forbidden_host (c : ascii) : bool :=
  is_blank c || one_of "#%/:<>?@[\]^|" c.

(** The host of an authority: the user information and the port are
    dropped; a port that is not a number is an error. *)
Definition authority_host (a : list ascii) : option (list ascii) :=
  let '(_, hostport) := after_last (Ascii.eqb "@") a in
  let host :=
    match after_last (Ascii.eqb ":") hostport with
    | (Some hst, port) => if forallb is_digit port then Some hst else None
    | (None, hst) => Some hst
    end in
  match host with
  | Some hst => if existsb forbidden_host hst then None else Some hst
  | None => None
  end.

(** [new URL(u).hostname] *)
Definition URL_hostname (u : string) : option string :=
  match trim (chars u) with
  | [] => None
  | c :: s =>
      if negb (is_upper c || is_lower c) then None
      else
        let '(scheme, r) :=
          take_until (fun x => negb (is_upper x || is_lower x ||
                                     is_digit x || one_of "+-." x))
                     (c :: s) in
        match r with
        | ":"%char :: r' =>
            let scheme := toLowerCase (of_chars scheme) in
            let ends := one_of "/\?#" in
            if existsb (String.eqb scheme) special_schemes then
              let r'' := drop_while (one_of "/\") r' in
              match authority_host (fst (take_until ends r'')) with
              | Some [] => None
              | Some hst => Some (toLowerCase (of_chars hst))
              | None => None
              end
            else
              match r' with
              | "/"%char :: "/"%char :: r'' =>
                  match authority_host
                          (fst (take_until (one_of "/?#") r'')) with
                  | Some hst => Some (of_chars hst)
                  | None => None
                  end
              | _ => Some ""
              end
        | _ => None
        end
  end.

(** *** Numbers *)

Fixpoint digits_of (fuel : nat) (n : N) (acc : list ascii) : list ascii :=
  match fuel with
  | O => acc
  | S f =>
      let d := ascii_of_N (48 + N.modulo n 10) in
      if N.ltb n 10 then d :: acc
      else digits_of f (N.div n 10) (d :: acc)
  end.

Definition decimal (n : N) : list ascii :=
  digits_of (S (N.to_nat (N.log2 n))) n [].

(** The digits of the fraction [r / d] for [r < d], at most [fuel]. *)
Fixpoint fraction (fuel : nat) (r d : N) : list ascii :=
  match fuel with
  | O => []
  | S f =>
      if N.eqb r 0 then []
      else ascii_of_N (48 + N.div (10 * r) d) ::
           fraction f (N.modulo (10 * r) d) d
  end.

(** [String(n)] *)
Definition Number_toString (q : Q) : string :=
  let q := Qred q in
  let n := Z.abs_N (Qnum q) in
  let d := Npos (Qden q) in
  let int := decimal (N.div n d) in
  let frac := fraction 20 (N.modulo n d) d in
  of_chars ((if Z.ltb (Qnum q) 0 then ["-"%char] else []) ++ int ++
            match frac with [] => [] | _ => "."%char :: frac end)%list.

(** [Number(s)] for an optional sign, digits and an optional fraction. *)
Definition Number_of_string (s : string) : option Q :=
  match trim (chars s) with
  | [] => Some 0%Q
  | c :: r =>
      let neg := Ascii.eqb c "-" in
      let body := if neg || Ascii.eqb c "+" then r else c :: r in
      let '(int, r1) := take_digits body in
      let '(frac, r2) :=
        match r1 with
        | "."%char :: r1' => take_digits r1'
        | _ => ([], r1)
        end in
      match r2, (int ++ frac)%list with
      | [], _ :: _ =>
          let v := (inject_Z (Z.of_nat (number (int ++ frac))) /
                    inject_Z (10 ^ Z.of_nat (length frac)))%Q in
          Some (Qred (if neg then Qopp v else v))
      | _, _ => None
      end
  end.

Definition host : Host :=
  Build_Host URL_hostname RegExp_new Number_of_string Number_toString.

End Node.

(** ** The design document's reading of three formulas

    These definitions follow the words of the design document, not the
    code; the properties compare them with the code. *)

Module Design.
Local Open Scope Q_scope.

(** "Fraction of expected fields present (id, timestamp, device_id,
    session_id, type count fully; opaque payload/text/context count as
    half-weight each)." *)
Definition completeness (activity : Raw.t) : Q :=
  let present (c : bool) (w : Q) : Q := if c then w else 0 in
  (present (JsString.truthy (Raw.id activity)) 1 +
   present (negb (Z.eqb (Raw.timestamp activity) 0)) 1 +
   present (JsString.truthy (Raw.device_id activity)) 1 +
   present (JsString.truthy (Raw.session_id activity)) 1 +
   present (JsString.truthy (Raw.type activity)) 1 +
   present (Js.truthy (Raw.data activity) &&
            Js.has_keys (Raw.data activity)) 0.5 +
   present (JsString.truthy_opt (Raw.processed_text activity)) 0.5 +
   present (match Raw.context activity with
            | Some _ => true | None => false end) 0.5)
  / (1 + 1 + 1 + 1 + 1 + 0.5 + 0.5 + 0.5).

(** "Weights: completeness 0.2, text quality 0.3, context quality 0.2,
    temporal consistency 0.2, anomaly-free 0.1; a sub-score is simply
    omitted, and its weight excluded from normalization, when its input
    field is absent."  Each present sub-score comes with its own weight. *)
Definition weighted_scores (h : Host) (th : QualityThresholds) (now : Z)
                           (activity : Raw.t) : list (Q * Q) :=
  ([(QualityAnalyzer.calculateCompletenessScore activity, 0.2)]
   ++ match Raw.processed_text activity with
      | Some text =>
          if JsString.truthy text
          then [(QualityAnalyzer.calculateTextQualityScore th text, 0.3)]
          else []
      | None => []
      end
   ++ match Raw.context activity with
      | Some c => [(QualityAnalyzer.calculateContextScore h c, 0.2)]
      | None => []
      end
   ++ [(QualityAnalyzer.calculateTemporalScore now activity, 0.2)]
   ++ [(QualityAnalyzer.detectAnomalies h activity, 0.1)])%list.

Definition weighted_average (l : list (Q * Q)) : Q :=
  fold_right (fun sw acc => fst sw * snd sw + acc) 0 l /
  fold_right (fun sw acc => snd sw + acc) 0 l.

Definition score (h : Host) (th : QualityThresholds) (now : Z)
                 (activity : Raw.t) : Q :=
  weighted_average (weighted_scores h th now activity).

(** "Weights: productive 1.0, learning 0.9, communication 0.7, neutral
    0.5, break 0.4, entertainment 0.2, distracting 0.0." *)
Definition weight_of (category : string) : Q :=
  match Js.assoc category SessionManager.weights with
  | Some w => w
  | None => 0.5
  end.

(** The duration-weighted blend of the categories, scaled to 0-100. *)
Definition baseScore (categoryBreakdown : list (string * Z)) : Q :=
  fold_right (fun e acc => weight_of (fst e) * inject_Z (snd e) + acc) 0
             categoryBreakdown /
  fold_right (fun e acc => inject_Z (snd e) + acc) 0 categoryBreakdown
  * 100.

End Design.

(** ** Records, rules and configurations of the examples *)

Module Examples.

(** [defaultParserConfig] of config.ts *)
Definition defaultParserConfig : ParserConfig :=
  {| rules := RuleEngine.getDefaultRules;
     quality_thresholds :=
       {| min_confidence := 0.5; min_text_length := 3;
          max_idle_duration := 300000 |};
     categorization :=
       {| productive_apps :=
            ["vscode"; "visual studio"; "intellij"; "sublime"; "atom";
             "vim"; "emacs"; "excel"; "word"; "powerpoint"; "notion";
             "obsidian"; "figma"; "sketch"; "photoshop"; "illustrator";
             "terminal"; "iterm"; "powershell"];
          distracting_apps :=
            ["facebook"; "twitter"; "instagram"; "tiktok"; "reddit";
             "youtube"; "netflix"; "twitch"; "steam"; "epic games"];
          communication_apps :=
            ["slack"; "teams"; "discord"; "telegram"; "whatsapp"; "skype";
             "zoom"; "meet"; "outlook"; "gmail"; "mail"; "messages"];
          learning_apps :=
            ["coursera"; "udemy"; "khan academy"; "duolingo"; "anki";
             "kindle"; "books"; "reader"; "calibre"] |} |}.

(** A content extractor that returns an empty block. *)
Definition no_content : Raw.t -> result ActivityContent := fun _ => Ok [].

(** The clock of the examples. *)
Definition now : Z := 1700000000000.

Definition window (id : string) (t : Z) (app : string) (title : string)
                  (u : option string) : Raw.t :=
  {| Raw.id := id; Raw.timestamp := t; Raw.device_id := "device-1";
     Raw.session_id := "session-1"; Raw.type := "window";
     Raw.data := JObj [];
     Raw.processed_text := None;
     Raw.context :=
       Some {| application := Some app; window_title := Some title;
               process_name := None; url := u |} |}.

(** 'should detect entertainment activity' of ActivityParser.test.ts *)
Definition chrome_youtube : Raw.t :=
  window "test-5" now "chrome" "YouTube - Google Chrome"
         (Some "https://youtube.com/watch?v=xyz").

(** 'should categorize browser activity' *)
Definition chrome_github : Raw.t :=
  window "test-4" now "chrome" "GitHub - Google Chrome"
         (Some "https://github.com/user/repo").

(** The same window a minute later. *)
Definition later_github : Raw.t :=
  window "test-4" (now + 60000) "chrome" "GitHub - Google Chrome"
         (Some "https://github.com/user/repo").

(** 'should reject low quality activities': a future timestamp, no
    device and no session. *)
Definition low_quality : Raw.t :=
  {| Raw.id := "test-6"; Raw.timestamp := now + 1000000;
     Raw.device_id := ""; Raw.session_id := ""; Raw.type := "keyboard";
     Raw.data := JObj [];
     Raw.processed_text := None; Raw.context := None |}.

(** A record without text, with a context and a future timestamp. *)
Definition future_window : Raw.t :=
  window "w-1" (now + 1000000) "notepad" "Untitled - Notepad" None.

(** A rule whose pattern is an unterminated group. *)
Definition bad_regex_rule : ParsingRule.t :=
  RuleEngine.rule "bad-regex" 10
    [RuleEngine.cond "type" "matches" (JStr "(")]
    [RuleEngine.act "add_tag" "never"].

(** A rule that matches every window record and whose second action
    extracts with a pattern that is an unterminated group. *)
Definition bad_extract_rule : ParsingRule.t :=
  RuleEngine.rule "bad-extract" 10
    [RuleEngine.cond "type" "equals" (JStr "window")]
    [RuleEngine.act "add_tag" "first";
     {| RuleAction.type := "extract_content";
        RuleAction.params :=
          {| RuleAction.value := None;
             RuleAction.field := Some "context.window_title";
             RuleAction.pattern := Some "(";
             RuleAction.target := Some "title" |} |}].

(** An enabled rule without conditions. *)
Definition unconditional_rule : ParsingRule.t :=
  RuleEngine.rule "catch-all" 10 [] [RuleEngine.act "add_tag" "always"].

Definition bad_regex_config : ParserConfig :=
  {| rules := [bad_regex_rule];
     quality_thresholds := quality_thresholds defaultParserConfig;
     categorization := categorization defaultParserConfig |}.

Definition activity (id : string) (t : Z) (type category : string)
                    (d : option Z) : Parsed.t :=
  {| Parsed.id := id; Parsed.timestamp := t;
     Parsed.device_id := "device-1"; Parsed.session_id := "session-1";
     Parsed.type := type; Parsed.category := category;
     Parsed.duration := d; Parsed.application := "app";
     Parsed.window_title := ""; Parsed.content := [];
     Parsed.metadata :=
       {| confidence := 1; parser_version := "0.1.0";
          rules_applied := []; tags := [] |};
     Parsed.quality_score := 1 |}.

(** Example 5 of the design document: forty minutes of productive work
    and twenty distracting minutes in a session of one hour. *)
Definition example5 : SessionManager.t :=
  SessionManager.addActivity
    (activity "a-2" 3600000 ActivityType.BROWSING
              ActivityCategory.DISTRACTING (Some 1200000))
    (SessionManager.addActivity
       (activity "a-1" 0 ActivityType.CODING
                 ActivityCategory.PRODUCTIVE (Some 2400000))
       SessionManager.constructor).

(** The rules and records of RuleEngine.test.ts and
    ActivityParser.test.ts. *)
Definition test_rules : list ParsingRule.t :=
  [ RuleEngine.rule "test-rule-1" 100
      [RuleEngine.cond "context.application" "contains" (JStr "code")]
      [RuleEngine.act "set_type" "coding";
       RuleEngine.act "add_tag" "development"];
    RuleEngine.rule "test-rule-2" 90
      [RuleEngine.cond "context.url" "matches" (JStr "github\.com")]
      [RuleEngine.act "set_category" "productive";
       RuleEngine.act "add_tag" "github"] ].

Definition vscode_window : Raw.t :=
  window "test-1" now "vscode" "index.js" None.

Definition extract_rule : ParsingRule.t :=
  RuleEngine.rule "extract-test" 100
    [RuleEngine.cond "context.window_title" "contains" (JStr ".js")]
    [{| RuleAction.type := "extract_content";
        RuleAction.params :=
          {| RuleAction.value := None;
             RuleAction.field := Some "context.window_title";
             RuleAction.pattern := Some "([^/\\]+)\.js";
             RuleAction.target := Some "filename" |} |}].

Definition idle_window : Raw.t :=
  {| Raw.id := "test-8"; Raw.timestamp := now;
     Raw.device_id := "device-1"; Raw.session_id := "session-1";
     Raw.type := "window";
     Raw.data := JObj [("idle_time", JNum (inject_Z 120000))];
     Raw.processed_text := None; Raw.context := None |}.

Definition keyboard (id text app title : string) : Raw.t :=
  {| Raw.id := id; Raw.timestamp := now;
     Raw.device_id := "device-1"; Raw.session_id := "session-1";
     Raw.type := "keyboard"; Raw.data := JObj [];
     Raw.processed_text := Some text;
     Raw.context :=
       Some {| application := Some app; window_title := Some title;
               process_name := None; url := None |} |}.

Definition outcome_of (r : option Parsed.t) : option (string * string) :=
  option_map (fun a => (Parsed.type a, Parsed.category a)) r.

(** A parser with the default configuration, and one whose only rule
    has a pattern that does not compile. *)
Definition default_parser : ActivityParser.t :=
  ActivityParser.constructor no_content defaultParserConfig.

Definition bad_regex_parser : ActivityParser.t :=
  ActivityParser.constructor no_content bad_regex_config.

Definition default_categorizer : ActivityCategorizer.t :=
  ActivityCategorizer.constructor (categorization defaultParserConfig).

Definition default_engine : RuleEngine.t :=
  RuleEngine.constructor RuleEngine.getDefaultRules.

Definition bad_regex_engine : RuleEngine.t :=
  RuleEngine.constructor [bad_regex_rule].

Definition bad_extract_engine : RuleEngine.t :=
  RuleEngine.constructor [bad_extract_rule].

Definition unconditional_engine : RuleEngine.t :=
  RuleEngine.constructor [unconditional_rule].

(** Two awaited calls on the same session, a minute apart. *)
Definition two_calls : list (Z * Raw.t) :=
  [(now, chrome_youtube); (now + 60000, later_github)].

(** The session record that the two calls leave. *)
Definition example5_session : SessionData :=
  {| sd_session_id := "session-1"; sd_device_id := "device-1";
     start_time := 0; end_time := Some 3600000;
     activities :=
       [activity "a-1" 0 ActivityType.CODING
                 ActivityCategory.PRODUCTIVE (Some 2400000);
        activity "a-2" 3600000 ActivityType.BROWSING
                 ActivityCategory.DISTRACTING (Some 1200000)] |}.

End Examples.

(** ** Predicates of the statements *)

Module Statements.
Local Open Scope Q_scope.

(** A score of the unit interval. *)
Definition unit (q : Q) : Prop := 0 <= q /\ q <= 1.

(** One of the steps of [parseActivity] after the quality gate throws:
    the type inference, the content extractor or the rule engine. *)
Definition later_step_throws (h : Host) (p : ActivityParser.t)
                             (raw : Raw.t) : Prop :=
  is_ok (ActivityParser.determineActivityType raw) = false \/
  is_ok (ActivityParser.contentExtractor p raw) = false \/
  is_ok (fst (RuleEngine.apply h (ActivityParser.ruleEngine p) raw)) = false.

(** The duration buffer of a session. *)
Definition buffer_of (sm : SessionManager.t) (sessionId : string)
  : list Parsed.t :=
  default [] (SessionManager.activityBuffer sm !! sessionId).

(** The id of the record is not in the buffer of its session. *)
Definition fresh (sm : SessionManager.t) (raw : Raw.t) : bool :=
  match SessionManager.findIndex (Raw.id raw)
          (buffer_of sm (Raw.session_id raw)) 0 with
  | None => true
  | Some _ => false
  end.

(** Every record of a sequence of calls is fresh when its call starts. *)
Fixpoint fresh_feed (h : Host) (p : ActivityParser.t)
                    (calls : list (Z * Raw.t)) : bool :=
  match calls with
  | [] => true
  | (now, raw) :: rest =>
      fresh (ActivityParser.sessionManager p) raw &&
      fresh_feed h (snd (ActivityParser.parseActivity h now p raw)) rest
  end.

(** No stored activity has a duration. *)
Definition no_durations (sm : SessionManager.t) : Prop :=
  forall (sessionId : string) (s : SessionData),
    SessionManager.sessions sm !! sessionId = Some s ->
    Forall (fun a => Parsed.duration a = None) (activities s).

Definition all_zero (l : list (string * Z)) : Prop :=
  Forall (fun e => snd e = 0%Z) l.

(** Every aggregate of the summary that is built from durations is 0. *)
Definition zero_summary (s : SessionSummary) : Prop :=
  active_duration s = 0%Z /\
  idle_duration s = 0%Z /\
  all_zero (activity_breakdown s) /\
  all_zero (category_breakdown s) /\
  Forall (fun u => au_duration u = 0%Z) (top_applications s).

(** The sum of the values of a breakdown. *)
Definition sum_values (l : list (string * Z)) : Z :=
  fold_right (fun e acc => (snd e + acc)%Z) 0%Z l.

(** The sum of the durations of the activities that [keep] selects. *)
Definition total_of (keep : Parsed.t -> bool) (acts : list Parsed.t) : Z :=
  fold_right (fun a acc => (Parsed.duration_or_0 a + acc)%Z) 0%Z
             (List.filter keep acts).

(** The sum of the durations of all the activities. *)
Definition durations (acts : list Parsed.t) : Z :=
  total_of (fun _ => true) acts.

Definition is_idle (a : Parsed.t) : bool :=
  String.eqb (Parsed.type a) ActivityType.IDLE.

(** The bucket of a key: what the breakdown holds for it, 0 without an
    entry. *)
Definition bucket (k : string) (l : list (string * Z)) : Z :=
  match Js.assoc k l with Some v => v | None => 0%Z end.

End Statements.

(** ** The remaining methods of the classes *)

(** *** QualityAnalyzer: statistics over the history *)

Module QualityStatistics.
Local Open Scope Q_scope.

(** [getAverageQuality] *)
Definition getAverageQuality (qa : QualityAnalyzer.t) : Q :=
  match QualityAnalyzer.qualityScores qa with
  | [] => 0
  | l => fold_left Qplus l 0 / inject_Z (Z.of_nat (length l))
  end.

Record distribution : Type := {
  excellent : nat;
  good : nat;
  fair : nat;
  poor : nat
}.

(** One iteration of the loop of [getQualityDistribution]. *)
Definition classify (d : distribution) (score : Q) : distribution :=
  if Qle_bool 0.9 score then
    {| excellent := S (excellent d); good := good d; fair := fair d;
       poor := poor d |}
  else if Qle_bool 0.7 score then
    {| excellent := excellent d; good := S (good d); fair := fair d;
       poor := poor d |}
  else if Qle_bool 0.5 score then
    {| excellent := excellent d; good := good d; fair := S (fair d);
       poor := poor d |}
  else
    {| excellent := excellent d; good := good d; fair := fair d;
       poor := S (poor d) |}.

(** [getQualityDistribution] *)
Definition getQualityDistribution (qa : QualityAnalyzer.t) : distribution :=
  fold_left classify (QualityAnalyzer.qualityScores qa)
            {| excellent := 0; good := 0; fair := 0; poor := 0 |}.

(** [updateThresholds] with all the thresholds given *)
Definition updateThresholds (th : QualityThresholds) (qa : QualityAnalyzer.t)
  : QualityAnalyzer.t :=
  {| QualityAnalyzer.thresholds := th;
     QualityAnalyzer.qualityScores := QualityAnalyzer.qualityScores qa |}.

(** A sequence of calls of [analyze], each with its reading of the
    clock. *)
Fixpoint analyzeAll (h : Host) (qa : QualityAnalyzer.t)
                    (calls : list (Z * Raw.t)) : QualityAnalyzer.t :=
  match calls with
  | [] => qa
  | (now, activity) :: rest =>
      analyzeAll h (snd (QualityAnalyzer.analyze h now qa activity)) rest
  end.

End QualityStatistics.

(** *** SessionManager: retention and counters *)

Module SessionStore.
Import SessionManager.

(** [session.end_time ? session.end_time.getTime()
                       : session.start_time.getTime()] *)
Definition sessionAge (session : SessionData) : Z :=
  match end_time session with
  | Some e => e
  | None => start_time session
  end.

(** The body of the loop of [cleanupOldSessions]. *)
Definition sweep (cutoffTime : Z) (sessionId : string)
                 (session : SessionData) (sm : SessionManager.t)
  : SessionManager.t :=
  if Z.ltb (sessionAge session) cutoffTime
  then {| sessions := delete sessionId (sessions sm);
          activityBuffer := delete sessionId (activityBuffer sm) |}
  else sm.

(** [cleanupOldSessions]; [now] is the value of [Date.now()]. An
    iteration deletes at most the entry that it visits, so that the order
    of the iteration has no part in the outcome. *)
Definition cleanupOldSessions (now maxAge : Z) (sm : SessionManager.t)
  : SessionManager.t :=
  let cutoffTime := now - maxAge in
  map_fold (sweep cutoffTime) sm (sessions sm).

(** [getTotalActivities] *)
Definition getTotalActivities (sm : SessionManager.t) : nat :=
  map_fold (fun _ session total => (total + length (activities session))%nat)
           0%nat (sessions sm).

(** [getSessionCount] *)
Definition getSessionCount (sm : SessionManager.t) : nat :=
  size (sessions sm).

(** [exportSessionData] *)
Definition exportSessionData (sessionId : string) (sm : SessionManager.t)
  : option SessionData :=
  sessions sm !! sessionId.

(** A sequence of calls of [addActivity] on a new manager. *)
Definition addAll (acts : list Parsed.t) : SessionManager.t :=
  fold_left (fun sm a => addActivity a sm) acts SessionManager.constructor.

End SessionStore.

(** *** ActivityParser: configuration and statistics *)

Record ParserStatistics : Type := {
  totalParsed : nat;
  sessionCount : nat;
  averageQuality : Q;
  ruleHitRate : gmap string nat
}.

(** [Partial<ParserConfig>]: the keys that are given. *)
Record PartialParserConfig : Type := {
  new_rules : option (list ParsingRule.t);
  new_quality_thresholds : option QualityThresholds;
  new_categorization : option CategorizationConfig
}.

Module ParserAdmin.
Import ActivityParser.

(** [getStatistics] *)
Definition getStatistics (p : ActivityParser.t) : ParserStatistics :=
  {| totalParsed := SessionStore.getTotalActivities (sessionManager p);
     sessionCount := SessionStore.getSessionCount (sessionManager p);
     averageQuality :=
       QualityStatistics.getAverageQuality (qualityAnalyzer p);
     ruleHitRate := RuleEngine.ruleHits (ruleEngine p) |}.

(** [{ ...this.config, ...config }] *)
Definition merge (cfg : ParserConfig) (c : PartialParserConfig)
  : ParserConfig :=
  {| rules := default (rules cfg) (new_rules c);
     quality_thresholds :=
       default (quality_thresholds cfg) (new_quality_thresholds c);
     categorization := default (categorization cfg) (new_categorization c) |}.

(** [updateConfig] *)
Definition updateConfig (c : PartialParserConfig) (p : ActivityParser.t)
  : ActivityParser.t :=
  {| config := merge (config p) c;
     ruleEngine :=
       match new_rules c with
       | Some l => RuleEngine.updateRules l (ruleEngine p)
       | None => ruleEngine p
       end;
     categorizer :=
       match new_categorization c with
       | Some cfg => ActivityCategorizer.updateConfig cfg (categorizer p)
       | None => categorizer p
       end;
     qualityAnalyzer :=
       match new_quality_thresholds c with
       | Some th => QualityStatistics.updateThresholds th (qualityAnalyzer p)
       | None => qualityAnalyzer p
       end;
     contentExtractor := contentExtractor p;
     sessionManager := sessionManager p |}.

(** The number of activities that a sequence of calls returned. *)
Definition accepted (results : list (option Parsed.t)) : nat :=
  length (List.filter (fun r => match r with Some _ => true | None => false end)
                      results).

End ParserAdmin.

(** ** Predicates of the further statements *)

Module Statements2.

(** A rule comes before the rules of lower or equal priority. *)
Definition by_priority (a b : ParsingRule.t) : Prop :=
  (ParsingRule.priority b <= ParsingRule.priority a)%Z.

Definition same_priority (p : Z) (r : ParsingRule.t) : bool :=
  Z.eqb (ParsingRule.priority r) p.

(** The rule is enabled and all its conditions hold on the record. *)
Definition fires (h : Host) (activity : Raw.t) (r : ParsingRule.t) : Prop :=
  ParsingRule.enabled r = true /\
  RuleEngine.evaluateConditions h (ParsingRule.conditions r) activity
    = Ok true.


(** The number of occurrences of an id in a list of ids. *)
Definition occurrences (k : string) (ids : list string) : nat :=
  count_occ string_dec ids k.

(** The activities of a session among a list of activities. *)
Definition of_session (sessionId : string) (acts : list Parsed.t)
  : list Parsed.t :=
  List.filter (fun a => String.eqb (Parsed.session_id a) sessionId) acts.

(** The last [n] elements of a list. *)
Definition last_n {A} (n : nat) (l : list A) : list A :=
  skipn (length l - n) l.

(** The latest of the timestamps of an activity and those after it. *)
Definition latest (a : Parsed.t) (rest : list Parsed.t) : Z :=
  fold_left Z.max (map Parsed.timestamp rest) (Parsed.timestamp a).

(** The session record that a non-empty list of activities of one
    session leaves. *)
Definition session_of (a : Parsed.t) (rest : list Parsed.t) : SessionData :=
  {| sd_session_id := Parsed.session_id a;
     sd_device_id := Parsed.device_id a;
     start_time := Parsed.timestamp a;
     end_time := Some (latest a rest);
     activities := a :: rest |}.

(** The time between an activity and the one before it, when it is
    positive and shorter than the idle limit. *)
Definition gap (previous : option Parsed.t) (a : Parsed.t) : option Z :=
  match previous with
  | None => None
  | Some p =>
      let d := Parsed.timestamp a - Parsed.timestamp p in
      if Z.ltb 0 d && Z.ltb d SessionManager.MAX_IDLE_TIME
      then Some d else None
  end.

(** No activity of the buffer has the given id. *)
Definition new_id (id : string) (buffer : list Parsed.t) : Prop :=
  List.Forall (fun b => Parsed.id b <> id) buffer.

(** An application comes before the applications of shorter or equal
    use. *)
Definition by_usage (u v : ApplicationUsage) : Prop :=
  (au_duration v <= au_duration u)%Z.

Definition longest_first (x y : string * Z) : Prop := (snd y <= snd x)%Z.

(** The activity is one of the application. *)
Definition uses (app : string) (a : Parsed.t) : bool :=
  String.eqb (Parsed.application a) app.

(** The number of activities of an application that have a category. *)
Definition category_count (app category : string) (acts : list Parsed.t)
  : nat :=
  length (List.filter
            (fun a => uses app a && String.eqb (Parsed.category a) category)
            acts).

(** The members of the enumeration [ActivityCategory]. *)
Definition categories : list string :=
  [ActivityCategory.PRODUCTIVE; ActivityCategory.NEUTRAL;
   ActivityCategory.DISTRACTING; ActivityCategory.BREAK;
   ActivityCategory.COMMUNICATION; ActivityCategory.LEARNING;
   ActivityCategory.ENTERTAINMENT].

(** Every category of the cache is a member of the enumeration. *)
Definition valid_cache (c : ActivityCategorizer.t) : Prop :=
  forall app category : string,
    ActivityCategorizer.categoryCache c !! app = Some category ->
    In category categories.


(** [data] is [undefined] or [null]. *)
Definition nullish (v : JsValue) : Prop := v = JUndefined \/ v = JNull.

End Statements2.

(** Further records for the examples. *)
Module Examples2.
Import Examples.

Definition a1 : Parsed.t :=
  activity "a-1" 1000 ActivityType.CODING ActivityCategory.PRODUCTIVE None.
Definition a2 : Parsed.t :=
  activity "a-2" 61000 ActivityType.CODING ActivityCategory.PRODUCTIVE None.

(** A browser that the categorizer does not know, on two sites. *)
Definition brave_github : Raw.t :=
  window "b-1" now "Brave" "GitHub - Brave"
         (Some "https://github.com/user/repo").

(** The default configuration with slack among the distracting
    applications. *)
Definition slack_distracting : CategorizationConfig :=
  {| productive_apps := productive_apps (categorization defaultParserConfig);
     distracting_apps := ["slack"];
     communication_apps := [];
     learning_apps := learning_apps (categorization defaultParserConfig) |}.

Definition slack_window : Raw.t :=
  window "s-1" now "Slack" "general - Slack" None.


End Examples2.

Ltac qconst := apply Qle_bool_iff; vm_compute; reflexivity.

(** * Properties *)

(** ** Rational arithmetic *)

Section QFacts.
Local Open Scope Q_scope.

Lemma Qltb_true (a b : Q) : Js.Qltb a b = true <-> a < b.
Proof.
  unfold Js.Qltb. rewrite negb_true_iff. split.
  - intros H. apply Qnot_le_lt. intros L.
    apply Qle_bool_iff in L. congruence.
  - intros H. destruct (Qle_bool b a) eqn:E; [|reflexivity].
    apply Qle_bool_iff in E. exfalso. apply (Qlt_not_le _ _ H E).
Qed.

Lemma Qltb_false (a b : Q) : Js.Qltb a b = false <-> b <= a.
Proof.
  unfold Js.Qltb. rewrite negb_false_iff. apply Qle_bool_iff.
Qed.

Lemma Qdiv_unit_interval (a b : Q) :
  0 <= a -> a <= b -> 0 < b -> 0 <= a / b /\ a / b <= 1.
Proof.
  intros Ha Hab Hb. split.
  - apply Qle_shift_div_l; [assumption | lra].
  - apply Qle_shift_div_r; [assumption | lra].
Qed.

Lemma Qdiv_self (a : Q) : 0 < a -> a / a == 1.
Proof. intros Ha. field. lra. Qed.

Lemma inject_nat_nonneg (n : nat) : 0 <= inject_Z (Z.of_nat n).
Proof.
  change 0 with (inject_Z 0). rewrite <- Zle_Qle. lia.
Qed.

End QFacts.

(** ** QualityAnalyzer: every sub-score lies in the unit interval *)

Module QualityFacts.
Import QualityAnalyzer Statements.
Local Open Scope Q_scope.

Lemma bump_diagonal (c : bool) (w : Q) (acc : Q * Q) :
  fst acc = snd acc -> fst (bump c w acc) = snd (bump c w acc).
Proof.
  intros H. unfold bump. destruct c; simpl; [rewrite H|]; congruence.
Qed.

Lemma bump_nonneg (c : bool) (w : Q) (acc : Q * Q) :
  0 <= w -> 0 <= snd acc -> 0 <= snd (bump c w acc).
Proof.
  intros Hw H. unfold bump. destruct c; simpl; lra.
Qed.

(** The completeness score is a quotient of a number by itself. *)
Lemma completeness_quotient (activity : Raw.t) :
  exists f : Q,
    calculateCompletenessScore activity =
    (if Js.Qltb 0 f then f / f else 0).
Proof.
  unfold calculateCompletenessScore.
  match goal with
  | |- context [let '(score, fields) := ?e in _] => remember e as acc eqn:E
  end.
  assert (D : fst acc = snd acc).
  { subst acc. repeat apply bump_diagonal. reflexivity. }
  destruct acc as [s f]. simpl in D. subst s. exists f. reflexivity.
Qed.

Lemma completeness_0_or_1 (activity : Raw.t) :
  calculateCompletenessScore activity == 0 \/
  calculateCompletenessScore activity == 1.
Proof.
  destruct (completeness_quotient activity) as [f ->].
  destruct (Js.Qltb 0 f) eqn:E.
  - right. apply Qdiv_self. now apply Qltb_true.
  - left. reflexivity.
Qed.

Lemma completeness_unit (activity : Raw.t) :
  unit (calculateCompletenessScore activity).
Proof.
  destruct (completeness_0_or_1 activity) as [E | E]; unfold unit;
    rewrite E; split; qconst.
Qed.

Lemma scale_bounds (c : bool) (f s : Q) :
  0 <= f -> 0 <= s -> 0 <= scale c f s.
Proof.
  intros Hf Hs. unfold scale. destruct c; [|assumption].
  apply Qmult_le_0_compat; assumption.
Qed.

Lemma text_unit (th : QualityThresholds) (text : string) :
  unit (calculateTextQualityScore th text).
Proof.
  unfold calculateTextQualityScore, unit.
  destruct (negb (JsString.truthy text)); [split; qconst|].
  split.
  - apply Q.min_glb; [qconst|].
    repeat (apply scale_bounds; [qconst|]). qconst.
  - eapply Qle_trans; [apply Q.le_min_l | qconst].
Qed.

Lemma context_unit (h : Host) (c : ActivityContext) :
  unit (calculateContextScore h c).
Proof.
  unfold calculateContextScore, unit, bump, isValidUrl.
  destruct c as [a w p u]; simpl.
  destruct (JsString.truthy_opt a), (JsString.truthy_opt w),
           (JsString.truthy_opt p);
    destruct u as [u|]; simpl;
    try destruct (JsString.truthy u); simpl;
    try destruct (URL_hostname h u); simpl;
    split; qconst.
Qed.

Lemma temporal_unit (now : Z) (activity : Raw.t) :
  unit (calculateTemporalScore now activity).
Proof.
  unfold calculateTemporalScore, unit.
  destruct (Z.eqb _ _); [split; qconst|].
  destruct (Z.ltb _ _); [split; qconst|].
  destruct (Z.ltb _ _); split; qconst.
Qed.

Lemma anomaly_unit (h : Host) (activity : Raw.t) :
  unit (detectAnomalies h activity).
Proof.
  unfold detectAnomalies, unit.
  destruct (Nat.eqb _ _); [split; qconst|].
  pose proof (inject_nat_nonneg (countAnomalies h activity)) as N.
  split.
  - eapply Qle_trans; [|apply Q.le_max_l]. qconst.
  - apply Q.max_lub; [qconst|]. lra.
Qed.

Lemma scores_unit (h : Host) (th : QualityThresholds) (now : Z)
                  (activity : Raw.t) :
  Forall unit (scores h th now activity).
Proof.
  unfold scores.
  repeat (apply Forall_app; split).
  - constructor; [apply completeness_unit | constructor].
  - destruct (Raw.processed_text activity) as [text|]; [|constructor].
    destruct (JsString.truthy text); [|constructor].
    constructor; [apply text_unit | constructor].
  - destruct (Raw.context activity); [|constructor].
    constructor; [apply context_unit | constructor].
  - constructor; [apply temporal_unit | constructor].
  - constructor; [apply anomaly_unit | constructor].
Qed.

Lemma weight_at_pos (i : nat) : 0 < weight_at i.
Proof.
  unfold weight_at.
  do 5 (destruct i as [|i]; [vm_compute; reflexivity|]).
  destruct i; vm_compute; reflexivity.
Qed.

Lemma accumulate_bounds (l : list Q) :
  Forall unit l ->
  forall (i : nat) (acc : Q * Q),
    0 <= fst acc -> fst acc <= snd acc ->
    0 <= fst (accumulate i l acc) /\
    fst (accumulate i l acc) <= snd (accumulate i l acc).
Proof.
  induction 1 as [|s l [Hs0 Hs1] _ IH]; intros i [a b] Ha Hab; simpl in *.
  - split; assumption.
  - pose proof (weight_at_pos i) as W.
    apply IH; simpl.
    + assert (0 <= s * weight_at i) by (apply Qmult_le_0_compat; lra). lra.
    + assert (s * weight_at i <= 1 * weight_at i)
        by (apply Qmult_le_compat_r; lra). lra.
Qed.

Lemma finalScore_unit (l : list Q) : Forall unit l -> unit (finalScore l).
Proof.
  intros H. unfold finalScore.
  destruct (accumulate_bounds l H 0 (0, 0)) as [A B]; simpl; try lra.
  destruct (accumulate 0 l (0, 0)) as [a b]; simpl in *.
  destruct (Js.Qltb 0 b) eqn:E.
  - apply Qltb_true in E. apply Qdiv_unit_interval; assumption.
  - split; qconst.
Qed.

Lemma score_unit (h : Host) (th : QualityThresholds) (now : Z)
                 (activity : Raw.t) :
  unit (score h th now activity).
Proof. apply finalScore_unit, scores_unit. Qed.

End QualityFacts.

(** ** ActivityParser: the quality gate *)

Module GateFacts.
Import Statements.
Local Open Scope Q_scope.

Lemma is_ok_false {A} (r : result A) :
  is_ok r = false <-> exists e, r = Throw e.
Proof.
  destruct r; simpl; split; try congruence; eauto.
  intros [e E]. discriminate.
Qed.

(** The outcome of [parseActivity] by cases. *)
Lemma parseActivity_cases (h : Host) (now : Z) (p : ActivityParser.t)
                          (raw : Raw.t) :
  let s := QualityAnalyzer.score h
             (QualityAnalyzer.thresholds (ActivityParser.qualityAnalyzer p))
             now raw in
  let min := min_confidence (quality_thresholds (ActivityParser.config p)) in
  (fst (ActivityParser.parseActivity h now p raw) = None /\
   (s < min \/ later_step_throws h p raw)) \/
  (exists a : Parsed.t,
     fst (ActivityParser.parseActivity h now p raw) = Some a /\
     Parsed.id a = Raw.id raw /\ Parsed.quality_score a = s /\ min <= s /\
     ~ later_step_throws h p raw).
Proof.
  intros s min.
  unfold ActivityParser.parseActivity, QualityAnalyzer.analyze,
         later_step_throws.
  fold s. cbn [ActivityParser.with_quality ActivityParser.config
               ActivityParser.contentExtractor ActivityParser.categorizer
               ActivityParser.ruleEngine ActivityParser.sessionManager].
  fold min.
  destruct (Js.Qltb s min) eqn:G.
  { apply Qltb_true in G. left. simpl. auto. }
  apply Qltb_false in G.
  destruct (ActivityParser.determineActivityType raw) as [ty|e] eqn:T;
    simpl; [|left; auto].
  destruct (ActivityParser.contentExtractor p raw) as [content|e] eqn:X;
    simpl; [|left; auto].
  destruct (ActivityCategorizer.categorize h (ActivityParser.categorizer p)
              raw ty) as [category c].
  cbn [ActivityParser.with_categorizer ActivityParser.ruleEngine].
  destruct (RuleEngine.apply h (ActivityParser.ruleEngine p) raw)
    as [applied e] eqn:R.
  destruct applied as [ruleResults|msg]; simpl; [|left; auto].
  right. eexists. split; [reflexivity|].
  unfold ActivityParser.attach_duration.
  repeat split.
  - destruct (SessionManager.calculateDuration _ _) as [d|];
      [destruct (Z.eqb d 0)|]; reflexivity.
  - destruct (SessionManager.calculateDuration _ _) as [d|];
      [destruct (Z.eqb d 0)|]; reflexivity.
  - exact G.
  - intros [F | [F | F]]; discriminate.
Qed.

Lemma parseActivity_null_of_throw (h : Host) (now : Z)
                                  (p : ActivityParser.t) (raw : Raw.t) :
  later_step_throws h p raw ->
  fst (ActivityParser.parseActivity h now p raw) = None.
Proof.
  intros L. destruct (parseActivity_cases h now p raw) as [[N _] | [a H]].
  - exact N.
  - exfalso. apply H, L.
Qed.

(** C1, as the code has it. The quality score lies in [[0,1]].
    [parseActivity] returns null when the score is below
    [min_confidence]; when it is not, [parseActivity] returns null
    exactly when a later step throws (the exception is caught by the
    try/catch of [parseActivity]), and otherwise returns an activity that
    carries the id of the record and that score. *)
Theorem parseActivity_null_iff (h : Host) (now : Z) (p : ActivityParser.t)
                               (raw : Raw.t) :
  let s := fst (QualityAnalyzer.analyze h now
                  (ActivityParser.qualityAnalyzer p) raw) in
  let min := min_confidence (quality_thresholds (ActivityParser.config p)) in
  unit s /\
  (fst (ActivityParser.parseActivity h now p raw) = None <->
   s < min \/ later_step_throws h p raw) /\
  (forall a : Parsed.t,
     fst (ActivityParser.parseActivity h now p raw) = Some a ->
     Parsed.id a = Raw.id raw /\ Parsed.quality_score a = s /\ min <= s).
Proof.
  intros s min.
  assert (S : s = QualityAnalyzer.score h
                    (QualityAnalyzer.thresholds
                       (ActivityParser.qualityAnalyzer p)) now raw)
    by reflexivity.
  clearbody s. subst s min.
  split; [apply QualityFacts.score_unit|].
  destruct (parseActivity_cases h now p raw)
    as [[N C] | [a [S [I [Q [M T]]]]]].
  - split; [split; auto|]. intros a E. congruence.
  - split.
    + split; [congruence|]. intros [L | L]; [|contradiction].
      exfalso. apply (Qlt_not_le _ _ L M).
    + intros a' E. rewrite S in E. inversion E; subst. auto.
Qed.

(** C1, as stated, fails: with a rule whose pattern does not compile,
    the record of the browser test scores 1, which is not below the
    threshold 0.5, and [parseActivity] returns null. *)
Lemma parseActivity_null_above_threshold :
  fst (ActivityParser.parseActivity Node.host Examples.now
         Examples.bad_regex_parser Examples.chrome_github) = None /\
  ~ fst (QualityAnalyzer.analyze Node.host Examples.now
           (ActivityParser.qualityAnalyzer Examples.bad_regex_parser)
           Examples.chrome_github)
    < min_confidence
        (quality_thresholds
           (ActivityParser.config Examples.bad_regex_parser)).
Proof.
  split.
  - vm_compute. reflexivity.
  - apply Qle_not_lt. qconst.
Qed.

End GateFacts.

(** ** QualityAnalyzer: completeness and weights *)

Module QualityBugs.
Import Statements.
Local Open Scope Q_scope.

(** C5: the code divides a sum by itself. For the record of the test
    'should reject low quality activities', which lacks the device, the
    session, the payload, the text and the context, the completeness
    score of the code is 1; the fraction of the expected fields that are
    present is 3 / 6.5. *)
Theorem completeness_of_incomplete_record :
  QualityAnalyzer.calculateCompletenessScore Examples.low_quality == 1 /\
  Design.completeness Examples.low_quality == 6 # 13 /\
  (forall activity : Raw.t,
     QualityAnalyzer.calculateCompletenessScore activity == 0 \/
     QualityAnalyzer.calculateCompletenessScore activity == 1).
Proof.
  split; [|split].
  - apply Qeq_bool_iff. vm_compute. reflexivity.
  - apply Qeq_bool_iff. vm_compute. reflexivity.
  - apply QualityFacts.completeness_0_or_1.
Qed.

(** C4: the code takes the weights by position in the list of the
    sub-scores that are present. For a record without text and with a
    context, the context score is weighted 0.3 and the anomaly score 0.2,
    over a denominator of 0.9: the window record with a future timestamp
    has the sub-scores 1, 1, 0.3, 1 and scores 38/45, where the weights
    of the design give 4/5. *)
Theorem weights_shift_without_text :
  (forall (h : Host) (now : Z) (qa : QualityAnalyzer.t) (activity : Raw.t)
          (c : ActivityContext),
     Raw.processed_text activity = None ->
     Raw.context activity = Some c ->
     fst (QualityAnalyzer.analyze h now qa activity) ==
     (0.2 * QualityAnalyzer.calculateCompletenessScore activity +
      0.3 * QualityAnalyzer.calculateContextScore h c +
      0.2 * QualityAnalyzer.calculateTemporalScore now activity +
      0.2 * QualityAnalyzer.detectAnomalies h activity) / 0.9) /\
  Forall2 Qeq
    (QualityAnalyzer.scores Node.host
       (quality_thresholds Examples.defaultParserConfig) Examples.now
       Examples.future_window)
    [1; 1; 0.3; 1] /\
  fst (QualityAnalyzer.analyze Node.host Examples.now
         (ActivityParser.qualityAnalyzer Examples.default_parser)
         Examples.future_window) == 38 # 45 /\
  Design.score Node.host
    (quality_thresholds Examples.defaultParserConfig) Examples.now
    Examples.future_window == 4 # 5.
Proof.
  split; [|split; [|split]].
  - intros h now qa activity c T C.
    unfold QualityAnalyzer.analyze, QualityAnalyzer.score,
           QualityAnalyzer.scores.
    cbn [fst]. rewrite T, C. unfold QualityAnalyzer.finalScore.
    cbn [app QualityAnalyzer.accumulate fst snd].
    set (a := QualityAnalyzer.calculateCompletenessScore activity).
    set (b := QualityAnalyzer.calculateContextScore h c).
    set (t := QualityAnalyzer.calculateTemporalScore now activity).
    set (d := QualityAnalyzer.detectAnomalies h activity).
    change (QualityAnalyzer.weight_at 0) with 0.2.
    change (QualityAnalyzer.weight_at 1) with 0.3.
    change (QualityAnalyzer.weight_at 2) with 0.2.
    change (QualityAnalyzer.weight_at 3) with 0.2.
    assert (W : Js.Qltb 0 (0 + 0.2 + 0.3 + 0.2 + 0.2) = true)
      by (vm_compute; reflexivity).
    rewrite W. field.
  - repeat constructor.
  - apply Qeq_bool_iff. vm_compute. reflexivity.
  - apply Qeq_bool_iff. vm_compute. reflexivity.
Qed.

End QualityBugs.

(** ** RuleEngine *)

Module RuleFacts.
Import RuleEngine.

Section Loop.
Variable h : Host.
Variable activity : Raw.t.

Lemma reaches_app (pre rest : list ParsingRule.t) :
  forall (res : RuleResult.t) (hits : gmap string nat)
         (res1 : RuleResult.t) (hits1 : gmap string nat),
    reaches h pre activity res hits = Some (res1, hits1) ->
    apply_loop h (pre ++ rest) activity res hits =
    apply_loop h rest activity res1 hits1.
Proof.
  induction pre as [|r pre IH]; intros res hits res1 hits1 H; simpl in *.
  - now inversion H.
  - destruct (step h r activity res hits); try discriminate.
    now apply IH.
Qed.

(** What one iteration does with a rule that is enabled and matches. *)
Lemma step_matching (r : ParsingRule.t) (res : RuleResult.t)
                    (hits : gmap string nat) :
  ParsingRule.enabled r = true ->
  evaluateConditions h (ParsingRule.conditions r) activity = Ok true ->
  step h r activity res hits =
  match applyActions h (ParsingRule.actions r) activity res with
  | Throw e => Raise e hits
  | Ok res' =>
      if isExclusiveRule r
      then Break (push_applied (ParsingRule.id r) res')
                 (recordHit (ParsingRule.id r) hits)
      else Continue (push_applied (ParsingRule.id r) res')
                    (recordHit (ParsingRule.id r) hits)
  end.
Proof.
  intros E C. unfold step. rewrite E, C. reflexivity.
Qed.

Lemma recordHit_grows (id k : string) (hits : gmap string nat) :
  (default 0 (hits !! k) <= default 0 (recordHit id hits !! k))%nat.
Proof.
  unfold recordHit. destruct (decide (id = k)) as [->|N].
  - rewrite lookup_insert_eq. simpl. lia.
  - rewrite lookup_insert_ne by assumption. lia.
Qed.

Lemma recordHit_counts (id : string) (hits : gmap string nat) :
  default 0%nat (recordHit id hits !! id) = S (default 0%nat (hits !! id)).
Proof. unfold recordHit. rewrite lookup_insert_eq. reflexivity. Qed.

Lemma applyAction_applied (a : RuleAction.t) (res res' : RuleResult.t) :
  applyAction h a activity res = Ok res' ->
  RuleResult.applied_rules res' = RuleResult.applied_rules res.
Proof.
  unfold applyAction, extractContent.
  destruct (String.eqb _ "set_type"); [intros [= <-]; reflexivity|].
  destruct (String.eqb _ "set_category"); [intros [= <-]; reflexivity|].
  destruct (String.eqb _ "add_tag"); [intros [= <-]; reflexivity|].
  destruct (String.eqb _ "extract_content"); [|intros [= <-]; reflexivity].
  destruct (RuleAction.field _); [|discriminate].
  destruct (getFieldValue activity _); try (intros [= <-]; reflexivity).
  destruct (RuleAction.pattern _); [|intros [= <-]; reflexivity].
  destruct (JsString.truthy _); [|intros [= <-]; reflexivity].
  destruct (RegExp_new h _); [|discriminate].
  destruct (Regex.exec _ _) as [[whole group1]|];
    intros [= <-]; reflexivity.
Qed.

Lemma applyActions_applied (l : list RuleAction.t) :
  forall res res' : RuleResult.t,
    applyActions h l activity res = Ok res' ->
    RuleResult.applied_rules res' = RuleResult.applied_rules res.
Proof.
  induction l as [|a l IH]; intros res res' H; simpl in H.
  - now inversion H.
  - destruct (applyAction h a activity res) as [r1|] eqn:A; simpl in H;
      [|discriminate].
    rewrite (IH _ _ H). exact (applyAction_applied a _ _ A).
Qed.

(** An action that throws ends the loop over the actions with its
    exception. *)
Lemma applyActions_throw (l : list RuleAction.t) (a : RuleAction.t)
                         (rest : list RuleAction.t) (msg : string) :
  forall res res' : RuleResult.t,
    applyActions h l activity res = Ok res' ->
    applyAction h a activity res' = Throw msg ->
    applyActions h (l ++ a :: rest) activity res = Throw msg.
Proof.
  induction l as [|a0 l IH]; intros res res' H T; simpl in *.
  - inversion H; subst. rewrite T. reflexivity.
  - destruct (applyAction h a0 activity res) as [r1|]; simpl in *;
      [|discriminate].
    exact (IH _ _ H T).
Qed.

(** A step that does not throw keeps the recorded ids and the counters,
    and adds at most its own. *)
Lemma step_grows (r : ParsingRule.t) (res : RuleResult.t)
                 (hits : gmap string nat) :
  forall (res' : RuleResult.t) (hits' : gmap string nat),
    step h r activity res hits = Continue res' hits' \/
    step h r activity res hits = Break res' hits' ->
    (forall id, In id (RuleResult.applied_rules res) ->
                In id (RuleResult.applied_rules res')) /\
    (forall k, default 0 (hits !! k) <= default 0 (hits' !! k))%nat.
Proof.
  intros res' hits'. unfold step.
  destruct (negb (ParsingRule.enabled r)).
  { intros [[= <- <-] | H]; [|discriminate]. split; auto. }
  destruct (evaluateConditions h _ activity) as [[|]|];
    try (intros [H | H]; discriminate).
  2:{ intros [[= <- <-] | H]; [|discriminate]. split; auto. }
  destruct (applyActions h _ activity res) as [res2|] eqn:A;
    try (intros [H | H]; discriminate).
  apply applyActions_applied in A.
  assert (G : (forall id, In id (RuleResult.applied_rules res) ->
                 In id (RuleResult.applied_rules
                          (push_applied (ParsingRule.id r) res2))) /\
              (forall k,
                 default 0 (hits !! k) <=
                 default 0 (recordHit (ParsingRule.id r) hits !! k))%nat).
  { split.
    - intros id I. simpl. rewrite A. apply in_or_app. now left.
    - intros k. apply recordHit_grows. }
  destruct (isExclusiveRule r); intros [H | H]; inversion H; subst; exact G.
Qed.

Lemma apply_loop_grows (rules : list ParsingRule.t) :
  forall (res : RuleResult.t) (hits : gmap string nat)
         (res' : RuleResult.t) (hits' : gmap string nat),
    apply_loop h rules activity res hits = (Ok res', hits') ->
    (forall id, In id (RuleResult.applied_rules res) ->
                In id (RuleResult.applied_rules res')) /\
    (forall k, default 0 (hits !! k) <= default 0 (hits' !! k))%nat.
Proof.
  induction rules as [|r rules IH]; intros res hits res' hits' H;
    simpl in H.
  - inversion H; subst. split; auto.
  - destruct (step h r activity res hits) as [r1 h1 | r1 h1 | e h1] eqn:S.
    + destruct (step_grows r res hits r1 h1 (or_introl S)) as [A B].
      destruct (IH _ _ _ _ H) as [A' B']. split.
      * intros id I. apply A', A, I.
      * intros k. etransitivity; [apply B | apply B'].
    + inversion H; subst.
      apply (step_grows r res hits res' hits' (or_intror S)).
    + discriminate.
Qed.

End Loop.

(** C7. Once the loop of [apply] reaches a rule that is enabled, whose
    conditions all hold and whose actions include [set_type] or
    [set_category], the outcome of [apply] is the one after that rule:
    its actions applied to the result so far, its id recorded last and
    its counter incremented. Whatever rules follow it, none of their
    actions is applied, none of their ids is recorded and none of their
    counters changes. *)
Theorem exclusive_rule_stops_evaluation
    (h : Host) (e : RuleEngine.t) (activity : Raw.t)
    (pre post : list ParsingRule.t) (r : ParsingRule.t)
    (res1 : RuleResult.t) (hits1 : gmap string nat) :
  rules e = (pre ++ r :: post)%list ->
  reaches h pre activity RuleResult.empty (ruleHits e) = Some (res1, hits1) ->
  ParsingRule.enabled r = true ->
  evaluateConditions h (ParsingRule.conditions r) activity = Ok true ->
  isExclusiveRule r = true ->
  apply h e activity =
  match applyActions h (ParsingRule.actions r) activity res1 with
  | Ok res2 =>
      (Ok (push_applied (ParsingRule.id r) res2),
       {| rules := rules e;
          ruleHits := recordHit (ParsingRule.id r) hits1 |})
  | Throw msg => (Throw msg, {| rules := rules e; ruleHits := hits1 |})
  end.
Proof.
  intros R P E C X. unfold apply. rewrite R at 1.
  rewrite (reaches_app h activity pre (r :: post) _ _ _ _ P). simpl.
  rewrite (step_matching h activity r res1 hits1 E C), X.
  destruct (applyActions h (ParsingRule.actions r) activity res1);
    reflexivity.
Qed.

Lemma exclusive_rule_stops_evaluation_witness :
  (map ParsingRule.id (firstn 1 RuleEngine.getDefaultRules)
     = ["code-detection"] /\
   ParsingRule.id
     (nth 1 RuleEngine.getDefaultRules Examples.unconditional_rule)
     = "browser-youtube" /\
   map ParsingRule.id (skipn 2 RuleEngine.getDefaultRules)
     = ["documentation-writing"; "idle-detection"]) /\
  apply Node.host Examples.default_engine Examples.chrome_youtube =
  (Ok {| RuleResult.type := Some "browsing";
         RuleResult.category := Some "entertainment";
         RuleResult.tags := [Some "video"];
         RuleResult.content := [];
         RuleResult.applied_rules := ["browser-youtube"] |},
   {| rules := rules Examples.default_engine;
      ruleHits := {["browser-youtube" := 1%nat]} |}).
Proof.
  split; [repeat split; reflexivity|].
  rewrite (exclusive_rule_stops_evaluation Node.host Examples.default_engine
             Examples.chrome_youtube
             (firstn 1 RuleEngine.getDefaultRules)
             (skipn 2 RuleEngine.getDefaultRules)
             (nth 1 RuleEngine.getDefaultRules Examples.unconditional_rule)
             RuleResult.empty ∅).
  - vm_compute. reflexivity.
  - reflexivity.
  - vm_compute. reflexivity.
  - reflexivity.
  - vm_compute. reflexivity.
  - reflexivity.
Defined.

(** C6, as the code has it. [every] over an empty list of conditions is
    true: an enabled rule without conditions matches every record. When
    the loop of [apply] reaches it, its actions are applied, then its id
    is recorded and its counter incremented, and the loop stops or goes
    on with the next rule as for any matching rule; when [apply]
    returns, the id is among the applied rules and the counter is
    larger than it was. *)
Theorem rule_without_conditions_matches
    (h : Host) (e : RuleEngine.t) (activity : Raw.t)
    (pre post : list ParsingRule.t) (r : ParsingRule.t)
    (res1 : RuleResult.t) (hits1 : gmap string nat) :
  rules e = (pre ++ r :: post)%list ->
  reaches h pre activity RuleResult.empty (ruleHits e) = Some (res1, hits1) ->
  ParsingRule.enabled r = true ->
  ParsingRule.conditions r = [] ->
  evaluateConditions h (ParsingRule.conditions r) activity = Ok true /\
  apply_loop h (rules e) activity RuleResult.empty (ruleHits e) =
  match applyActions h (ParsingRule.actions r) activity res1 with
  | Throw msg => (Throw msg, hits1)
  | Ok res2 =>
      if isExclusiveRule r
      then (Ok (push_applied (ParsingRule.id r) res2),
            recordHit (ParsingRule.id r) hits1)
      else apply_loop h post activity
                      (push_applied (ParsingRule.id r) res2)
                      (recordHit (ParsingRule.id r) hits1)
  end /\
  (forall (res : RuleResult.t) (e' : RuleEngine.t),
     apply h e activity = (Ok res, e') ->
     In (ParsingRule.id r) (RuleResult.applied_rules res) /\
     (default 0 (hits1 !! ParsingRule.id r) <
      default 0 (ruleHits e' !! ParsingRule.id r))%nat).
Proof.
  intros R P E C.
  assert (M : evaluateConditions h (ParsingRule.conditions r) activity
              = Ok true) by (rewrite C; reflexivity).
  assert (L : apply_loop h (rules e) activity RuleResult.empty (ruleHits e) =
              match applyActions h (ParsingRule.actions r) activity res1 with
              | Throw msg => (Throw msg, hits1)
              | Ok res2 =>
                  if isExclusiveRule r
                  then (Ok (push_applied (ParsingRule.id r) res2),
                        recordHit (ParsingRule.id r) hits1)
                  else apply_loop h post activity
                                  (push_applied (ParsingRule.id r) res2)
                                  (recordHit (ParsingRule.id r) hits1)
              end).
  { rewrite R. rewrite (reaches_app h activity pre (r :: post) _ _ _ _ P).
    simpl. rewrite (step_matching h activity r res1 hits1 E M).
    destruct (applyActions h (ParsingRule.actions r) activity res1);
      [destruct (isExclusiveRule r)|]; reflexivity. }
  split; [exact M|]. split; [exact L|].
  intros res e' A. unfold apply in A. rewrite L in A.
  destruct (applyActions h (ParsingRule.actions r) activity res1)
    as [res2|msg]; [|discriminate].
  assert (I0 : In (ParsingRule.id r)
                  (RuleResult.applied_rules
                     (push_applied (ParsingRule.id r) res2))).
  { simpl. apply in_or_app. right. now left. }
  pose proof (recordHit_counts (ParsingRule.id r) hits1) as H0.
  destruct (isExclusiveRule r).
  - inversion A; subst. simpl. split; [exact I0|]. rewrite H0. lia.
  - destruct (apply_loop h post activity _ _) as [[res'|] hits'] eqn:Q;
      [|discriminate].
    inversion A; subst. simpl.
    destruct (apply_loop_grows h activity post _ _ _ _ Q) as [G1 G2].
    split; [apply G1, I0|].
    specialize (G2 (ParsingRule.id r)). rewrite H0 in G2. lia.
Qed.

Lemma rule_without_conditions_matches_witness :
  evaluateConditions Node.host
    (ParsingRule.conditions Examples.unconditional_rule)
    Examples.chrome_github = Ok true /\
  forall (res : RuleResult.t) (e' : RuleEngine.t),
    apply Node.host Examples.unconditional_engine Examples.chrome_github
      = (Ok res, e') ->
    In "catch-all" (RuleResult.applied_rules res) /\
    (0 < default 0 (ruleHits e' !! "catch-all"))%nat.
Proof.
  destruct (rule_without_conditions_matches Node.host
              Examples.unconditional_engine
              Examples.chrome_github [] [] Examples.unconditional_rule
              RuleResult.empty ∅) as [M [_ A]];
    try reflexivity.
  split; [exact M | exact A].
Defined.

(** C6, as stated, fails: the engine applies the action of an enabled
    rule without conditions, records its id and counts a hit. *)
Lemma rule_without_conditions_is_applied :
  ParsingRule.enabled Examples.unconditional_rule = true /\
  ParsingRule.conditions Examples.unconditional_rule = [] /\
  apply Node.host Examples.unconditional_engine Examples.chrome_github =
  (Ok {| RuleResult.type := None;
         RuleResult.category := None;
         RuleResult.tags := [Some "always"];
         RuleResult.content := [];
         RuleResult.applied_rules := ["catch-all"] |},
   {| rules := [Examples.unconditional_rule];
      ruleHits := {["catch-all" := 1%nat]} |}).
Proof.
  split; [reflexivity|]. split; [reflexivity|]. vm_compute. reflexivity.
Qed.

(** C8, as the code has it. [RuleEngine] has no try/catch. With a
    pattern that does not compile, a [matches] condition is false when
    the value of its field is not a string, the pattern being compiled
    only for a string, and throws when it is one; [extract_content] does
    nothing on a value that is not a string and throws on a string. The
    exception leaves [apply] as soon as the loop evaluates such a
    condition, and as soon as the loop applies such an action of a rule
    that matches, in both cases with the hits counted so far and without a
    result; [parseActivity] catches it and returns null for the record. *)
Theorem invalid_regex_propagates (h : Host) (p : string) :
  RegExp_new h p = None ->
  (forall (c : RuleCondition.t) (activity : Raw.t),
     RuleCondition.operator c = "matches" ->
     RuleCondition.value c = JStr p ->
     evaluateCondition h c activity =
     match getFieldValue activity (RuleCondition.field c) with
     | JStr _ => Throw "SyntaxError"
     | _ => Ok false
     end) /\
  (forall (params : RuleAction.params_t) (field : string)
          (activity : Raw.t) (res : RuleResult.t),
     RuleAction.field params = Some field ->
     RuleAction.pattern params = Some p ->
     JsString.truthy p = true ->
     extractContent h params activity res =
     match getFieldValue activity field with
     | JStr _ => Throw "SyntaxError"
     | _ => Ok res
     end) /\
  (forall (e : RuleEngine.t) (activity : Raw.t)
          (pre post : list ParsingRule.t) (r : ParsingRule.t)
          (cs1 cs2 : list RuleCondition.t) (c : RuleCondition.t)
          (res1 : RuleResult.t) (hits1 : gmap string nat) (v : string),
     rules e = (pre ++ r :: post)%list ->
     reaches h pre activity RuleResult.empty (ruleHits e)
       = Some (res1, hits1) ->
     ParsingRule.enabled r = true ->
     ParsingRule.conditions r = (cs1 ++ c :: cs2)%list ->
     evaluateConditions h cs1 activity = Ok true ->
     RuleCondition.operator c = "matches" ->
     RuleCondition.value c = JStr p ->
     getFieldValue activity (RuleCondition.field c) = JStr v ->
     apply h e activity =
     (Throw "SyntaxError", {| rules := rules e; ruleHits := hits1 |})) /\
  (forall (e : RuleEngine.t) (activity : Raw.t)
          (pre post : list ParsingRule.t) (r : ParsingRule.t)
          (as1 as2 : list RuleAction.t) (a : RuleAction.t)
          (field : string) (res1 res2 : RuleResult.t)
          (hits1 : gmap string nat) (v : string),
     rules e = (pre ++ r :: post)%list ->
     reaches h pre activity RuleResult.empty (ruleHits e)
       = Some (res1, hits1) ->
     ParsingRule.enabled r = true ->
     evaluateConditions h (ParsingRule.conditions r) activity = Ok true ->
     ParsingRule.actions r = (as1 ++ a :: as2)%list ->
     applyActions h as1 activity res1 = Ok res2 ->
     RuleAction.type a = "extract_content" ->
     RuleAction.field (RuleAction.params a) = Some field ->
     RuleAction.pattern (RuleAction.params a) = Some p ->
     JsString.truthy p = true ->
     getFieldValue activity field = JStr v ->
     apply h e activity =
     (Throw "SyntaxError", {| rules := rules e; ruleHits := hits1 |})) /\
  (forall (now : Z) (parser : ActivityParser.t) (activity : Raw.t),
     is_ok (fst (apply h (ActivityParser.ruleEngine parser) activity))
       = false ->
     fst (ActivityParser.parseActivity h now parser activity) = None).
Proof.
  intros I.
  assert (A : forall (c : RuleCondition.t) (activity : Raw.t),
            RuleCondition.operator c = "matches" ->
            RuleCondition.value c = JStr p ->
            evaluateCondition h c activity =
            match getFieldValue activity (RuleCondition.field c) with
            | JStr _ => Throw "SyntaxError"
            | _ => Ok false
            end).
  { intros c activity O V. unfold evaluateCondition. rewrite O, V. simpl.
    rewrite I. destruct (getFieldValue activity _); reflexivity. }
  assert (B : forall (params : RuleAction.params_t) (field : string)
                   (activity : Raw.t) (res : RuleResult.t),
            RuleAction.field params = Some field ->
            RuleAction.pattern params = Some p ->
            JsString.truthy p = true ->
            extractContent h params activity res =
            match getFieldValue activity field with
            | JStr _ => Throw "SyntaxError"
            | _ => Ok res
            end).
  { intros params field activity res F P T. unfold extractContent.
    rewrite F, P, T, I.
    destruct (getFieldValue activity field); reflexivity. }
  split; [exact A|]. split; [exact B|]. split; [|split].
  - intros e activity pre post r cs1 cs2 c res1 hits1 v R P E C C1 O V G.
    unfold apply. rewrite R at 1.
    rewrite (reaches_app h activity pre (r :: post) _ _ _ _ P). simpl.
    unfold step. rewrite E, C. simpl.
    assert (X : evaluateConditions h (cs1 ++ c :: cs2) activity
                = Throw "SyntaxError").
    { clear C. induction cs1 as [|c0 cs1 IH]; simpl in *.
      - rewrite (A c activity O V), G. reflexivity.
      - destruct (evaluateCondition h c0 activity) as [[|]|]; simpl in *;
          try discriminate. now apply IH. }
    rewrite X. reflexivity.
  - intros e activity pre post r as1 as2 a field res1 res2 hits1 v
           R P E C AS A1 T F Pt Tr G.
    unfold apply. rewrite R at 1.
    rewrite (reaches_app h activity pre (r :: post) _ _ _ _ P). simpl.
    unfold step. rewrite E, C. simpl.
    assert (X : applyActions h (ParsingRule.actions r) activity res1
                = Throw "SyntaxError").
    { rewrite AS.
      apply (applyActions_throw h activity as1 a as2 _ res1 res2 A1).
      unfold applyAction. rewrite T. simpl.
      rewrite (B _ field activity res2 F Pt Tr), G. reflexivity. }
    rewrite X. reflexivity.
  - intros now parser activity F.
    apply GateFacts.parseActivity_null_of_throw. right. right. exact F.
Qed.

Lemma invalid_regex_propagates_witness :
  RegExp_new Node.host "(" = None /\
  apply Node.host Examples.bad_regex_engine Examples.chrome_github =
  (Throw "SyntaxError",
   {| rules := [Examples.bad_regex_rule]; ruleHits := ∅ |}) /\
  apply Node.host Examples.bad_extract_engine Examples.chrome_github =
  (Throw "SyntaxError",
   {| rules := [Examples.bad_extract_rule]; ruleHits := ∅ |}).
Proof.
  split; [reflexivity|].
  destruct (invalid_regex_propagates Node.host "(" eq_refl)
    as [_ [_ [A [B _]]]].
  split.
  - apply (A Examples.bad_regex_engine
             Examples.chrome_github [] [] Examples.bad_regex_rule [] []
             (RuleEngine.cond "type" "matches" (JStr "("))
             RuleResult.empty ∅ "window"); reflexivity.
  - apply (B Examples.bad_extract_engine
             Examples.chrome_github [] [] Examples.bad_extract_rule
             [RuleEngine.act "add_tag" "first"] []
             {| RuleAction.type := "extract_content";
                RuleAction.params :=
                  {| RuleAction.value := None;
                     RuleAction.field := Some "context.window_title";
                     RuleAction.pattern := Some "(";
                     RuleAction.target := Some "title" |} |}
             "context.window_title" RuleResult.empty
             {| RuleResult.type := None;
                RuleResult.category := None;
                RuleResult.tags := [Some "first"];
                RuleResult.content := [];
                RuleResult.applied_rules := [] |}
             ∅ "GitHub - Google Chrome"); reflexivity.
Defined.

(** C8, as stated, fails: a rule whose pattern is an unterminated group
    makes [apply] throw on a record whose field is a string, in a
    [matches] condition and in an [extract_content] action alike. *)
Lemma invalid_regex_throws :
  RegExp_new Node.host "(" = None /\
  is_ok (fst (apply Node.host Examples.bad_regex_engine
                Examples.chrome_github)) = false /\
  is_ok (fst (apply Node.host Examples.bad_extract_engine
                Examples.chrome_github)) = false.
Proof. repeat split; vm_compute; reflexivity. Qed.

End RuleFacts.

(** ** SessionManager: breakdowns *)

Module SessionFacts.
Import SessionManager Statements.
Local Open Scope Z_scope.

Lemma sum_values_add_to (k : string) (d : Z) (l : list (string * Z)) :
  sum_values (add_to k d l) = sum_values l + d.
Proof.
  induction l as [|[k' v] l IH]; simpl.
  - lia.
  - destruct (String.eqb k' k); simpl; [lia | rewrite IH; lia].
Qed.

Lemma bucket_add_to (k k0 : string) (d : Z) (l : list (string * Z)) :
  bucket k0 (add_to k d l) =
  if String.eqb k k0 then bucket k0 l + d else bucket k0 l.
Proof.
  unfold bucket. induction l as [|[k' v] l IH]; simpl.
  - destruct (String.eqb k k0); reflexivity.
  - destruct (String.eqb k' k) eqn:E; simpl.
    + apply String.eqb_eq in E. subst k'.
      destruct (String.eqb k k0); reflexivity.
    + destruct (String.eqb k' k0) eqn:E0; [|exact IH].
      apply String.eqb_eq in E0. subst k'.
      rewrite String.eqb_sym, E. reflexivity.
Qed.

Lemma all_zero_add_to (k : string) (l : list (string * Z)) :
  all_zero l -> all_zero (add_to k 0 l).
Proof.
  unfold all_zero. induction l as [|[k' v] l IH]; intros H; simpl.
  - repeat constructor.
  - inversion H as [|x y Hv Hl]; subst. simpl in Hv. subst v.
    destruct (String.eqb k' k); constructor; auto.
Qed.

Lemma total_of_cons (keep : Parsed.t -> bool) (a : Parsed.t)
                    (acts : list Parsed.t) :
  total_of keep (a :: acts) =
  (if keep a then Parsed.duration_or_0 a else 0) + total_of keep acts.
Proof. unfold total_of. simpl. destruct (keep a); reflexivity. Qed.

(** What the loop of [getSessionSummary] has accumulated after a list
    of activities. *)
Lemma fold_account (acts : list Parsed.t) :
  forall acc : totals,
    let T := fold_left account acts acc in
    sum_values (categoryBreakdown T) =
      sum_values (categoryBreakdown acc) + durations acts /\
    sum_values (activityBreakdown T) =
      sum_values (activityBreakdown acc) + durations acts /\
    activeDuration T =
      activeDuration acc + total_of (fun a => negb (is_idle a)) acts /\
    idleDuration T = idleDuration acc + total_of is_idle acts /\
    (forall c, bucket c (categoryBreakdown T) =
               bucket c (categoryBreakdown acc) +
               total_of (fun a => String.eqb (Parsed.category a) c) acts) /\
    (forall t, bucket t (activityBreakdown T) =
               bucket t (activityBreakdown acc) +
               total_of (fun a => String.eqb (Parsed.type a) t) acts).
Proof.
  induction acts as [|a acts IH]; intros acc; simpl.
  - unfold durations, total_of; simpl. repeat split; intros; lia.
  - specialize (IH (account acc a)). simpl in IH.
    remember (fold_left account acts (account acc a)) as T eqn:ET.
    clear ET. destruct IH as (H1 & H2 & H3 & H4 & H5 & H6).
    unfold durations in *. rewrite !total_of_cons.
    unfold account in H1, H2, H3, H4, H5, H6; simpl in *.
    rewrite sum_values_add_to in H1, H2. unfold is_idle in *.
    repeat split.
    + lia.
    + lia.
    + rewrite H3.
      destruct (String.eqb (Parsed.type a) ActivityType.IDLE); simpl; lia.
    + rewrite H4.
      destruct (String.eqb (Parsed.type a) ActivityType.IDLE); simpl; lia.
    + intros c. rewrite H5, bucket_add_to, total_of_cons. cbv beta.
      destruct (String.eqb (Parsed.category a) c); lia.
    + intros t. rewrite H6, bucket_add_to, total_of_cons. cbv beta.
      destruct (String.eqb (Parsed.type a) t); lia.
Qed.

Lemma durations_split (acts : list Parsed.t) :
  durations acts =
  total_of (fun a => negb (is_idle a)) acts + total_of is_idle acts.
Proof.
  unfold durations. induction acts as [|a acts IH].
  - reflexivity.
  - rewrite !total_of_cons, IH. destruct (is_idle a); simpl; lia.
Qed.

(** C9. For a session with at least one activity, [getSessionSummary]
    returns a summary in which the values of [category_breakdown] sum to
    [active_duration + idle_duration], and so do the values of
    [activity_breakdown]; the bucket of a category is the sum of the
    durations (0 when absent) of the activities of that category, the
    bucket of a type the sum over the activities of that type, so that
    every activity is counted in the bucket of its category and in the
    bucket of its type and in no other. *)
Theorem category_buckets_sum_to_durations
    (sm : SessionManager.t) (sessionId : string) (session : SessionData) :
  sessions sm !! sessionId = Some session ->
  activities session <> [] ->
  exists s : SessionSummary,
    getSessionSummary sessionId sm = Some s /\
    sum_values (category_breakdown s) =
      active_duration s + idle_duration s /\
    sum_values (activity_breakdown s) =
      active_duration s + idle_duration s /\
    (forall c, bucket c (category_breakdown s) =
               total_of (fun a => String.eqb (Parsed.category a) c)
                        (activities session)) /\
    (forall t, bucket t (activity_breakdown s) =
               total_of (fun a => String.eqb (Parsed.type a) t)
                        (activities session)).
Proof.
  intros L N. unfold getSessionSummary. rewrite L.
  destruct (activities session) as [|a acts] eqn:A; [congruence|].
  eexists. split; [reflexivity|]. simpl.
  destruct (fold_account (a :: acts) no_totals)
    as (H1 & H2 & H3 & H4 & H5 & H6).
  simpl in H1, H2, H3, H4, H5, H6.
  rewrite H1, H2, H3, H4, (durations_split (a :: acts)).
  repeat split; try lia.
  - intros c. rewrite H5. unfold bucket. simpl. lia.
  - intros t. rewrite H6. unfold bucket. simpl. lia.
Qed.

Lemma category_buckets_sum_to_durations_witness :
  exists s : SessionSummary,
    getSessionSummary "session-1" Examples.example5 = Some s /\
    sum_values (category_breakdown s) = 3600000 /\
    active_duration s + idle_duration s = 3600000 /\
    bucket ActivityCategory.PRODUCTIVE (category_breakdown s) = 2400000 /\
    bucket ActivityCategory.DISTRACTING (category_breakdown s) = 1200000.
Proof.
  destruct (category_buckets_sum_to_durations Examples.example5 "session-1"
              Examples.example5_session)
    as (s & E & H1 & H2 & H3 & H4).
  - vm_compute. reflexivity.
  - discriminate.
  - exists s. split; [exact E|].
    rewrite (H3 ActivityCategory.PRODUCTIVE),
            (H3 ActivityCategory.DISTRACTING).
    vm_compute in E. inversion E; subst s.
    repeat split; vm_compute; reflexivity.
Defined.

(** C3: the weight of the distracting category. [weights[category] ||
    0.5] replaces the weight 0.0 by 0.5, so that the session of Example 5
    of the design (forty productive minutes, twenty distracting minutes)
    has the base score 250/3 (83.3) and the productivity score 275/3
    (91.7); with the weights of the design the base score is 200/3
    (66.7). *)
Theorem productivity_score_of_example5 :
  (weight_of ActivityCategory.DISTRACTING == 0.5)%Q /\
  (exists s : SessionSummary,
     getSessionSummary "session-1" Examples.example5 = Some s /\
     category_breakdown s =
       [(ActivityCategory.PRODUCTIVE, 2400000);
        (ActivityCategory.DISTRACTING, 1200000)] /\
     total_duration s = 3600000 /\ active_duration s = 3600000 /\
     idle_duration s = 0 /\
     (baseScore (category_breakdown s) == 250 # 3)%Q /\
     (productivity_score s == 275 # 3)%Q /\
     (Design.baseScore (category_breakdown s) == 200 # 3)%Q).
Proof.
  split; [apply Qeq_bool_iff; vm_compute; reflexivity|].
  eexists. split; [vm_compute; reflexivity|].
  repeat split; try reflexivity;
    apply Qeq_bool_iff; vm_compute; reflexivity.
Qed.

End SessionFacts.

(** ** Durations of the activities that [parseActivity] returns *)

Module DurationFacts.
Import SessionManager Statements.
Local Open Scope Z_scope.

(** The lookup by id fails on a fresh record: no duration is inferred. *)
Lemma calculateDuration_fresh (sm : SessionManager.t) (raw : Raw.t)
                              (parsed : Parsed.t) :
  fresh sm raw = true ->
  Parsed.id parsed = Raw.id raw ->
  Parsed.session_id parsed = Raw.session_id raw ->
  calculateDuration parsed sm = None.
Proof.
  unfold fresh, buffer_of, calculateDuration. intros F I S.
  rewrite I, S.
  destruct (findIndex (Raw.id raw) _ 0); [discriminate|].
  destruct (Nat.ltb _ 2); reflexivity.
Qed.

(** A call of [parseActivity] on a fresh record: the activity that it
    returns has no duration and is what the session manager receives. *)
Lemma parseActivity_fresh (h : Host) (now : Z) (p : ActivityParser.t)
                          (raw : Raw.t) :
  fresh (ActivityParser.sessionManager p) raw = true ->
  match fst (ActivityParser.parseActivity h now p raw) with
  | None =>
      ActivityParser.sessionManager
        (snd (ActivityParser.parseActivity h now p raw)) =
      ActivityParser.sessionManager p
  | Some a =>
      ActivityParser.sessionManager
        (snd (ActivityParser.parseActivity h now p raw)) =
      addActivity a (ActivityParser.sessionManager p) /\
      Parsed.duration a = None
  end.
Proof.
  intros F.
  unfold ActivityParser.parseActivity, QualityAnalyzer.analyze.
  cbn [ActivityParser.with_quality ActivityParser.config
       ActivityParser.contentExtractor ActivityParser.categorizer
       ActivityParser.ruleEngine ActivityParser.sessionManager].
  destruct (Js.Qltb _ _); [reflexivity|].
  destruct (ActivityParser.determineActivityType raw); [|reflexivity].
  destruct (ActivityParser.contentExtractor p raw); [|reflexivity].
  destruct (ActivityCategorizer.categorize _ _ _ _) as [category c].
  destruct (RuleEngine.apply _ _ _) as [[ruleResults|] e]; [|reflexivity].
  cbn [fst snd ActivityParser.with_sessions ActivityParser.with_rules
       ActivityParser.with_categorizer ActivityParser.sessionManager].
  unfold ActivityParser.attach_duration.
  rewrite (calculateDuration_fresh _ raw) by (assumption || reflexivity).
  split; reflexivity.
Qed.

Lemma addActivity_no_durations (a : Parsed.t) (sm : SessionManager.t) :
  Parsed.duration a = None ->
  no_durations sm -> no_durations (addActivity a sm).
Proof.
  intros D N sessionId s. unfold addActivity. simpl.
  destruct (decide (Parsed.session_id a = sessionId)) as [<-|Ne].
  - rewrite lookup_insert_eq. intros [= <-]. simpl.
    apply Forall_app. split; [|repeat constructor; exact D].
    destruct (sessions sm !! Parsed.session_id a) as [s0|] eqn:L.
    + exact (N _ _ L).
    + constructor.
  - rewrite lookup_insert_ne by assumption. apply N.
Qed.

Lemma fresh_feed_no_durations (h : Host) (calls : list (Z * Raw.t)) :
  forall p : ActivityParser.t,
    fresh_feed h p calls = true ->
    (forall a, In (Some a) (fst (ActivityParser.parseAll h p calls)) ->
               Parsed.duration a = None) /\
    (no_durations (ActivityParser.sessionManager p) ->
     no_durations (ActivityParser.sessionManager
                     (snd (ActivityParser.parseAll h p calls)))).
Proof.
  induction calls as [|[now raw] calls IH]; intros p F; simpl in *.
  - split; [intros a []|auto].
  - apply andb_true_iff in F. destruct F as [F1 F2].
    pose proof (parseActivity_fresh h now p raw F1) as S.
    destruct (ActivityParser.parseActivity h now p raw) as [r p'] eqn:E.
    simpl in S, F2. destruct (IH p' F2) as [A B].
    destruct (ActivityParser.parseAll h p' calls) as [rs p'']. simpl in *.
    split.
    + intros a [I | I]; [|now apply A].
      subst r. now destruct S.
    + intros N. apply B. destruct r as [a|].
      * destruct S as [-> D]. now apply addActivity_no_durations.
      * now rewrite S.
Qed.

Lemma insert_desc_Forall (P : string * Z -> Prop) (e : string * Z)
                         (l : list (string * Z)) :
  P e -> Forall P l -> Forall P (insert_desc e l).
Proof.
  intros He. induction 1 as [|x l Hx Hl IH]; simpl.
  - repeat constructor. exact He.
  - destruct (Z.ltb (snd x) (snd e)); repeat constructor; auto.
Qed.

Lemma sort_desc_Forall (P : string * Z -> Prop) (l : list (string * Z)) :
  Forall P l -> Forall P (sort_desc l).
Proof.
  unfold sort_desc. intros H.
  assert (G : forall acc, Forall P acc ->
            Forall P (fold_left (fun acc e => insert_desc e acc) l acc)).
  { induction H as [|x l Hx Hl IH]; intros acc Ha; simpl; [exact Ha|].
    apply IH. now apply insert_desc_Forall. }
  apply G. constructor.
Qed.

Lemma fold_account_zero (acts : list Parsed.t) :
  Forall (fun a => Parsed.duration a = None) acts ->
  forall acc : totals,
    activeDuration acc = 0 -> idleDuration acc = 0 ->
    all_zero (activityBreakdown acc) ->
    all_zero (categoryBreakdown acc) ->
    all_zero (applicationDurations acc) ->
    let T := fold_left account acts acc in
    activeDuration T = 0 /\ idleDuration T = 0 /\
    all_zero (activityBreakdown T) /\ all_zero (categoryBreakdown T) /\
    all_zero (applicationDurations T).
Proof.
  induction 1 as [|a acts D _ IH]; intros acc A I TB CB AB; simpl.
  - auto.
  - apply IH; unfold account, Parsed.duration_or_0; rewrite D; simpl.
    + destruct (String.eqb _ _); lia.
    + destruct (String.eqb _ _); lia.
    + now apply SessionFacts.all_zero_add_to.
    + now apply SessionFacts.all_zero_add_to.
    + now apply SessionFacts.all_zero_add_to.
Qed.

Lemma summary_without_durations (sm : SessionManager.t)
                                (sessionId : string) (s : SessionSummary) :
  no_durations sm ->
  getSessionSummary sessionId sm = Some s -> zero_summary s.
Proof.
  intros N. unfold getSessionSummary.
  destruct (sessions sm !! sessionId) as [session|] eqn:L; [|discriminate].
  specialize (N _ _ L).
  destruct (activities session) as [|a acts] eqn:A; [discriminate|].
  intros [= <-]. unfold zero_summary.
  cbn [active_duration idle_duration activity_breakdown category_breakdown
       top_applications].
  destruct (fold_account_zero (a :: acts) N no_totals eq_refl eq_refl
              (List.Forall_nil _) (List.Forall_nil _) (List.Forall_nil _))
    as (H1 & H2 & H3 & H4 & H5).
  split; [exact H1|]. split; [exact H2|]. split; [exact H3|].
  split; [exact H4|].
  apply Forall_map. cbn [au_duration]. apply Forall_take.
  apply sort_desc_Forall. exact H5.
Qed.

(** C2. [parseActivity] computes the duration (step 7) before the
    activity is buffered (step 8). For a record whose id is not in the
    duration buffer of its session, the activity that [parseActivity]
    returns has no duration. Consequently, after any sequence of calls of
    [parseActivity] on records that are fresh in this sense, on a parser
    whose stored activities have no duration (a new parser has none),
    every summary has [active_duration] 0, [idle_duration] 0 and only
    zeros in the breakdowns by type, by category and by application. *)
Theorem parsed_activities_have_no_duration (h : Host) :
  (forall (now : Z) (p : ActivityParser.t) (raw : Raw.t) (a : Parsed.t),
     fresh (ActivityParser.sessionManager p) raw = true ->
     fst (ActivityParser.parseActivity h now p raw) = Some a ->
     calculateDuration a (ActivityParser.sessionManager p) = None /\
     Parsed.duration a = None) /\
  (forall (p : ActivityParser.t) (calls : list (Z * Raw.t))
          (sessionId : string) (s : SessionSummary),
     fresh_feed h p calls = true ->
     no_durations (ActivityParser.sessionManager p) ->
     ActivityParser.getSessionSummary sessionId
       (snd (ActivityParser.parseAll h p calls)) = Some s ->
     zero_summary s) /\
  (forall (extract : Raw.t -> result ActivityContent) (cfg : ParserConfig),
     no_durations (ActivityParser.sessionManager
                     (ActivityParser.constructor extract cfg))).
Proof.
  split; [|split].
  - intros now p raw a F E.
    pose proof (parseActivity_fresh h now p raw F) as S. rewrite E in S.
    destruct S as [_ D]. split; [|exact D].
    destruct (GateFacts.parseActivity_cases h now p raw)
      as [[N _] | [a' [E' [I _]]]]; [congruence|].
    rewrite E in E'. inversion E'; subst a'.
    apply (calculateDuration_fresh _ raw); [exact F | exact I |].
    revert E. unfold ActivityParser.parseActivity, QualityAnalyzer.analyze.
    cbn [ActivityParser.with_quality ActivityParser.config
         ActivityParser.contentExtractor ActivityParser.categorizer
         ActivityParser.ruleEngine ActivityParser.sessionManager].
    destruct (Js.Qltb _ _); [discriminate|].
    destruct (ActivityParser.determineActivityType raw); [|discriminate].
    destruct (ActivityParser.contentExtractor p raw); [|discriminate].
    destruct (ActivityCategorizer.categorize _ _ _ _) as [category c].
    destruct (RuleEngine.apply _ _ _) as [[ruleResults|] e];
      [|discriminate].
    cbn [fst]. unfold ActivityParser.attach_duration.
    rewrite (calculateDuration_fresh _ raw) by (assumption || reflexivity).
    intros [= <-]. reflexivity.
  - intros p calls sessionId s F N G.
    destruct (fresh_feed_no_durations h calls p F) as [_ B].
    exact (summary_without_durations _ _ _ (B N) G).
  - intros extract cfg sessionId s. simpl. rewrite lookup_empty.
    discriminate.
Qed.

Lemma parsed_activities_have_no_duration_witness :
  fresh_feed Node.host Examples.default_parser Examples.two_calls = true /\
  exists s : SessionSummary,
    ActivityParser.getSessionSummary "session-1"
      (snd (ActivityParser.parseAll Node.host Examples.default_parser
              Examples.two_calls)) = Some s /\
    total_duration s = 60000 /\ zero_summary s.
Proof.
  assert (F : fresh_feed Node.host Examples.default_parser
                Examples.two_calls = true)
    by (vm_compute; reflexivity).
  split; [exact F|].
  destruct (ActivityParser.getSessionSummary "session-1"
              (snd (ActivityParser.parseAll Node.host
                      Examples.default_parser Examples.two_calls)))
    as [s|] eqn:E; [|vm_compute in E; discriminate].
  exists s. split; [reflexivity|]. split.
  - vm_compute in E. inversion E. reflexivity.
  - destruct (parsed_activities_have_no_duration Node.host) as [_ [B C]].
    apply (B Examples.default_parser Examples.two_calls "session-1" s F
             (C _ _) E).
Defined.

End DurationFacts.

(** ** ActivityCategorizer: the cache and the URL *)

Module CategorizerFacts.
Import ActivityCategorizer.

(** An application that is in the cache gets the cached category,
    whatever its URL. *)
Lemma categorize_cached (h : Host) (c : ActivityCategorizer.t)
                        (activity : Raw.t) (type cached : string) :
  categoryCache c !! app_key activity = Some cached ->
  categorize h c activity type = (cached, c).
Proof. intros L. unfold categorize. rewrite L. reflexivity. Qed.

(** C10: the lookup in the cache comes first, and a cached application
    gets the cached category whatever its URL. The cache is created with
    'chrome' as neutral, so the record of the design's example, chrome on
    a youtube.com URL, is categorized as neutral on every host, although
    its URL implies entertainment; chrome on github.com, which the test
    'should categorize browser activity' expects to be productive, is
    neutral as well. *)
Theorem chrome_on_youtube_is_neutral :
  (forall (h : Host) (c : ActivityCategorizer.t) (activity : Raw.t)
          (type cached : string),
     categoryCache c !! app_key activity = Some cached ->
     categorize h c activity type = (cached, c)) /\
  categorizeByUrl Node.host "https://youtube.com/watch?v=xyz"
    = Some ActivityCategory.ENTERTAINMENT /\
  categorizeByUrl Node.host "https://github.com/user/repo"
    = Some ActivityCategory.PRODUCTIVE /\
  forall h : Host,
    categorize h Examples.default_categorizer Examples.chrome_youtube
               ActivityType.BROWSING
      = (ActivityCategory.NEUTRAL, Examples.default_categorizer) /\
    categorize h Examples.default_categorizer Examples.chrome_github
               ActivityType.BROWSING
      = (ActivityCategory.NEUTRAL, Examples.default_categorizer).
Proof.
  split; [exact categorize_cached|].
  split; [vm_compute; reflexivity|]. split; [vm_compute; reflexivity|].
  intros h. split; apply categorize_cached; vm_compute; reflexivity.
Qed.

End CategorizerFacts.

(** ** The repository's tests on the embedding

    The inputs of RuleEngine.test.ts and ActivityParser.test.ts, run on
    the reference host. *)

Module RepositoryTests.
Import RuleEngine.

(** 'should apply matching rules' *)
Example applies_matching_rule :
  fst (apply Node.host (constructor Examples.test_rules)
         Examples.vscode_window) =
  Ok {| RuleResult.type := Some "coding"; RuleResult.category := None;
        RuleResult.tags := [Some "development"]; RuleResult.content := [];
        RuleResult.applied_rules := ["test-rule-1"] |}.
Proof. vm_compute. reflexivity. Qed.

(** 'should apply multiple rules when applicable' *)
Example applies_second_rule :
  fst (apply Node.host (constructor Examples.test_rules)
         Examples.chrome_github) =
  Ok {| RuleResult.type := None; RuleResult.category := Some "productive";
        RuleResult.tags := [Some "github"]; RuleResult.content := [];
        RuleResult.applied_rules := ["test-rule-2"] |}.
Proof. vm_compute. reflexivity. Qed.

(** 'should evaluate numeric comparisons' *)
Example evaluates_greater_than :
  fst (apply Node.host
         (constructor
            [rule "numeric-test" 100
               [cond "data.idle_time" "greater_than"
                     (JNum (inject_Z 60000))]
               [act "set_type" "idle"]])
         Examples.idle_window) =
  Ok {| RuleResult.type := Some "idle"; RuleResult.category := None;
        RuleResult.tags := []; RuleResult.content := [];
        RuleResult.applied_rules := ["numeric-test"] |}.
Proof. vm_compute. reflexivity. Qed.

(** 'should extract content using regex' *)
Example extracts_file_name :
  fst (apply Node.host (constructor [Examples.extract_rule])
         (Examples.window "test-9" Examples.now "vscode"
            "src/components/Button.js - Visual Studio Code" None)) =
  Ok {| RuleResult.type := None; RuleResult.category := None;
        RuleResult.tags := []; RuleResult.content := [("filename", "Button")];
        RuleResult.applied_rules := ["extract-test"] |}.
Proof. vm_compute. reflexivity. Qed.

(** 'should track rule hits' *)
Example tracks_rule_hits :
  let e0 := constructor Examples.test_rules in
  let e1 := snd (apply Node.host e0 Examples.vscode_window) in
  let e2 := snd (apply Node.host e1 Examples.vscode_window) in
  let e3 := snd (apply Node.host e2 Examples.vscode_window) in
  ruleHits e3 !! "test-rule-1" = Some 3%nat.
Proof. vm_compute. reflexivity. Qed.

(** 'should respect rule priority': the rule added last runs first. *)
Example sorts_by_priority :
  map ParsingRule.id
      (sortRulesByPriority
         (Examples.test_rules ++
          [rule "high-priority" 200
             [cond "type" "equals" (JStr "keyboard")]
             [act "set_type" "high-priority-type"]])) =
  ["high-priority"; "test-rule-1"; "test-rule-2"].
Proof. vm_compute. reflexivity. Qed.

(** 'should parse Examples.keyboard activity with text' *)
Example parses_typing :
  Examples.outcome_of
    (fst (ActivityParser.parseActivity Node.host Examples.now
            Examples.default_parser
            (Examples.keyboard "test-1" "Hello world, this is a test" "notepad"
                      "Untitled - Notepad"))) =
  Some (ActivityType.TYPING, ActivityCategory.NEUTRAL).
Proof. vm_compute. reflexivity. Qed.

(** 'should detect coding activity' *)
Example parses_coding :
  Examples.outcome_of
    (fst (ActivityParser.parseActivity Node.host Examples.now
            Examples.default_parser
            (Examples.keyboard "test-2"
                      "function calculateSum(a, b) { return a + b; }"
                      "vscode" "index.js - Visual Studio Code"))) =
  Some (ActivityType.CODING, ActivityCategory.PRODUCTIVE).
Proof. vm_compute. reflexivity. Qed.

(** 'should detect entertainment activity': the category comes from the
    rule 'browser-youtube', not from the categorizer. *)
Example parses_youtube :
  Examples.outcome_of
    (fst (ActivityParser.parseActivity Node.host Examples.now
            Examples.default_parser Examples.chrome_youtube)) =
  Some (ActivityType.BROWSING, ActivityCategory.ENTERTAINMENT).
Proof. vm_compute. reflexivity. Qed.

End RepositoryTests.

(** ** RuleEngine: order of the rules *)

Module RuleOrderFacts.
Import RuleEngine Statements2.

Lemma insert_by_priority_perm (r : ParsingRule.t) (l : list ParsingRule.t) :
  Permutation (insert_by_priority r l) (r :: l).
Proof.
  induction l as [|x l IH]; simpl.
  - reflexivity.
  - destruct (Z.ltb _ _); [reflexivity|].
    rewrite IH. apply perm_swap.
Qed.

Lemma insert_by_priority_sorted (r : ParsingRule.t)
                                (l : list ParsingRule.t) :
  StronglySorted by_priority l ->
  StronglySorted by_priority (insert_by_priority r l).
Proof.
  induction 1 as [|x l S IH F]; simpl.
  - repeat constructor.
  - destruct (Z.ltb (ParsingRule.priority x) (ParsingRule.priority r)) eqn:E.
    + apply Z.ltb_lt in E. constructor; [constructor; assumption|].
      constructor; [unfold by_priority; lia|].
      eapply List.Forall_impl; [|exact F].
      unfold by_priority. intros y. simpl. lia.
    + apply Z.ltb_ge in E. constructor; [exact IH|].
      eapply Permutation_Forall;
        [symmetry; apply insert_by_priority_perm|].
      constructor; [exact E | exact F].
Qed.

Lemma filter_lower (p : Z) (l : list ParsingRule.t) :
  List.Forall (fun y => (ParsingRule.priority y < p)%Z) l ->
  List.filter (same_priority p) l = [].
Proof.
  induction 1 as [|y l H _ IH]; simpl; [reflexivity|].
  unfold same_priority at 1.
  destruct (Z.eqb_spec (ParsingRule.priority y) p); [lia | exact IH].
Qed.

Lemma insert_by_priority_stable (p : Z) (r : ParsingRule.t)
                                (l : list ParsingRule.t) :
  StronglySorted by_priority l ->
  List.filter (same_priority p) (insert_by_priority r l) =
  (List.filter (same_priority p) l ++
   List.filter (same_priority p) [r])%list.
Proof.
  induction 1 as [|x l S IH F]; cbn [insert_by_priority].
  - reflexivity.
  - destruct (Z.ltb (ParsingRule.priority x) (ParsingRule.priority r)) eqn:E.
    + apply Z.ltb_lt in E.
      change (r :: x :: l) with ([r] ++ x :: l)%list.
      rewrite List.filter_app.
      destruct (same_priority p r) eqn:R.
      * unfold same_priority in R. apply Z.eqb_eq in R.
        rewrite (filter_lower p (x :: l)); [rewrite app_nil_r; reflexivity|].
        constructor; [lia|].
        eapply List.Forall_impl; [|exact F].
        unfold by_priority. intros y. simpl. lia.
      * cbn [List.filter]. rewrite R, app_nil_r. reflexivity.
    + cbn [List.filter]. destruct (same_priority p x);
        cbn [List.filter] in IH; rewrite IH; reflexivity.
Qed.

Lemma fold_insert (l : list ParsingRule.t) :
  forall acc : list ParsingRule.t,
    StronglySorted by_priority acc ->
    let s := fold_left (fun acc r => insert_by_priority r acc) l acc in
    Permutation s (acc ++ l) /\
    StronglySorted by_priority s /\
    forall p, List.filter (same_priority p) s =
              (List.filter (same_priority p) acc ++
               List.filter (same_priority p) l)%list.
Proof.
  induction l as [|r l IH]; intros acc S; simpl.
  - rewrite app_nil_r. split; [reflexivity|]. split; [exact S|].
    intros p. rewrite app_nil_r. reflexivity.
  - destruct (IH (insert_by_priority r acc)
                 (insert_by_priority_sorted r acc S)) as (P & S' & F).
    split; [|split].
    + rewrite P, insert_by_priority_perm.
      change (r :: acc) with ([r] ++ acc)%list.
      rewrite (Permutation_app_comm [r] acc), <- app_assoc. reflexivity.
    + exact S'.
    + intros p. rewrite F, (insert_by_priority_stable p r acc S).
      rewrite <- app_assoc. f_equal. simpl.
      destruct (same_priority p r); reflexivity.
Qed.

(** X1. [sortRulesByPriority] keeps the rules, puts them in order of
    descending priority and keeps the rules of equal priority in the order
    in which they were given. *)
Theorem sortRulesByPriority_sorts (l : list ParsingRule.t) :
  Permutation (sortRulesByPriority l) l /\
  StronglySorted by_priority (sortRulesByPriority l) /\
  forall p : Z,
    List.filter (same_priority p) (sortRulesByPriority l) =
    List.filter (same_priority p) l.
Proof.
  destruct (fold_insert l [] (SSorted_nil _)) as (P & S & F).
  split; [exact P|]. split; [exact S|]. exact F.
Qed.

End RuleOrderFacts.

(** ** RuleEngine: what [apply] records *)

Module RuleTraceFacts.
Import RuleEngine Statements2.

Section Trace.
Variable h : Host.
Variable activity : Raw.t.

Lemma recordHit_lookup (id k : string) (hits : gmap string nat) :
  default 0%nat (recordHit id hits !! k) =
  (default 0 (hits !! k) + occurrences k [id])%nat.
Proof.
  unfold recordHit, occurrences. simpl.
  destruct (string_dec id k) as [->|N].
  - rewrite lookup_insert_eq. simpl. lia.
  - rewrite lookup_insert_ne by assumption. lia.
Qed.

Lemma occurrences_app (k : string) (l1 l2 : list string) :
  occurrences k (l1 ++ l2) = (occurrences k l1 + occurrences k l2)%nat.
Proof. unfold occurrences. apply count_occ_app. Qed.

(** A step that does not throw either leaves the result and the counters
    as they are, or is the step of a rule that fires. *)
Lemma step_trace (r : ParsingRule.t) (res : RuleResult.t)
                 (hits : gmap string nat) :
  match step h r activity res hits with
  | Raise _ hits' => hits' = hits
  | Continue res' hits' =>
      (res' = res /\ hits' = hits) \/
      (fires h activity r /\ isExclusiveRule r = false /\
       RuleResult.applied_rules res' =
         (RuleResult.applied_rules res ++ [ParsingRule.id r])%list /\
       hits' = recordHit (ParsingRule.id r) hits)
  | Break res' hits' =>
      fires h activity r /\ isExclusiveRule r = true /\
      RuleResult.applied_rules res' =
        (RuleResult.applied_rules res ++ [ParsingRule.id r])%list /\
      hits' = recordHit (ParsingRule.id r) hits
  end.
Proof.
  unfold step, fires.
  destruct (ParsingRule.enabled r); simpl; [|left; auto].
  destruct (evaluateConditions h _ activity) as [[|]|]; try (left; auto);
    try reflexivity.
  destruct (applyActions h _ activity res) as [res2|] eqn:A;
    [|reflexivity].
  apply (RuleFacts.applyActions_applied h activity) in A.
  destruct (isExclusiveRule r); [|right]; simpl; rewrite A; auto.
Qed.

Lemma apply_loop_trace (rules : list ParsingRule.t) :
  forall (res : RuleResult.t) (hits : gmap string nat)
         (res' : RuleResult.t) (hits' : gmap string nat),
    apply_loop h rules activity res hits = (Ok res', hits') ->
    exists fired : list ParsingRule.t,
      sublist fired rules /\
      List.Forall (fires h activity) fired /\
      RuleResult.applied_rules res' =
        (RuleResult.applied_rules res ++ map ParsingRule.id fired)%list /\
      forall k, default 0%nat (hits' !! k) =
                (default 0 (hits !! k) +
                 occurrences k (map ParsingRule.id fired))%nat.
Proof.
  induction rules as [|r rules IH]; intros res hits res' hits' H;
    simpl in H.
  - inversion H; subst. exists []. rewrite app_nil_r.
    split; [constructor|]. split; [constructor|]. split; [reflexivity|].
    intros k. unfold occurrences. simpl. lia.
  - pose proof (step_trace r res hits) as T.
    destruct (step h r activity res hits) as [r1 h1 | r1 h1 | e h1].
    + destruct (IH _ _ _ _ H) as (fired & S & F & A & C).
      destruct T as [[-> ->] | (Fi & _ & A1 & ->)].
      * exists fired. split; [now apply sublist_cons|]. auto.
      * exists (r :: fired). split; [now apply sublist_skip|].
        split; [now constructor|]. split.
        -- rewrite A, A1, <- app_assoc. reflexivity.
        -- intros k. rewrite C, recordHit_lookup.
           change (map ParsingRule.id (r :: fired))
             with ([ParsingRule.id r] ++ map ParsingRule.id fired)%list.
           rewrite occurrences_app. lia.
    + inversion H; subst. destruct T as (Fi & _ & A1 & ->).
      exists [r]. split; [apply sublist_skip, sublist_nil_l|].
      split; [constructor; [exact Fi | constructor]|]. split; [exact A1|].
      intros k. apply recordHit_lookup.
    + discriminate.
Qed.

End Trace.

(** X2. When [apply] returns, the ids in [applied_rules] are, in the order
    of the sorted rule list, the ids of rules of that list that are enabled
    and whose conditions all hold: a disabled rule or a rule with a false
    condition is never recorded. *)
Theorem applied_rules_are_matching_rules
    (h : Host) (e e' : RuleEngine.t) (activity : Raw.t)
    (res : RuleResult.t) :
  apply h e activity = (Ok res, e') ->
  exists fired : list ParsingRule.t,
    sublist fired (rules e) /\
    List.Forall (fires h activity) fired /\
    RuleResult.applied_rules res = map ParsingRule.id fired.
Proof.
  unfold apply.
  destruct (apply_loop h (rules e) activity RuleResult.empty (ruleHits e))
    as [r hits] eqn:L.
  intros [= -> <-].
  destruct (apply_loop_trace h activity _ _ _ _ _ L) as (fired & S & F & A & _).
  exists fired. auto.
Qed.

Lemma applied_rules_are_matching_rules_witness :
  exists fired : list ParsingRule.t,
    sublist fired (rules Examples.default_engine) /\
    List.Forall (fires Node.host Examples.chrome_youtube) fired /\
    ["browser-youtube"] = map ParsingRule.id fired.
Proof.
  apply (applied_rules_are_matching_rules Node.host Examples.default_engine
           {| rules := rules Examples.default_engine;
              ruleHits := {["browser-youtube" := 1%nat]} |}
           Examples.chrome_youtube
           {| RuleResult.type := Some "browsing";
              RuleResult.category := Some "entertainment";
              RuleResult.tags := [Some "video"];
              RuleResult.content := [];
              RuleResult.applied_rules := ["browser-youtube"] |}).
  vm_compute. reflexivity.
Defined.

(** X3. When [apply] returns, the rule list of the engine is unchanged and
    the hit counter of every id has grown by the number of times the id
    occurs in [applied_rules]. *)
Theorem hit_counters_follow_applied_rules
    (h : Host) (e e' : RuleEngine.t) (activity : Raw.t)
    (res : RuleResult.t) :
  apply h e activity = (Ok res, e') ->
  rules e' = rules e /\
  forall k : string,
    default 0%nat (ruleHits e' !! k) =
    (default 0 (ruleHits e !! k) +
     occurrences k (RuleResult.applied_rules res))%nat.
Proof.
  unfold apply.
  destruct (apply_loop h (rules e) activity RuleResult.empty (ruleHits e))
    as [r hits] eqn:L.
  intros [= -> <-]. split; [reflexivity|].
  destruct (apply_loop_trace h activity _ _ _ _ _ L) as (fired & _ & _ & A & C).
  simpl in A. rewrite A. exact C.
Qed.

Lemma hit_counters_follow_applied_rules_witness :
  default 0%nat
    (ruleHits
       (snd (apply Node.host
               (snd (apply Node.host Examples.default_engine
                       Examples.chrome_youtube))
               Examples.chrome_youtube)) !! "browser-youtube") = 2%nat.
Proof.
  destruct (hit_counters_follow_applied_rules Node.host
              (snd (apply Node.host Examples.default_engine
                      Examples.chrome_youtube))
              (snd (apply Node.host
                      (snd (apply Node.host Examples.default_engine
                              Examples.chrome_youtube))
                      Examples.chrome_youtube))
              Examples.chrome_youtube
              {| RuleResult.type := Some "browsing";
                 RuleResult.category := Some "entertainment";
                 RuleResult.tags := [Some "video"];
                 RuleResult.content := [];
                 RuleResult.applied_rules := ["browser-youtube"] |})
    as [_ C].
  - vm_compute. reflexivity.
  - rewrite C. vm_compute. reflexivity.
Defined.

(** X4. A condition on a field that the record does not have never throws;
    it is false for every operator, except [equals] when the value to
    compare with is itself undefined. *)
Theorem condition_on_missing_field
    (h : Host) (c : RuleCondition.t) (activity : Raw.t) :
  getFieldValue activity (RuleCondition.field c) = JUndefined ->
  evaluateCondition h c activity =
  Ok (String.eqb (RuleCondition.operator c) "equals" &&
      match RuleCondition.value c with
      | JUndefined => true
      | _ => false
      end).
Proof.
  intros U. unfold evaluateCondition. rewrite U.
  destruct (String.eqb (RuleCondition.operator c) "equals"); simpl.
  - destruct (RuleCondition.value c); reflexivity.
  - repeat (destruct (String.eqb (RuleCondition.operator c) _);
            [reflexivity|]).
    reflexivity.
Qed.

Lemma condition_on_missing_field_witness :
  evaluateCondition Node.host
    (cond "context.url" "matches" (JStr "github\.com"))
    Examples.future_window = Ok false.
Proof.
  apply (condition_on_missing_field Node.host
           (cond "context.url" "matches" (JStr "github\.com"))
           Examples.future_window).
  reflexivity.
Defined.

Lemma chars_app (s1 s2 : string) :
  JsString.chars (s1 ++ s2) = (JsString.chars s1 ++ JsString.chars s2)%list.
Proof.
  unfold JsString.chars. induction s1 as [|c s1 IH]; simpl.
  - reflexivity.
  - rewrite IH. reflexivity.
Qed.

Lemma split_chars_app (sep : ascii) (p q : list ascii) :
  forall cur : list ascii,
    JsString.split_chars sep cur (p ++ sep :: q) =
    (JsString.split_chars sep cur p ++ JsString.split_chars sep [] q)%list.
Proof.
  induction p as [|c p IH]; intros cur; simpl.
  - rewrite Ascii.eqb_refl. reflexivity.
  - destruct (Ascii.eqb c sep); simpl; rewrite IH; reflexivity.
Qed.

(** X5. Dot paths compose: the value at [p.q] is the value found by walking
    [q] from the value at [p]; when the record has nothing at [p], it has
    nothing at [p.q]. *)
Theorem getFieldValue_nested (activity : Raw.t) (p q : string) :
  getFieldValue activity (p ++ "." ++ q) =
    fold_left Js.get (JsString.split "." q) (getFieldValue activity p) /\
  (getFieldValue activity p = JUndefined ->
   getFieldValue activity (p ++ "." ++ q) = JUndefined).
Proof.
  assert (E : getFieldValue activity (p ++ "." ++ q) =
              fold_left Js.get (JsString.split "." q)
                        (getFieldValue activity p)).
  { unfold getFieldValue, JsString.split.
    rewrite chars_app. simpl. rewrite split_chars_app, fold_left_app.
    reflexivity. }
  split; [exact E|]. intros U. rewrite E, U. clear E U.
  induction (JsString.split "." q) as [|k l IH]; simpl; [reflexivity|].
  exact IH.
Qed.

End RuleTraceFacts.

(** ** RuleEngine: engines whose rules are all exclusive *)

Module ExclusiveRuleFacts.
Import RuleEngine Statements2.

Section Exclusive.
Variable h : Host.
Variable activity : Raw.t.



End Exclusive.



End ExclusiveRuleFacts.

(** ** QualityAnalyzer: the history of scores *)

Module QualityHistoryFacts.
Import QualityAnalyzer QualityStatistics Statements.
Local Open Scope Q_scope.

Lemma record_score_length (s : Q) (hist : list Q) :
  (length hist <= 1000)%nat ->
  length (record_score s hist) = Nat.min (S (length hist)) 1000.
Proof.
  intros B. unfold record_score.
  assert (L : length (hist ++ [s]) = S (length hist))
    by (rewrite length_app; simpl; lia).
  destruct (Nat.ltb 1000 (length (hist ++ [s]))) eqn:E.
  - apply Nat.ltb_lt in E. rewrite L in E.
    destruct (hist ++ [s])%list as [|x l] eqn:H; simpl in *; lia.
  - apply Nat.ltb_ge in E. rewrite L in *. lia.
Qed.

Lemma record_score_last (s : Q) (hist : list Q) :
  List.last (record_score s hist) 0 = s.
Proof.
  unfold record_score.
  destruct (Nat.ltb 1000 (length (hist ++ [s]))) eqn:E.
  - apply Nat.ltb_lt in E. rewrite length_app in E. simpl in E.
    destruct hist as [|x hist]; simpl in *; [lia|].
    apply List.last_last.
  - apply List.last_last.
Qed.

Lemma record_score_unit (s : Q) (hist : list Q) :
  unit s -> List.Forall unit hist -> List.Forall unit (record_score s hist).
Proof.
  intros U F. unfold record_score.
  assert (G : List.Forall unit (hist ++ [s]))
    by (apply List.Forall_app; split;
        [exact F | constructor; [exact U | constructor]]).
  destruct (Nat.ltb 1000 _); [|exact G].
  destruct (hist ++ [s])%list; simpl; [constructor|].
  now inversion G.
Qed.

(** X7. The history of scores never holds more than 1000 entries: a call of
    [analyze] appends the score that it returns and, when that makes 1001
    entries, drops the oldest one. *)
Theorem quality_history_is_bounded
    (h : Host) (qa : QualityAnalyzer.t) (calls : list (Z * Raw.t)) :
  (length (qualityScores qa) <= 1000)%nat ->
  length (qualityScores (analyzeAll h qa calls)) =
    Nat.min (length (qualityScores qa) + length calls) 1000 /\
  forall (now : Z) (activity : Raw.t),
    List.last (qualityScores (snd (analyze h now qa activity))) 0 =
    fst (analyze h now qa activity).
Proof.
  intros B. split.
  - revert qa B. induction calls as [|[now a] calls IH]; intros qa B.
    + simpl. lia.
    + cbn [analyzeAll]. rewrite IH.
      * unfold analyze. cbn [snd qualityScores].
        rewrite record_score_length by exact B. simpl length. lia.
      * unfold analyze. cbn [snd qualityScores].
        rewrite record_score_length by exact B. lia.
  - intros now activity. unfold analyze. cbn [fst snd qualityScores].
    apply record_score_last.
Qed.

Lemma quality_history_is_bounded_witness :
  length (qualityScores
            (analyzeAll Node.host
               (constructor (quality_thresholds Examples.defaultParserConfig))
               Examples.two_calls)) = 2%nat.
Proof.
  destruct (quality_history_is_bounded Node.host
              (constructor (quality_thresholds Examples.defaultParserConfig))
              Examples.two_calls) as [L _].
  - simpl. lia.
  - rewrite L. reflexivity.
Defined.

Lemma analyzeAll_unit (h : Host) (calls : list (Z * Raw.t)) :
  forall qa : QualityAnalyzer.t,
    List.Forall unit (qualityScores qa) ->
    List.Forall unit (qualityScores (analyzeAll h qa calls)).
Proof.
  induction calls as [|[now a] calls IH]; intros qa F; simpl.
  - exact F.
  - apply IH. unfold analyze. cbn [snd qualityScores].
    apply record_score_unit; [apply QualityFacts.score_unit | exact F].
Qed.

Lemma sum_bounds (l : list Q) :
  List.Forall unit l ->
  forall a : Q,
    a <= fold_left Qplus l a /\
    fold_left Qplus l a <= a + inject_Z (Z.of_nat (length l)).
Proof.
  induction 1 as [|x l [X0 X1] _ IH]; intros a.
  - cbn [fold_left length]. change (inject_Z (Z.of_nat 0)) with 0.
    split; lra.
  - cbn [fold_left]. destruct (IH (a + x)) as [L U].
    assert (E : inject_Z (Z.of_nat (length (x :: l))) ==
                1 + inject_Z (Z.of_nat (length l))).
    { cbn [length]. rewrite Nat2Z.inj_succ, <- Z.add_1_l, inject_Z_plus.
      reflexivity. }
    rewrite E. split; lra.
Qed.

(** X8. The average quality is 0 for an empty history and lies in [[0,1]]
    after any sequence of calls of [analyze] on a new analyzer. *)
Theorem average_quality_in_unit_interval
    (h : Host) (th : QualityThresholds) (calls : list (Z * Raw.t)) :
  getAverageQuality (constructor th) == 0 /\
  unit (getAverageQuality (analyzeAll h (constructor th) calls)).
Proof.
  split; [reflexivity|].
  pose proof (analyzeAll_unit h calls (constructor th) (List.Forall_nil _))
    as F.
  unfold getAverageQuality.
  destruct (qualityScores (analyzeAll h (constructor th) calls))
    as [|x l] eqn:E; [split; qconst|].
  destruct (sum_bounds (x :: l) F 0) as [L U].
  assert (P : 0 < inject_Z (Z.of_nat (length (x :: l)))).
  { change 0 with (inject_Z 0). rewrite <- Zlt_Qlt. simpl. lia. }
  apply Qdiv_unit_interval; [exact L | lra | exact P].
Qed.

Lemma classify_total (d : distribution) (score : Q) :
  (excellent (classify d score) + good (classify d score) +
   fair (classify d score) + poor (classify d score) =
   S (excellent d + good d + fair d + poor d))%nat.
Proof.
  unfold classify.
  destruct (Qle_bool 0.9 score); [simpl; lia|].
  destruct (Qle_bool 0.7 score); [simpl; lia|].
  destruct (Qle_bool 0.5 score); simpl; lia.
Qed.

(** X9. The four classes of [getQualityDistribution] count every entry of
    the history exactly once. *)
Theorem quality_distribution_counts_history (qa : QualityAnalyzer.t) :
  (excellent (getQualityDistribution qa) + good (getQualityDistribution qa) +
   fair (getQualityDistribution qa) + poor (getQualityDistribution qa) =
   length (qualityScores qa))%nat.
Proof.
  unfold getQualityDistribution.
  assert (G : forall (l : list Q) (d : distribution),
            (excellent (fold_left classify l d) +
             good (fold_left classify l d) +
             fair (fold_left classify l d) +
             poor (fold_left classify l d) =
             excellent d + good d + fair d + poor d + length l)%nat).
  { induction l as [|x l IH]; intros d; simpl; [lia|].
    rewrite IH, classify_total. lia. }
  rewrite G. simpl. lia.
Qed.

End QualityHistoryFacts.

(** ** SessionManager: sessions and buffers after [addActivity] *)

Module SessionStoreFacts.
Import SessionManager SessionStore Statements Statements2.
Local Open Scope Z_scope.

Lemma addAll_snoc (acts : list Parsed.t) (a : Parsed.t) :
  addAll (acts ++ [a]) = addActivity a (addAll acts).
Proof. unfold addAll. rewrite fold_left_app. reflexivity. Qed.

Lemma of_session_snoc (sessionId : string) (acts : list Parsed.t)
                      (a : Parsed.t) :
  of_session sessionId (acts ++ [a]) =
  (of_session sessionId acts ++
   if String.eqb (Parsed.session_id a) sessionId then [a] else [])%list.
Proof.
  unfold of_session. rewrite List.filter_app. simpl.
  destruct (String.eqb _ _); reflexivity.
Qed.

Lemma latest_snoc (a0 : Parsed.t) (rest : list Parsed.t) (a : Parsed.t) :
  latest a0 (rest ++ [a]) =
  if Z.ltb (latest a0 rest) (Parsed.timestamp a)
  then Parsed.timestamp a else latest a0 rest.
Proof.
  unfold latest. rewrite map_app, fold_left_app. simpl.
  destruct (Z.ltb_spec (fold_left Z.max (map Parsed.timestamp rest)
                          (Parsed.timestamp a0)) (Parsed.timestamp a)); lia.
Qed.

Lemma fold_max_ge (l : list Z) (acc : Z) : acc <= fold_left Z.max l acc.
Proof.
  revert acc. induction l as [|x l IH]; intros acc; simpl.
  - lia.
  - specialize (IH (Z.max acc x)). lia.
Qed.

Lemma last_n_snoc {A} (l : list A) (a : A) :
  last_n 100 (l ++ [a]) =
  if Nat.ltb 100 (length (last_n 100 l ++ [a]))
  then tl (last_n 100 l ++ [a])%list else (last_n 100 l ++ [a])%list.
Proof.
  unfold last_n. rewrite !length_app, length_skipn. simpl length.
  destruct (Nat.ltb_spec 100 (length l - (length l - 100) + 1)) as [L|L].
  - replace (length l + 1 - 100)%nat with (1 + (length l - 100))%nat by lia.
    rewrite <- skipn_skipn, skipn_app.
    replace (length l - 100 - length l)%nat with 0%nat by lia.
    reflexivity.
  - replace (length l + 1 - 100)%nat with 0%nat by lia.
    replace (length l - 100)%nat with 0%nat by lia. reflexivity.
Qed.

Lemma String_eqb_false (a b : string) : a <> b -> String.eqb a b = false.
Proof. intros N. apply String.eqb_neq. exact N. Qed.

Lemma addAll_lookup (acts : list Parsed.t) (sessionId : string) :
  sessions (addAll acts) !! sessionId =
    match of_session sessionId acts with
    | [] => None
    | a :: rest => Some (session_of a rest)
    end /\
  activityBuffer (addAll acts) !! sessionId =
    match of_session sessionId acts with
    | [] => None
    | l => Some (last_n 100 l)
    end.
Proof.
  induction acts as [|a acts IH] using rev_ind.
  - split; apply lookup_empty.
  - rewrite addAll_snoc, of_session_snoc.
    destruct IH as [IHs IHb].
    unfold addActivity, bufferActivity. cbn [sessions activityBuffer].
    destruct (String.eqb_spec (Parsed.session_id a) sessionId) as [E|N].
    + subst sessionId. rewrite !lookup_insert_eq, IHs, IHb.
      destruct (of_session (Parsed.session_id a) acts) as [|a0 rest] eqn:O.
      * split; reflexivity.
      * split.
        -- cbn [app]. unfold session_of, default. cbn.
           rewrite latest_snoc.
           destruct (Z.ltb _ _); reflexivity.
        -- change (default [] (Some ?x)) with x.
           rewrite <- last_n_snoc. cbn [app].
           destruct (rest ++ [a])%list; reflexivity.
    + rewrite !lookup_insert_ne by exact N.
      rewrite app_nil_r. split; assumption.
Qed.

(** X10. After any sequence of calls of [addActivity] on a new manager, the
    record of a session holds exactly the activities that carry its session
    id, in the order of the calls; it starts at the timestamp of the first
    of them and ends at the latest of their timestamps; a session id that no
    activity carries has no record. The buffer of the session holds the last
    100 of its activities. *)
Theorem addActivity_groups_by_session (acts : list Parsed.t)
                                      (sessionId : string) :
  sessions (addAll acts) !! sessionId =
    match of_session sessionId acts with
    | [] => None
    | a :: rest => Some (session_of a rest)
    end /\
  activityBuffer (addAll acts) !! sessionId =
    match of_session sessionId acts with
    | [] => None
    | l => Some (last_n 100 l)
    end.
Proof. apply addAll_lookup. Qed.

Lemma findIndex_new (id : string) (l : list Parsed.t) (a : Parsed.t)
                     (i : nat) :
  new_id id l -> Parsed.id a = id ->
  findIndex id (l ++ [a]) i = Some (i + length l)%nat.
Proof.
  intros F E. revert i. induction F as [|x l N F IH]; intros i; simpl.
  - rewrite E, String.eqb_refl. f_equal. lia.
  - rewrite (String_eqb_false _ _ N), IH. f_equal. lia.
Qed.

Lemma nth_error_last {A} (l : list A) :
  nth_error l (length l - 1) = last l.
Proof.
  induction l as [|x l IH]; [reflexivity|].
  destruct l as [|y l]; [reflexivity|].
  cbn [length] in *. replace (S (S (length l)) - 1)%nat
    with (S (S (length l) - 1)) by lia.
  exact IH.
Qed.

Lemma last_tl {A} (l : list A) : (2 <= length l)%nat -> last (tl l) = last l.
Proof. destruct l as [|x [|y l]]; simpl; intros; try lia; reflexivity. Qed.

Lemma new_id_tl (id : string) (l : list Parsed.t) :
  new_id id l -> new_id id (tl l).
Proof. intros F. destruct F; [constructor | assumption]. Qed.

Lemma duration_in (a : Parsed.t) (l : list Parsed.t) :
  new_id (Parsed.id a) l -> l <> [] ->
  match findIndex (Parsed.id a) (l ++ [a]) 0 with
  | None => None
  | Some O => None
  | Some (S i) =>
      match nth_error (l ++ [a]) i with
      | None => None
      | Some previousActivity =>
          let duration :=
            Parsed.timestamp a - Parsed.timestamp previousActivity in
          if Z.ltb 0 duration && Z.ltb duration MAX_IDLE_TIME
          then Some duration else None
      end
  end = gap (last l) a.
Proof.
  intros F NE. rewrite (findIndex_new _ _ _ 0 F eq_refl).
  destruct l as [|x l]; [congruence|]. cbn [length Nat.add].
  rewrite nth_error_app1 by (cbn [length]; lia).
  pose proof (nth_error_last (x :: l)) as L. cbn [length] in L.
  replace (S (length l) - 1)%nat with (length l) in L by lia.
  rewrite L. destruct (last (x :: l)); reflexivity.
Qed.

(** X11. [calculateDuration] after [addActivity]: when the id of the
    activity is not yet in the buffer of its session, the duration of the
    activity just added is the time since the activity that was last in the
    buffer, provided that this time is positive and below five minutes; in
    every other case, and for the first activity of a session, there is no
    duration. *)
Theorem calculateDuration_after_addActivity
    (a : Parsed.t) (sm : SessionManager.t) :
  new_id (Parsed.id a) (buffer_of sm (Parsed.session_id a)) ->
  calculateDuration a (addActivity a sm) =
  gap (last (buffer_of sm (Parsed.session_id a))) a.
Proof.
  unfold buffer_of, calculateDuration, addActivity, bufferActivity.
  cbn [activityBuffer]. rewrite lookup_insert_eq.
  set (buf := default [] (activityBuffer sm !! Parsed.session_id a)).
  intros F. change (default [] (Some ?x)) with x.
  destruct buf as [|x l] eqn:B.
  - reflexivity.
  - rewrite <- B in *. assert (L : (1 <= length buf)%nat)
      by (rewrite B; cbn [length]; lia).
    assert (NE : buf <> []) by (rewrite B; discriminate).
    clear B. rewrite length_app. cbn [length].
    destruct (Nat.ltb_spec 100 (length buf + 1)) as [G|G].
    + assert (T : tl (buf ++ [a])%list = (tl buf ++ [a])%list)
        by (destruct buf; [contradiction | reflexivity]).
      rewrite T, length_app.
      assert (L2 : length (tl buf) = (length buf - 1)%nat)
        by (destruct buf; cbn [length tl]; lia).
      rewrite L2. cbn [length].
      destruct (Nat.ltb_spec (length buf - 1 + 1) 2); [lia|].
      rewrite duration_in.
      * rewrite last_tl by lia. reflexivity.
      * apply new_id_tl. exact F.
      * intros Z. rewrite Z in L2. cbn [length] in L2. lia.
    + rewrite length_app. cbn [length].
      destruct (Nat.ltb_spec (length buf + 1) 2); [lia|].
      apply duration_in; assumption.
Qed.

Lemma calculateDuration_after_addActivity_witness :
  new_id (Parsed.id Examples2.a2)
         (buffer_of (addAll [Examples2.a1])
                    (Parsed.session_id Examples2.a2)) /\
  calculateDuration Examples2.a2
                    (addActivity Examples2.a2 (addAll [Examples2.a1])) =
  Some 60000.
Proof.
  split.
  - repeat constructor. discriminate.
  - rewrite (calculateDuration_after_addActivity Examples2.a2
               (addAll [Examples2.a1])).
    + vm_compute. reflexivity.
    + repeat constructor. discriminate.
Defined.

(** X12. A duration that [calculateDuration] returns is positive and shorter
    than the idle limit of five minutes, and it is the time between the
    activity and an activity of the buffer of its session. *)
Theorem calculateDuration_is_a_short_gap
    (a : Parsed.t) (sm : SessionManager.t) (d : Z) :
  calculateDuration a sm = Some d ->
  0 < d < 300000 /\
  exists p, In p (buffer_of sm (Parsed.session_id a)) /\
            d = Parsed.timestamp a - Parsed.timestamp p.
Proof.
  unfold calculateDuration, buffer_of.
  set (buf := default [] (activityBuffer sm !! Parsed.session_id a)).
  destruct (Nat.ltb _ 2); [discriminate|].
  destruct (findIndex _ _ _) as [[|i]|]; try discriminate.
  destruct (nth_error buf i) as [p|] eqn:N; [|discriminate].
  cbv zeta.
  destruct (Z.ltb_spec 0 (Parsed.timestamp a - Parsed.timestamp p));
    [|discriminate].
  destruct (Z.ltb_spec (Parsed.timestamp a - Parsed.timestamp p)
                       MAX_IDLE_TIME) as [M|M]; [|discriminate].
  cbn [andb]. intros [= <-]. unfold MAX_IDLE_TIME in M. split; [lia|].
  exists p. split; [|reflexivity]. eapply nth_error_In. exact N.
Qed.

Lemma calculateDuration_is_a_short_gap_witness :
  0 < 60000 < 300000 /\
  exists p, In p (buffer_of (addAll [Examples2.a1; Examples2.a2])
                            (Parsed.session_id Examples2.a2)) /\
            60000 = Parsed.timestamp Examples2.a2 - Parsed.timestamp p.
Proof.
  apply (calculateDuration_is_a_short_gap Examples2.a2
           (addAll [Examples2.a1; Examples2.a2]) 60000).
  vm_compute. reflexivity.
Defined.

End SessionStoreFacts.

(** ** SessionManager: counters and retention *)

Module SessionRetentionFacts.
Import SessionManager SessionStore Statements Statements2.

Lemma total_insert (m : gmap string SessionData) (i : string)
                   (s : SessionData) :
  m !! i = None ->
  map_fold (fun _ session total => (total + length (activities session))%nat)
           0%nat (<[i := s]> m) =
  (map_fold (fun _ session total => (total + length (activities session))%nat)
            0%nat m + length (activities s))%nat.
Proof.
  intros N.
  rewrite (map_fold_insert_L
             (fun _ session total =>
                (total + length (activities session))%nat)
             0%nat i s m); [reflexivity | intros; lia | exact N].
Qed.

Lemma getTotalActivities_addActivity (a : Parsed.t) (sm : SessionManager.t) :
  getTotalActivities (addActivity a sm) = S (getTotalActivities sm).
Proof.
  unfold getTotalActivities, addActivity. cbn [sessions].
  destruct (sessions sm !! Parsed.session_id a) as [s|] eqn:L.
  - rewrite <- (insert_delete_eq (sessions sm)).
    rewrite <- (insert_delete_id (sessions sm) _ _ L) at 2.
    rewrite !total_insert by apply lookup_delete_eq.
    cbn [activities]. rewrite length_app. cbn [length]. lia.
  - rewrite total_insert by exact L. cbn [activities createSession app length].
    lia.
Qed.

(** X13. [addActivity] raises the number that [getTotalActivities] reports
    by one, and the number that [getSessionCount] reports by one when the
    session of the activity is new, and not at all otherwise. *)
Theorem addActivity_counters (a : Parsed.t) (sm : SessionManager.t) :
  getTotalActivities (addActivity a sm) = S (getTotalActivities sm) /\
  getSessionCount (addActivity a sm) =
    match exportSessionData (Parsed.session_id a) sm with
    | Some _ => getSessionCount sm
    | None => S (getSessionCount sm)
    end.
Proof.
  split; [apply getTotalActivities_addActivity|].
  unfold getSessionCount, exportSessionData, addActivity. cbn [sessions].
  rewrite map_size_insert.
  destruct (sessions sm !! Parsed.session_id a); reflexivity.
Qed.

(** X14. [cleanupOldSessions] removes the record and the buffer of exactly
    the sessions whose last activity (or whose start, when there is none) is
    older than [maxAge]; every other record and buffer is left as it was. *)
Theorem cleanupOldSessions_evicts_old_sessions
    (now maxAge : Z) (sm : SessionManager.t) (sessionId : string) :
  sessions (cleanupOldSessions now maxAge sm) !! sessionId =
    match sessions sm !! sessionId with
    | Some s => if Z.ltb (sessionAge s) (now - maxAge) then None else Some s
    | None => None
    end /\
  activityBuffer (cleanupOldSessions now maxAge sm) !! sessionId =
    match sessions sm !! sessionId with
    | Some s => if Z.ltb (sessionAge s) (now - maxAge) then None
                else activityBuffer sm !! sessionId
    | None => activityBuffer sm !! sessionId
    end.
Proof.
  unfold cleanupOldSessions. cbv zeta.
  set (cutoff := (now - maxAge)%Z).
  pose proof (map_fold_weak_ind (fun r m => forall k,
      sessions r !! k =
        match m !! k with
        | Some s => if Z.ltb (sessionAge s) cutoff then None
                    else sessions sm !! k
        | None => sessions sm !! k
        end /\
      activityBuffer r !! k =
        match m !! k with
        | Some s => if Z.ltb (sessionAge s) cutoff then None
                    else activityBuffer sm !! k
        | None => activityBuffer sm !! k
        end) (sweep cutoff) sm) as G.
  cbv beta in G.
  assert (G0 := fun H0 HS => G H0 HS (sessions sm)). clear G.
  assert (G : forall k,
    sessions (map_fold (sweep cutoff) sm (sessions sm)) !! k =
      match sessions sm !! k with
      | Some s => if Z.ltb (sessionAge s) cutoff then None
                  else sessions sm !! k
      | None => sessions sm !! k
      end /\
    activityBuffer (map_fold (sweep cutoff) sm (sessions sm)) !! k =
      match sessions sm !! k with
      | Some s => if Z.ltb (sessionAge s) cutoff then None
                  else activityBuffer sm !! k
      | None => activityBuffer sm !! k
      end).
  { apply G0.
    - intros k. rewrite lookup_empty. split; reflexivity.
    - intros i x m r N IH k. unfold sweep.
      destruct (decide (i = k)) as [<-|Ne].
      + rewrite lookup_insert_eq. specialize (IH i). rewrite N in IH.
        destruct (Z.ltb (sessionAge x) cutoff).
        * cbn [sessions activityBuffer]. rewrite !lookup_delete_eq.
          split; reflexivity.
        * exact IH.
      + rewrite lookup_insert_ne by exact Ne. specialize (IH k).
        destruct (Z.ltb (sessionAge x) cutoff).
        * cbn [sessions activityBuffer].
          rewrite !lookup_delete_ne by exact Ne. exact IH.
        * exact IH. }
  destruct (G sessionId) as [Gs Gb]. rewrite Gs, Gb.
  destruct (sessions sm !! sessionId) eqn:L; split; reflexivity.
Qed.

End SessionRetentionFacts.

(** ** SessionManager: the summary of a session *)

Module SummaryFacts.
Import SessionManager SessionStore Statements Statements2.
Local Open Scope Z_scope.

Lemma add_to_In (k : string) (d : Z) (l : list (string * Z)) (k' : string) :
  In k' (map fst (add_to k d l)) <-> In k' (map fst l) \/ k' = k.
Proof.
  induction l as [|[k0 v] l IH]; simpl.
  - split.
    + intros [E|F]; [right; congruence | contradiction].
    + intros [F|E]; [contradiction | left; congruence].
  - destruct (String.eqb_spec k0 k) as [->|N]; simpl.
    + split; [intros [E|I]; left; auto | intros [I|E]; auto].
    + rewrite IH. split.
      * intros [E|[I|E]]; auto.
      * intros [[E|I]|E]; auto.
Qed.

Lemma add_to_NoDup (k : string) (d : Z) (l : list (string * Z)) :
  List.NoDup (map fst l) -> List.NoDup (map fst (add_to k d l)).
Proof.
  induction l as [|[k0 v] l IH]; simpl; intros N.
  - repeat constructor. intros [].
  - inversion N as [|? ? N1 N2]; subst.
    destruct (String.eqb_spec k0 k) as [->|Ne]; simpl.
    + constructor; assumption.
    + constructor; [|apply IH; exact N2].
      rewrite add_to_In. intros [I|E]; [exact (N1 I) | exact (Ne E)].
Qed.

Lemma bucket_of_In (k : string) (v : Z) (l : list (string * Z)) :
  List.NoDup (map fst l) -> In (k, v) l -> bucket k l = v.
Proof.
  unfold bucket. induction l as [|[k0 v0] l IH]; simpl; intros N I.
  - contradiction.
  - inversion N as [|? ? N1 N2]; subst. destruct I as [E|I].
    + inversion E; subst. rewrite String.eqb_refl. reflexivity.
    + destruct (String.eqb_spec k0 k) as [->|Ne]; [|exact (IH N2 I)].
      exfalso. apply N1. apply (in_map fst) in I. exact I.
Qed.

(** The durations by application that the loop of [getSessionSummary]
    has accumulated after a list of activities. *)
Lemma fold_account_applications (acts : list Parsed.t) :
  forall acc : totals,
    List.NoDup (map fst (applicationDurations acc)) ->
    let T := fold_left account acts acc in
    List.NoDup (map fst (applicationDurations T)) /\
    (forall k, bucket k (applicationDurations T) =
               bucket k (applicationDurations acc) +
               total_of (uses k) acts) /\
    (forall k, In k (map fst (applicationDurations T)) <->
               In k (map fst (applicationDurations acc)) \/
               exists a, In a acts /\ Parsed.application a = k).
Proof.
  induction acts as [|a acts IH]; intros acc N; cbn [fold_left]; cbv zeta.
  - split; [exact N|]. split.
    + intros k. unfold total_of. simpl. lia.
    + intros k. split; [auto|]. intros [I|(a & [] & _)]. exact I.
  - specialize (IH (account acc a)).
    cbn [account applicationDurations] in IH.
    specialize (IH (add_to_NoDup _ _ _ N)). cbv zeta in IH.
    remember (fold_left account acts (account acc a)) as T eqn:ET.
    clear ET. destruct IH as (H1 & H2 & H3).
    split; [exact H1|]. split.
    + intros k. rewrite H2, SessionFacts.bucket_add_to,
        SessionFacts.total_of_cons.
      unfold uses at 2. destruct (String.eqb (Parsed.application a) k); lia.
    + intros k. rewrite H3, add_to_In. split.
      * intros [[I|E]|(b & I & E)].
        -- left. exact I.
        -- right. exists a. split; [left; reflexivity | congruence].
        -- right. exists b. split; [right; exact I | exact E].
      * intros [I|(b & [E|I] & E')].
        -- left. left. exact I.
        -- subst b. left. right. congruence.
        -- right. exists b. split; assumption.
Qed.

Lemma insert_desc_perm (e : string * Z) (l : list (string * Z)) :
  Permutation (insert_desc e l) (e :: l).
Proof.
  induction l as [|x l IH]; simpl.
  - reflexivity.
  - destruct (Z.ltb _ _); [reflexivity|].
    rewrite IH. apply perm_swap.
Qed.

Lemma insert_desc_sorted (e : string * Z) (l : list (string * Z)) :
  StronglySorted longest_first l ->
  StronglySorted longest_first (insert_desc e l).
Proof.
  induction 1 as [|x l S IH F]; simpl.
  - repeat constructor.
  - destruct (Z.ltb_spec (snd x) (snd e)) as [E|E].
    + constructor; [constructor; assumption|].
      constructor; [unfold longest_first; lia|].
      eapply List.Forall_impl; [|exact F].
      unfold longest_first. intros y. lia.
    + constructor; [exact IH|].
      eapply Permutation_Forall; [symmetry; apply insert_desc_perm|].
      constructor; [exact E | exact F].
Qed.

Lemma sort_desc_sorts (l : list (string * Z)) :
  Permutation (sort_desc l) l /\ StronglySorted longest_first (sort_desc l).
Proof.
  unfold sort_desc.
  assert (G : forall acc, StronglySorted longest_first acc ->
    Permutation (fold_left (fun acc e => insert_desc e acc) l acc)
                (acc ++ l) /\
    StronglySorted longest_first
      (fold_left (fun acc e => insert_desc e acc) l acc)).
  { induction l as [|e l IH]; intros acc S; cbn [fold_left].
    - rewrite app_nil_r. split; [reflexivity | exact S].
    - destruct (IH (insert_desc e acc) (insert_desc_sorted e acc S))
        as [P S'].
      split; [|exact S']. rewrite P, insert_desc_perm.
      change ((e :: acc) ++ l)%list with (e :: acc ++ l)%list.
      apply Permutation_middle. }
  apply (G []). constructor.
Qed.

Lemma sorted_app {A} (R : A -> A -> Prop) (l1 l2 : list A) :
  StronglySorted R (l1 ++ l2) ->
  StronglySorted R l1 /\
  List.Forall (fun x => List.Forall (R x) l2) l1.
Proof.
  induction l1 as [|x l1 IH]; cbn [app]; intros S.
  - split; constructor.
  - inversion S as [|? ? S' F]; subst.
    destruct (IH S') as [S1 F1].
    apply Forall_app in F. destruct F as [Fa Fb].
    split; constructor; assumption.
Qed.

Lemma sorted_map {A B} (R : A -> A -> Prop) (Q : B -> B -> Prop)
                 (f : A -> B) (l : list A) :
  (forall x y, R x y -> Q (f x) (f y)) ->
  StronglySorted R l -> StronglySorted Q (map f l).
Proof.
  intros H. induction 1 as [|x l S IH F]; simpl; constructor.
  - exact IH.
  - apply Forall_map. eapply List.Forall_impl; [|exact F]. apply H.
Qed.

Lemma filter_nonempty {A} (f : A -> bool) (a : A) (l : list A) :
  In a l -> f a = true -> (1 <= length (List.filter f l))%nat.
Proof.
  intros I E. assert (I' : In a (List.filter f l))
    by (apply filter_In; split; assumption).
  destruct (List.filter f l); [contradiction | cbn [length]; lia].
Qed.

(** X15. The applications of a summary: at most five, in descending order of
    the time spent, no application twice; the duration of each is the sum of
    the durations of its activities in the session and its count is their
    number, at least one; and an application of the session that is not
    listed was not used longer than any of the five that are. *)
Theorem top_applications_ranking
    (sm : SessionManager.t) (sessionId : string) (session : SessionData) :
  sessions sm !! sessionId = Some session ->
  activities session <> [] ->
  exists s : SessionSummary,
    getSessionSummary sessionId sm = Some s /\
    (length (top_applications s) <= 5)%nat /\
    StronglySorted by_usage (top_applications s) /\
    List.NoDup (map au_name (top_applications s)) /\
    List.Forall
      (fun u =>
         au_duration u = total_of (uses (au_name u)) (activities session) /\
         activity_count u =
           length (List.filter (uses (au_name u)) (activities session)) /\
         (1 <= activity_count u)%nat)
      (top_applications s) /\
    (forall a, In a (activities session) ->
       ~ In (Parsed.application a) (map au_name (top_applications s)) ->
       length (top_applications s) = 5%nat /\
       List.Forall
         (fun u => total_of (uses (Parsed.application a))
                            (activities session) <= au_duration u)
         (top_applications s)).
Proof.
  intros L N. unfold getSessionSummary. rewrite L.
  destruct (activities session) as [|a0 acts0] eqn:A; [congruence|].
  eexists. split; [reflexivity|]. cbn [top_applications].
  set (acts := a0 :: acts0).
  destruct (fold_account_applications acts no_totals) as (H1 & H2 & H3);
    [constructor|].
  set (D := applicationDurations (fold_left account acts no_totals)) in *.
  destruct (sort_desc_sorts D) as [P S].
  set (Srt := sort_desc D) in *.
  pose proof (firstn_skipn 5 Srt) as FS.
  pose proof (firstn_le_length 5 Srt) as LF.
  assert (LR : skipn 5 Srt <> [] -> length (firstn 5 Srt) = 5%nat).
  { intros NE. rewrite length_firstn.
    assert (length (skipn 5 Srt) <> 0%nat)
      by (destruct (skipn 5 Srt); [congruence | discriminate]).
    rewrite length_skipn in *. lia. }
  set (F := firstn 5 Srt) in *. set (R := skipn 5 Srt) in *.
  clearbody F R. rewrite <- FS in P, S. clear FS. clearbody Srt.
  destruct (sorted_app _ _ _ S) as [SF SR].
  assert (ND : List.NoDup (map fst F)).
  { apply (NoDup_app_remove_r _ (map fst R)). rewrite <- map_app.
    eapply Permutation_NoDup; [|exact H1].
    apply Permutation_map. symmetry. exact P. }
  assert (IN : forall e, In e F -> In e D).
  { intros e I. eapply Permutation_in; [exact P|].
    apply in_or_app. left. exact I. }
  assert (B : forall e, In e D ->
                snd e = total_of (uses (fst e)) acts).
  { intros [k v] I. cbn [fst snd].
    rewrite <- (bucket_of_In k v D H1 I), H2. reflexivity. }
  repeat split.
  - rewrite length_map. exact LF.
  - eapply sorted_map; [|exact SF]. intros x y. exact id.
  - rewrite map_map. exact ND.
  - apply Forall_map. apply List.Forall_forall. intros e I.
    cbn [au_duration au_name activity_count]. repeat split.
    + apply B, IN, I.
    + destruct (proj1 (H3 (fst e))) as [[]|(a & Ia & Ea)].
      * apply in_map, IN, I.
      * eapply filter_nonempty; [exact Ia|].
        rewrite Ea. apply String.eqb_refl.
  - rewrite length_map. apply LR. intros ->.
    assert (K : In (Parsed.application a) (map fst D)).
    { apply H3. right. exists a. split; [assumption | reflexivity]. }
    apply in_map_iff in K. destruct K as [e [Ee Ie]].
    apply (Permutation_in _ (Permutation_sym P)) in Ie.
    rewrite app_nil_r in Ie. apply H0. rewrite map_map.
    change (In (Parsed.application a) (map fst F)).
    rewrite <- Ee. apply in_map. exact Ie.
  - assert (K : In (Parsed.application a) (map fst D)).
    { apply H3. right. exists a. split; [assumption | reflexivity]. }
    apply in_map_iff in K. destruct K as [e [Ee Ie]].
    pose proof (B e Ie) as Be. rewrite Ee in Be. rewrite <- Be.
    apply (Permutation_in _ (Permutation_sym P)) in Ie.
    apply in_app_or in Ie. destruct Ie as [Ie|Ie].
    + exfalso. apply H0. rewrite map_map.
      change (In (Parsed.application a) (map fst F)).
      rewrite <- Ee. apply in_map. exact Ie.
    + apply Forall_map. eapply List.Forall_impl; [|exact SR].
      intros x Fx. cbn [au_duration].
      exact (proj1 (List.Forall_forall _ _) Fx e Ie).
Qed.

Lemma top_applications_ranking_witness :
  exists s : SessionSummary,
    getSessionSummary "session-1" Examples.example5 = Some s /\
    (length (top_applications s) <= 5)%nat /\
    StronglySorted by_usage (top_applications s) /\
    List.NoDup (map au_name (top_applications s)) /\
    List.Forall
      (fun u =>
         au_duration u =
           total_of (uses (au_name u))
                    (activities Examples.example5_session) /\
         activity_count u =
           length (List.filter (uses (au_name u))
                               (activities Examples.example5_session)) /\
         (1 <= activity_count u)%nat)
      (top_applications s) /\
    (forall a, In a (activities Examples.example5_session) ->
       ~ In (Parsed.application a) (map au_name (top_applications s)) ->
       length (top_applications s) = 5%nat /\
       List.Forall
         (fun u => total_of (uses (Parsed.application a))
                            (activities Examples.example5_session)
                   <= au_duration u)
         (top_applications s)).
Proof.
  apply (top_applications_ranking Examples.example5 "session-1"
           Examples.example5_session).
  - vm_compute. reflexivity.
  - discriminate.
Defined.

Lemma calculateProductivityScore_range
    (categoryBreakdown : list (string * Z)) (activeDuration totalDuration : Z) :
  (0 <= calculateProductivityScore categoryBreakdown activeDuration
                                   totalDuration <= 100)%Q.
Proof.
  unfold calculateProductivityScore.
  destruct (Z.eqb totalDuration 0); [split; qconst|].
  destruct (weigh categoryBreakdown (0%Q, 0%Q)) as [weightedSum totalWeight].
  destruct (Qeq_bool totalWeight 0); [split; qconst|].
  cbv zeta. split.
  - apply Q.min_glb; [qconst | apply Q.le_max_l].
  - apply Q.le_min_l.
Qed.

(** X16. The productivity score of a summary lies between 0 and 100. *)
Theorem productivity_score_range
    (sm : SessionManager.t) (sessionId : string) (s : SessionSummary) :
  getSessionSummary sessionId sm = Some s ->
  (0 <= productivity_score s <= 100)%Q.
Proof.
  unfold getSessionSummary.
  destruct (sessions sm !! sessionId) as [session|]; [|discriminate].
  destruct (activities session); [discriminate|].
  intros [= <-]. cbn [productivity_score].
  apply calculateProductivityScore_range.
Qed.

Lemma productivity_score_range_witness :
  exists s : SessionSummary,
    getSessionSummary "session-1" Examples.example5 = Some s /\
    (0 <= productivity_score s <= 100)%Q.
Proof.
  eexists. split; [vm_compute; reflexivity|].
  apply (productivity_score_range Examples.example5 "session-1").
  vm_compute. reflexivity.
Defined.

(** X17. The summary of a session after a sequence of calls of [addActivity]
    on a new manager: there is none for a session id that no activity
    carries; otherwise there is one, and its total duration is the time from
    the first activity of the session to the latest one, which is not
    negative. *)
Theorem summary_of_added_activities (acts : list Parsed.t)
                                    (sessionId : string) :
  match of_session sessionId acts with
  | [] => getSessionSummary sessionId (addAll acts) = None
  | a :: rest =>
      exists s : SessionSummary,
        getSessionSummary sessionId (addAll acts) = Some s /\
        total_duration s = latest a rest - Parsed.timestamp a /\
        0 <= total_duration s
  end.
Proof.
  unfold getSessionSummary.
  rewrite (proj1 (SessionStoreFacts.addAll_lookup acts sessionId)).
  destruct (of_session sessionId acts) as [|a rest]; [reflexivity|].
  cbn [session_of activities end_time start_time].
  eexists. split; [reflexivity|]. cbn [total_duration].
  split; [reflexivity|].
  pose proof (SessionStoreFacts.fold_max_ge
                (map Parsed.timestamp rest) (Parsed.timestamp a)).
  unfold latest. lia.
Qed.

Lemma count_categories_spec (l : list Parsed.t) :
  forall acc : list (string * Z),
    List.NoDup (map fst acc) ->
    List.NoDup (map fst (count_categories l acc)) /\
    forall c, bucket c (count_categories l acc) =
              bucket c acc +
              Z.of_nat (length (List.filter
                          (fun a => String.eqb (Parsed.category a) c) l)).
Proof.
  induction l as [|a l IH]; intros acc N; cbn [count_categories].
  - split; [exact N|]. intros c. cbn. lia.
  - destruct (IH _ (add_to_NoDup (Parsed.category a) 1 acc N)) as [H1 H2].
    split; [exact H1|]. intros c.
    rewrite H2, SessionFacts.bucket_add_to. cbn [List.filter].
    destruct (String.eqb (Parsed.category a) c); cbn [length]; lia.
Qed.

Lemma dominant_spec (counts : list (string * Z)) :
  forall (maxCount : Z) (dominantCategory : string),
    (dominant counts maxCount dominantCategory = dominantCategory /\
     List.Forall (fun e => snd e <= maxCount) counts) \/
    (exists v, In (dominant counts maxCount dominantCategory, v) counts /\
               maxCount < v /\
               List.Forall (fun e => snd e <= v) counts).
Proof.
  induction counts as [|[c n] counts IH]; intros m d; cbn [dominant].
  - left. split; [reflexivity | constructor].
  - destruct (Z.ltb_spec m n) as [G|G].
    + right. destruct (IH n c) as [[E F]|(v & I & L & F)].
      * exists n. rewrite E. split; [left; reflexivity|].
        split; [exact G|]. constructor; [cbn; lia | exact F].
      * exists v. split; [right; exact I|]. split; [lia|].
        constructor; [cbn; lia | exact F].
    + destruct (IH m d) as [[E F]|(v & I & L & F)].
      * left. split; [exact E|]. constructor; [exact G | exact F].
      * right. exists v. split; [right; exact I|]. split; [exact L|].
        constructor; [cbn; lia | exact F].
Qed.

Lemma bucket_bound (k : string) (v : Z) (l : list (string * Z)) :
  0 <= v -> List.Forall (fun e => snd e <= v) l -> bucket k l <= v.
Proof.
  intros V F. unfold bucket. induction F as [|[k0 v0] l H _ IH]; cbn.
  - exact V.
  - destruct (String.eqb k0 k); [exact H | exact IH].
Qed.

Lemma filter_filter_uses (app c : string) (acts : list Parsed.t) :
  List.filter (fun a => String.eqb (Parsed.category a) c)
              (List.filter (fun a => String.eqb (Parsed.application a) app)
                           acts) =
  List.filter (fun a => uses app a && String.eqb (Parsed.category a) c) acts.
Proof.
  induction acts as [|a acts IH]; [reflexivity|]. cbn [List.filter].
  unfold uses at 1.
  destruct (String.eqb (Parsed.application a) app); cbn [List.filter andb];
    rewrite IH; reflexivity.
Qed.

(** X18. The category that a summary gives to an application, when the
    session has an activity of the application, is the category of one of
    these activities, and no category has more of them. *)
Theorem getApplicationCategory_is_most_frequent
    (acts : list Parsed.t) (appName : string) (a : Parsed.t) :
  In a acts -> Parsed.application a = appName ->
  (1 <= category_count appName (getApplicationCategory acts appName) acts)%nat
  /\
  forall c, (category_count appName c acts <=
             category_count appName (getApplicationCategory acts appName)
                            acts)%nat.
Proof.
  intros I E. unfold getApplicationCategory, category_count.
  assert (NE : (1 <= length (List.filter
                   (fun a => String.eqb (Parsed.application a) appName)
                   acts))%nat).
  { eapply filter_nonempty; [exact I|]. rewrite E. apply String.eqb_refl. }
  remember (List.filter
              (fun a => String.eqb (Parsed.application a) appName) acts)
    as appActivities eqn:EA.
  destruct appActivities as [|a1 rest]; [cbn [length] in NE; lia|].
  clear NE. rewrite EA.
  destruct (count_categories_spec
              (List.filter
                 (fun a => String.eqb (Parsed.application a) appName) acts)
              [] (List.NoDup_nil _)) as [N B].
  assert (B' : forall c,
    bucket c (count_categories
                (List.filter
                   (fun a => String.eqb (Parsed.application a) appName)
                   acts) []) =
    Z.of_nat (length (List.filter
      (fun a => uses appName a && String.eqb (Parsed.category a) c) acts))).
  { intros c. rewrite B, filter_filter_uses. cbn. lia. }
  clear B.
  set (counts := count_categories
                   (List.filter
                      (fun a => String.eqb (Parsed.application a) appName)
                      acts) []) in *.
  assert (P1 : 1 <= bucket (Parsed.category a1) counts).
  { rewrite B', <- filter_filter_uses, <- EA. cbn [List.filter].
    rewrite String.eqb_refl. cbn [length]. lia. }
  destruct (dominant_spec counts 0 ActivityCategory.NEUTRAL)
    as [[_ F]|(v & Iv & L & F)].
  - pose proof (bucket_bound (Parsed.category a1) 0 counts
                  (Z.le_refl 0) F). lia.
  - pose proof (bucket_of_In _ _ _ N Iv) as Bv. rewrite B' in Bv.
    split; [lia|]. intros c.
    pose proof (bucket_bound c v counts (Z.lt_le_incl _ _ L) F) as Bc.
    rewrite B' in Bc. lia.
Qed.

Lemma getApplicationCategory_is_most_frequent_witness :
  (1 <= category_count "app" (getApplicationCategory
                               [Examples2.a1; Examples2.a2] "app")
                       [Examples2.a1; Examples2.a2])%nat /\
  forall c, (category_count "app" c [Examples2.a1; Examples2.a2] <=
             category_count "app" (getApplicationCategory
                                     [Examples2.a1; Examples2.a2] "app")
                            [Examples2.a1; Examples2.a2])%nat.
Proof.
  apply (getApplicationCategory_is_most_frequent
           [Examples2.a1; Examples2.a2] "app" Examples2.a1).
  - left. reflexivity.
  - reflexivity.
Defined.

End SummaryFacts.

(** ** ActivityCategorizer: the cache *)

Module CacheFacts.
Import ActivityCategorizer Statements2.

Lemma initializeCache_other (l : list (string * string)) (k : string) :
  ~ In k (map fst l) ->
  forall cache : gmap string string,
    fold_left (fun c kv => <[fst kv := snd kv]> c) l cache !! k = cache !! k.
Proof.
  induction l as [|[k0 v0] l IH]; intros N cache; cbn [fold_left].
  - reflexivity.
  - cbn [map fst] in N. rewrite IH by (intros I; apply N; right; exact I).
    cbn [fst snd]. apply lookup_insert_ne.
    intros E. apply N. left. exact E.
Qed.

Lemma initializeCache_lookup (l : list (string * string)) (k v : string) :
  List.NoDup (map fst l) -> In (k, v) l ->
  forall cache : gmap string string,
    fold_left (fun c kv => <[fst kv := snd kv]> c) l cache !! k = Some v.
Proof.
  induction l as [|[k0 v0] l IH]; intros N I cache; cbn [fold_left].
  - contradiction.
  - inversion N as [|? ? N1 N2]; subst. destruct I as [E|I].
    + inversion E; subst. rewrite initializeCache_other by exact N1.
      apply lookup_insert_eq.
    + apply IH; assumption.
Qed.

Lemma initializeCache_values (l : list (string * string)) :
  forall (cache : gmap string string) (k v : string),
    fold_left (fun c kv => <[fst kv := snd kv]> c) l cache !! k = Some v ->
    In v (map snd l) \/ cache !! k = Some v.
Proof.
  induction l as [|[k0 v0] l IH]; intros cache k v L; cbn [fold_left] in L.
  - right. exact L.
  - destruct (IH _ _ _ L) as [I|L'].
    + left. right. exact I.
    + cbn [fst snd] in L'. destruct (decide (k0 = k)) as [<-|Ne].
      * rewrite lookup_insert_eq in L'. left. left. cbn. congruence.
      * rewrite lookup_insert_ne in L' by exact Ne. right. exact L'.
Qed.

Lemma knownApps_NoDup : List.NoDup (map fst knownApps).
Proof.
  apply NoDup_ListNoDup.
  apply (bool_decide_unpack (NoDup (map fst knownApps))).
  vm_compute. exact I.
Qed.

Lemma assoc_In {A} (k : string) (v : A) (l : list (string * A)) :
  Js.assoc k l = Some v -> In (k, v) l.
Proof.
  induction l as [|[k0 v0] l IH]; cbn [Js.assoc]; [discriminate|].
  destruct (String.eqb_spec k0 k) as [->|Ne].
  - intros [= ->]. left. reflexivity.
  - intros L. right. exact (IH L).
Qed.

Lemma valid_cache_constructor (cfg : CategorizationConfig) :
  valid_cache (constructor cfg).
Proof.
  intros app category L. unfold constructor, initializeCache in L.
  cbn [categoryCache] in L.
  destruct (initializeCache_values _ _ _ _ L) as [I|E].
  - revert I. generalize category.
    apply (proj1 (List.Forall_forall _ _)).
    repeat (apply List.Forall_cons; [vm_compute; tauto|]).
    apply List.Forall_nil.
  - rewrite lookup_empty in E. discriminate.
Qed.



(** X20. An application whose name in lower case is one of the names that
    [initializeCache] knows gets the category given there from a new
    categorizer, and after [updateConfig]: the lists of the configuration,
    the type and the URL of the record have no part in it. *)
Theorem known_application_ignores_configuration
    (h : Host) (cfg cfg' : CategorizationConfig) (c : ActivityCategorizer.t)
    (activity : Raw.t) (type category : string) :
  Js.assoc (app_key activity) knownApps = Some category ->
  categorize h (constructor cfg) activity type =
    (category, constructor cfg) /\
  categorize h (updateConfig cfg' c) activity type =
    (category, updateConfig cfg' c).
Proof.
  intros L. apply assoc_In in L.
  split; apply CategorizerFacts.categorize_cached;
    cbn [constructor updateConfig categoryCache]; unfold initializeCache;
    apply initializeCache_lookup; auto using knownApps_NoDup.
Qed.

Lemma known_application_ignores_configuration_witness :
  Js.assoc (app_key Examples2.slack_window) knownApps =
    Some ActivityCategory.COMMUNICATION /\
  categorizeByApplication Examples2.slack_distracting
    (app_key Examples2.slack_window) = Some ActivityCategory.DISTRACTING /\
  fst (categorize Node.host (constructor Examples2.slack_distracting)
                  Examples2.slack_window ActivityType.COMMUNICATING) =
    ActivityCategory.COMMUNICATION.
Proof.
  split; [reflexivity|]. split; [vm_compute; reflexivity|].
  rewrite (proj1 (known_application_ignores_configuration
                    Node.host Examples2.slack_distracting
                    Examples2.slack_distracting
                    Examples.default_categorizer Examples2.slack_window
                    ActivityType.COMMUNICATING
                    ActivityCategory.COMMUNICATION eq_refl)).
  reflexivity.
Defined.

(** X21. [categorize] returns a member of the enumeration of the categories,
    and keeps the cache within the enumeration, when the cache holds only
    members of it, as the cache of a new categorizer does. *)
Theorem categorize_returns_a_category
    (h : Host) (c : ActivityCategorizer.t) (activity : Raw.t)
    (type : string) :
  valid_cache c ->
  In (fst (categorize h c activity type)) categories /\
  valid_cache (snd (categorize h c activity type)).
Proof.
  intros V. unfold categorize.
  destruct (categoryCache c !! app_key activity) as [cached|] eqn:L.
  - split; [exact (V _ _ L) | exact V].
  - cbn [fst snd].
    match goal with
    | |- In ?x _ /\ _ => assert (G : In x categories)
    end.
    { assert (T : In (categorizeByType type) categories).
      { unfold categorizeByType.
        repeat (destruct (_ || _) || destruct (String.eqb _ _));
          vm_compute; tauto. }
      assert (A : forall d, In d categories ->
                In (match categorizeByApplication (config c)
                            (app_key activity) with
                    | Some appCategory => appCategory
                    | None => d
                    end) categories).
      { intros d D. unfold categorizeByApplication.
        repeat (destruct (negb _) || destruct (some_includes _ _));
          try exact D; vm_compute; tauto. }
      assert (U : forall u d, In d categories ->
                In (match categorizeByUrl h u with
                    | Some urlCategory => urlCategory
                    | None => d
                    end) categories).
      { intros u d D. unfold categorizeByUrl, categorizeByDomain.
        destruct (URL_hostname h u); [|exact D].
        repeat destruct (domain_in _ _); try exact D; vm_compute; tauto. }
      destruct (Raw.ctx url activity) as [u|]; [|exact (A _ T)].
      destruct (JsString.truthy u); [|exact (A _ T)].
      apply U. exact (A _ T). }
    split; [exact G|].
    intros app category. cbn [categoryCache].
    destruct (decide (app_key activity = app)) as [<-|Ne].
    + rewrite lookup_insert_eq. intros [= <-]. exact G.
    + rewrite lookup_insert_ne by exact Ne. apply V.
Qed.

Lemma categorize_returns_a_category_witness :
  valid_cache Examples.default_categorizer /\
  In (fst (categorize Node.host Examples.default_categorizer
                      Examples2.brave_github ActivityType.BROWSING))
     categories.
Proof.
  split; [apply valid_cache_constructor|].
  apply (categorize_returns_a_category Node.host
           Examples.default_categorizer Examples2.brave_github
           ActivityType.BROWSING).
  apply valid_cache_constructor.
Defined.

End CacheFacts.

(** ** ActivityParser: what a call of [parseActivity] leaves behind *)

Module ParserFacts.
Import ActivityParser ParserAdmin Statements Statements2.

Lemma attach_duration_fields (sm : SessionManager.t) (parsed : Parsed.t) :
  Parsed.id (attach_duration sm parsed) = Parsed.id parsed /\
  Parsed.timestamp (attach_duration sm parsed) = Parsed.timestamp parsed /\
  Parsed.device_id (attach_duration sm parsed) = Parsed.device_id parsed /\
  Parsed.session_id (attach_duration sm parsed) = Parsed.session_id parsed /\
  Parsed.application (attach_duration sm parsed) =
    Parsed.application parsed /\
  Parsed.metadata (attach_duration sm parsed) = Parsed.metadata parsed /\
  Parsed.quality_score (attach_duration sm parsed) =
    Parsed.quality_score parsed.
Proof.
  unfold attach_duration.
  destruct (SessionManager.calculateDuration parsed sm) as [d|];
    [destruct (Z.eqb d 0)|]; repeat split; reflexivity.
Qed.

(** The parser after a call of [parseActivity], by the result of the
    call. *)
Lemma parseActivity_state (h : Host) (now : Z) (p : ActivityParser.t)
                          (raw : Raw.t) :
  let r := parseActivity h now p raw in
  qualityAnalyzer (snd r) =
    snd (QualityAnalyzer.analyze h now (qualityAnalyzer p) raw) /\
  config (snd r) = config p /\
  contentExtractor (snd r) = contentExtractor p /\
  RuleEngine.rules (ruleEngine (snd r)) = RuleEngine.rules (ruleEngine p) /\
  ActivityCategorizer.config (categorizer (snd r)) =
    ActivityCategorizer.config (categorizer p) /\
  match fst r with
  | None => sessionManager (snd r) = sessionManager p
  | Some a =>
      sessionManager (snd r) =
        SessionManager.addActivity a (sessionManager p) /\
      exists (ty category : string) (content : ActivityContent)
             (ruleResults : RuleResult.t),
        a = attach_duration (sessionManager p)
              (build raw ty category content ruleResults
                 (fst (QualityAnalyzer.analyze h now (qualityAnalyzer p)
                         raw)))
  end.
Proof.
  cbv zeta. unfold parseActivity, QualityAnalyzer.analyze.
  cbn [fst snd with_quality config contentExtractor categorizer
       ruleEngine sessionManager qualityAnalyzer].
  destruct (Js.Qltb _ _).
  { cbn. repeat split; reflexivity. }
  destruct (determineActivityType raw) as [ty|e];
    [|cbn; repeat split; reflexivity].
  destruct (contentExtractor p raw) as [content|e];
    [|cbn; repeat split; reflexivity].
  pose proof (eq_refl (ActivityCategorizer.categorize h (categorizer p)
                         raw ty)) as C.
  unfold ActivityCategorizer.categorize at 2 in C.
  destruct (ActivityCategorizer.categorize h (categorizer p) raw ty)
    as [category c].
  assert (Cc : ActivityCategorizer.config c =
               ActivityCategorizer.config (categorizer p)).
  { destruct (ActivityCategorizer.categoryCache (categorizer p) !! _);
      inversion C; reflexivity. }
  clear C.
  cbn [with_categorizer ruleEngine].
  unfold RuleEngine.apply.
  destruct (RuleEngine.apply_loop h _ raw RuleResult.empty _)
    as [applied hits].
  destruct applied as [ruleResults|msg]; cbn.
  - repeat split; try reflexivity; try exact Cc.
    exists ty, category, content, ruleResults. reflexivity.
  - repeat split; try reflexivity; exact Cc.
Qed.

(** X22. An activity that [parseActivity] returns carries the id, the
    timestamp, the device and the session of the record, the application of
    the record ('Unknown' without one), the version of the parser and the
    quality score as its confidence; and it is stored: the session manager
    after the call is the one before it with this activity added, so that
    the activity is the last one of its session. *)
Theorem accepted_activity_is_stored
    (h : Host) (now : Z) (p p' : ActivityParser.t) (raw : Raw.t)
    (a : Parsed.t) :
  parseActivity h now p raw = (Some a, p') ->
  (Parsed.id a = Raw.id raw /\
   Parsed.timestamp a = Raw.timestamp raw /\
   Parsed.device_id a = Raw.device_id raw /\
   Parsed.session_id a = Raw.session_id raw /\
   Parsed.application a =
     JsString.or_else (Raw.ctx application raw) "Unknown" /\
   parser_version (Parsed.metadata a) = "0.1.0" /\
   confidence (Parsed.metadata a) = Parsed.quality_score a) /\
  sessionManager p' = SessionManager.addActivity a (sessionManager p) /\
  exists s : SessionData,
    SessionStore.exportSessionData (Raw.session_id raw) (sessionManager p')
      = Some s /\
    last (activities s) = Some a.
Proof.
  intros E. pose proof (parseActivity_state h now p raw) as S.
  cbv zeta in S. rewrite E in S. cbn [fst snd] in S.
  destruct S as (_ & _ & _ & _ & _ & SM & ty & category & content &
                 ruleResults & A).
  destruct (attach_duration_fields (sessionManager p)
              (build raw ty category content ruleResults
                 (fst (QualityAnalyzer.analyze h now (qualityAnalyzer p)
                         raw))))
    as (F1 & F2 & F3 & F4 & F5 & F6 & F7).
  rewrite <- A in *. cbn [build Parsed.id Parsed.timestamp Parsed.device_id
    Parsed.session_id Parsed.application Parsed.metadata
    Parsed.quality_score] in *.
  split.
  { repeat split; try assumption.
    - rewrite F6. reflexivity.
    - rewrite F6, F7. reflexivity. }
  split; [exact SM|].
  rewrite SM. unfold SessionStore.exportSessionData,
    SessionManager.addActivity. cbn [SessionManager.sessions].
  rewrite F4, lookup_insert_eq. eexists. split; [reflexivity|].
  cbn [activities]. apply last_snoc.
Qed.

Lemma accepted_activity_is_stored_witness :
  exists a : Parsed.t,
    fst (parseActivity Node.host Examples.now Examples.default_parser
                       Examples.chrome_youtube) = Some a /\
    Parsed.id a = "test-5" /\
    SessionStore.getTotalActivities
      (sessionManager
         (snd (parseActivity Node.host Examples.now Examples.default_parser
                             Examples.chrome_youtube))) = 1%nat.
Proof.
  destruct (parseActivity Node.host Examples.now Examples.default_parser
                          Examples.chrome_youtube) as [[a|] p'] eqn:E.
  - destruct (accepted_activity_is_stored _ _ _ _ _ _ E)
      as ((I & _) & SM & _).
    exists a. split; [reflexivity|]. split; [exact I|].
    cbn [snd]. rewrite SM.
    rewrite SessionRetentionFacts.getTotalActivities_addActivity.
    reflexivity.
  - vm_compute in E. discriminate.
Defined.

(** X23. A record that [parseActivity] rejects is stored in no session: the
    session manager, the rule list and the configuration are as before the
    call; its quality score is recorded in the history of the quality
    analyzer all the same. *)
Theorem rejected_record_is_not_stored
    (h : Host) (now : Z) (p : ActivityParser.t) (raw : Raw.t) :
  fst (parseActivity h now p raw) = None ->
  sessionManager (snd (parseActivity h now p raw)) = sessionManager p /\
  config (snd (parseActivity h now p raw)) = config p /\
  RuleEngine.rules (ruleEngine (snd (parseActivity h now p raw))) =
    RuleEngine.rules (ruleEngine p) /\
  QualityAnalyzer.qualityScores
    (qualityAnalyzer (snd (parseActivity h now p raw))) =
  QualityAnalyzer.record_score
    (fst (QualityAnalyzer.analyze h now (qualityAnalyzer p) raw))
    (QualityAnalyzer.qualityScores (qualityAnalyzer p)).
Proof.
  intros N. pose proof (parseActivity_state h now p raw) as S.
  cbv zeta in S. rewrite N in S.
  destruct S as (Q & C & _ & R & _ & SM).
  rewrite Q. repeat split; assumption.
Qed.

Lemma rejected_record_is_not_stored_witness :
  fst (parseActivity Node.host Examples.now Examples.bad_regex_parser
                     Examples.chrome_github) = None /\
  sessionManager (snd (parseActivity Node.host Examples.now
                         Examples.bad_regex_parser Examples.chrome_github)) =
    SessionManager.constructor /\
  length (QualityAnalyzer.qualityScores
            (qualityAnalyzer
               (snd (parseActivity Node.host Examples.now
                       Examples.bad_regex_parser Examples.chrome_github)))) =
    1%nat.
Proof.
  assert (N : fst (parseActivity Node.host Examples.now
                     Examples.bad_regex_parser Examples.chrome_github) = None)
    by (vm_compute; reflexivity).
  destruct (rejected_record_is_not_stored Node.host Examples.now
              Examples.bad_regex_parser Examples.chrome_github N)
    as (SM & _ & _ & Q).
  split; [exact N|]. split; [exact SM|]. rewrite Q. reflexivity.
Defined.

Lemma accepted_cons (r : option Parsed.t) (rs : list (option Parsed.t)) :
  accepted (r :: rs) =
  (match r with Some _ => 1 | None => 0 end + accepted rs)%nat.
Proof. unfold accepted. destruct r; reflexivity. Qed.

(** X24. The number [totalParsed] of [getStatistics] grows, over a sequence
    of calls of [parseActivity], by the number of calls that return an
    activity. *)
Theorem totalParsed_counts_accepted
    (h : Host) (calls : list (Z * Raw.t)) (p : ActivityParser.t) :
  totalParsed (getStatistics (snd (parseAll h p calls))) =
  (totalParsed (getStatistics p) + accepted (fst (parseAll h p calls)))%nat.
Proof.
  revert p. induction calls as [|[now raw] calls IH]; intros p;
    cbn [parseAll].
  - cbn. lia.
  - pose proof (parseActivity_state h now p raw) as S. cbv zeta in S.
    destruct (parseActivity h now p raw) as [r p1].
    specialize (IH p1). destruct (parseAll h p1 calls) as [rs p2].
    cbn [fst snd] in *. rewrite IH, accepted_cons.
    destruct S as (_ & _ & _ & _ & _ & SM).
    unfold getStatistics. cbn [totalParsed].
    destruct r as [a|].
    + destruct SM as [SM _]. rewrite SM,
        SessionRetentionFacts.getTotalActivities_addActivity. lia.
    + rewrite SM. lia.
Qed.




End ParserFacts.
